(** * Investment-scoring pipeline of the inmobiliaria scraper

    A shallow embedding of [config/settings.py],
    [scraping/data_processor.py] (class [DataProcessor]) and
    [machine_learning/optimizer.py] (class [InvestmentOptimizer]),
    with the pandas, numpy and scikit-learn operations they call.

    Modelling conventions.
    - A DataFrame is the list of its rows, in row order; index labels
      are not represented.
    - A float64 cell is an [option Q]: [None] is NaN (a missing value),
      [Some q] a finite number.  Arithmetic is exact; rounding error is
      not represented: the float64 scaler can return a value one
      rounding step above 1 where the exact value is 1.  The statements
      about scores rest on order, on NaN and on values that float64
      computes exactly, such as the low end of a scale, and none on the
      bounds of the unit interval.  Values computed by a division whose
      divisor may be zero live in [xfloat], which adds the two
      infinities.
    - A text cell is an [option string] ([None] is NaN), the UTF-8
      bytes of the Python string.  [Str.strip] and [Str.title], which
      [clean_data] applies, work on the decoded code points; the
      matching of [str.contains] and the cleaners of the scraper are
      modelled on ASCII text.  [str.contains] reads its pattern as a
      regular expression and raises on one that does not compile;
      that exception is not represented.
    - The columns [url] and [fecha_scraping] are carried through by
      every operation below without being read, and are left out. *)

From Stdlib Require Import List String Ascii Bool ZArith QArith Qround.
From Stdlib Require Import Lia Lqa Sorted Permutation.
Import ListNotations.

Open Scope Q_scope.

(* ================================================================= *)
(** ** config/settings.py *)

Module Settings.

Definition MIN_PRICE : Q := 50000.
Definition MAX_PRICE : Q := 500000.
Definition MIN_M2 : Q := 30.
Definition MAX_M2 : Q := 200.

Definition BARRIOS_MONTEVIDEO : list string :=
  [ "Pocitos"; "Punta Carretas"; "Cordón"; "Centro"; "Ciudad Vieja";
    "Parque Rodó"; "Buceo"; "Malvín"; "Carrasco"; "Tres Cruces";
    "La Blanqueada"; "Villa Biarritz"; "Punta Gorda"; "Palermo";
    "Barrio Sur"; "Aguada"; "Reducto"; "Brazo Oriental";
    "Villa Dolores" ]%string.

End Settings.

(* ================================================================= *)
(** ** Float cells and columns *)

Module Cell.

(** Comparisons of a cell with a number: a comparison with NaN is
    false. *)
Definition ge (x : option Q) (c : Q) : bool :=
  match x with Some v => Qle_bool c v | None => false end.

Definition le (x : option Q) (c : Q) : bool :=
  match x with Some v => Qle_bool v c | None => false end.

Definition Qltb (x y : Q) : bool := negb (Qle_bool y x).

Definition notna {A} (x : option A) : bool :=
  match x with Some _ => true | None => false end.

(** NaN-propagating arithmetic on cells. *)
Definition lift2 (f : Q -> Q -> Q) (x y : option Q) : option Q :=
  match x, y with
  | Some a, Some b => Some (f a b)
  | _, _ => None
  end.

Definition add := lift2 Qplus.
Definition sub := lift2 Qminus.
Definition mul := lift2 Qmult.

(** Equality of cells up to the representation of the rational. *)
Definition eqv (x y : option Q) : Prop :=
  match x, y with
  | Some a, Some b => a == b
  | None, None => True
  | _, _ => False
  end.

(** The cell is a number inside the closed interval [lo, hi]. *)
Definition within (lo hi : Q) (x : option Q) : Prop :=
  match x with Some v => lo <= v /\ v <= hi | None => False end.

(** Values of a column that are not NaN. *)
Fixpoint values (l : list (option Q)) : list Q :=
  match l with
  | [] => []
  | Some v :: r => v :: values r
  | None :: r => values r
  end.

Fixpoint Qsum (l : list Q) : Q :=
  match l with
  | [] => 0
  | x :: r => x + Qsum r
  end.

(** [Series.mean] with the default [skipna=True]: NaN when no value is
    left. *)
Definition mean (l : list (option Q)) : option Q :=
  match values l with
  | [] => None
  | v :: r => Some (Qsum (v :: r) / inject_Z (Z.of_nat (List.length (v :: r))))
  end.

(** [numpy.nanmin] and [numpy.nanmax] of a column, also the [min] and
    [max] of a Series: NaN cells are skipped, and the result is NaN
    when every cell is NaN. *)
Definition Qmin' (a b : Q) : Q := if Qle_bool a b then a else b.
Definition Qmax' (a b : Q) : Q := if Qle_bool a b then b else a.

Definition nanmin (col : list (option Q)) : option Q :=
  match values col with
  | [] => None
  | v :: r => Some (fold_left Qmin' r v)
  end.

Definition nanmax (col : list (option Q)) : option Q :=
  match values col with
  | [] => None
  | v :: r => Some (fold_left Qmax' r v)
  end.

(** [Series.count]: the number of cells that are not NaN. *)
Definition count (col : list (option Q)) : nat := List.length (values col).

(** Ascending insertion sort of numbers. *)
Fixpoint Qinsert (x : Q) (l : list Q) : list Q :=
  match l with
  | [] => [x]
  | y :: r => if Qle_bool x y then x :: y :: r else y :: Qinsert x r
  end.

Definition Qsort (l : list Q) : list Q := fold_right Qinsert [] l.

(** [Series.median] with [skipna=True]: the middle of the sorted
    values, or the mean of the two middle ones; NaN when no value is
    left. *)
Definition median (l : list (option Q)) : option Q :=
  let s := Qsort (values l) in
  let n := List.length s in
  match n with
  | O => None
  | _ =>
      if Nat.even n
      then Some ((nth (n / 2 - 1) s 0 + nth (n / 2) s 0) / 2)
      else Some (nth (n / 2) s 0)
  end.

(** [Series.fillna(value)]; filling with NaN changes nothing. *)
Definition fillna (value : option Q) (x : option Q) : option Q :=
  match x with Some _ => x | None => value end.

(** [numpy.round(x, 2)]: to the nearest hundredth, halves to the even
    neighbour. *)
Definition round_half_even (q : Q) : Z :=
  let n := Qfloor q in
  let frac := q - inject_Z n in
  if Qltb frac (1 # 2) then n
  else if Qltb (1 # 2) frac then (n + 1)%Z
  else if Z.even n then n else (n + 1)%Z.

Definition round2 (x : option Q) : option Q :=
  match x with
  | Some q => Some (inject_Z (round_half_even (q * 100)) / 100)
  | None => None
  end.

End Cell.

(* ================================================================= *)
(** ** Python [str] methods used on the [barrio] column *)

Module Str.

Definition code (c : ascii) : nat := nat_of_ascii c.

(** [str.isspace] on one character: tab, LF, VT, FF, CR, the four
    separators 0x1c-0x1f and space. *)
Definition isspace (c : ascii) : bool :=
  let n := code c in
  ((9 <=? n) && (n <=? 13) || (28 <=? n) && (n <=? 32))%nat.

Definition isupper (c : ascii) : bool :=
  let n := code c in ((65 <=? n) && (n <=? 90))%nat.

Definition islower (c : ascii) : bool :=
  let n := code c in ((97 <=? n) && (n <=? 122))%nat.

Definition lower (c : ascii) : ascii :=
  if isupper c then ascii_of_nat (code c + 32) else c.

Definition upper (c : ascii) : ascii :=
  if islower c then ascii_of_nat (code c - 32) else c.

Fixpoint lstrip (l : list ascii) : list ascii :=
  match l with
  | c :: r => if isspace c then lstrip r else l
  | [] => []
  end.

Fixpoint rstrip (l : list ascii) : list ascii :=
  match l with
  | [] => []
  | c :: r =>
      match rstrip r with
      | [] => if isspace c then [] else [c]
      | r' => c :: r'
      end
  end.

Definition strip_chars (l : list ascii) : list ascii := lstrip (rstrip l).

(** [str.title]: a cased character is upper-cased when the previous
    character is not cased, lower-cased otherwise. *)
Fixpoint title_chars (previous_is_cased : bool) (l : list ascii)
  : list ascii :=
  match l with
  | [] => []
  | c :: r =>
      if islower c then
        (if previous_is_cased then c else upper c) :: title_chars true r
      else if isupper c then
        (if previous_is_cased then lower c else c) :: title_chars true r
      else c :: title_chars false r
  end.

(** One step of [title_chars]: the character written for [c], and
    whether [c] is cased. *)
Definition title_char (previous_is_cased : bool) (c : ascii) : ascii :=
  if islower c then (if previous_is_cased then c else upper c)
  else if isupper c then (if previous_is_cased then lower c else c)
  else c.

Definition cased (c : ascii) : bool := islower c || isupper c.

(** [str.strip] and [str.title] on ASCII text, byte by byte. *)
Definition strip_ascii (s : string) : string :=
  string_of_list_ascii (strip_chars (list_ascii_of_string s)).

Definition title_ascii (s : string) : string :=
  string_of_list_ascii (title_chars false (list_ascii_of_string s)).

Fixpoint prefix_chars (p l : list ascii) : bool :=
  match p, l with
  | [], _ => true
  | _ :: _, [] => false
  | a :: p', b :: l' => Ascii.eqb a b && prefix_chars p' l'
  end.

Fixpoint infix_chars (p l : list ascii) : bool :=
  prefix_chars p l ||
  match l with
  | [] => false
  | _ :: r => infix_chars p r
  end.

(** [Series.str.contains(pat, case=False, na=False)] on one cell, for a
    pattern without regular-expression metacharacters: [pat] occurs in
    the cell, letter case ignored; a NaN cell gives [False]. *)
Definition contains_nocase (pat : string) (cell : option string) : bool :=
  match cell with
  | None => false
  | Some s =>
      infix_chars (map lower (list_ascii_of_string pat))
                  (map lower (list_ascii_of_string s))
  end.

(** *** Unicode text

    A Python string is a sequence of code points; a cell holds its
    UTF-8 bytes. *)

Definition point (c : ascii) : N := N_of_ascii c.

(** UTF-8 decoding of well-formed text: a lead byte below 0x80 is one
    code point, a lead byte below 0xE0 takes one continuation byte, one
    below 0xF0 two and any other three. *)
Fixpoint decode (l : list ascii) : list N :=
  match l with
  | [] => []
  | b0 :: r0 =>
      let n0 := point b0 in
      if (n0 <? 128)%N then n0 :: decode r0
      else if (n0 <? 224)%N then
        match r0 with
        | b1 :: r1 =>
            ((n0 mod 32) * 64 + point b1 mod 64)%N :: decode r1
        | [] => [n0]
        end
      else if (n0 <? 240)%N then
        match r0 with
        | b1 :: b2 :: r2 =>
            ((n0 mod 16) * 4096 + (point b1 mod 64) * 64
             + point b2 mod 64)%N :: decode r2
        | _ => n0 :: decode r0
        end
      else
        match r0 with
        | b1 :: b2 :: b3 :: r3 =>
            ((n0 mod 8) * 262144 + (point b1 mod 64) * 4096
             + (point b2 mod 64) * 64 + point b3 mod 64)%N :: decode r3
        | _ => n0 :: decode r0
        end
  end.

Definition encode_point (p : N) : list ascii :=
  if (p <? 128)%N then [ascii_of_N p]
  else if (p <? 2048)%N then
    [ascii_of_N (192 + p / 64); ascii_of_N (128 + p mod 64)]
  else if (p <? 65536)%N then
    [ascii_of_N (224 + p / 4096); ascii_of_N (128 + (p / 64) mod 64);
     ascii_of_N (128 + p mod 64)]
  else
    [ascii_of_N (240 + p / 262144); ascii_of_N (128 + (p / 4096) mod 64);
     ascii_of_N (128 + (p / 64) mod 64); ascii_of_N (128 + p mod 64)].

Definition encode (l : list N) : list ascii := flat_map encode_point l.

Definition between (lo hi p : N) : bool := ((lo <=? p) && (p <=? hi))%N.

(** [str.isspace] on one code point: the whole whitespace table of
    Python. *)
Definition isspace_point (p : N) : bool :=
  between 9 13 p || between 28 32 p || (p =? 133)%N || (p =? 160)%N
  || (p =? 5760)%N || between 8192 8202 p || (p =? 8232)%N
  || (p =? 8233)%N || (p =? 8239)%N || (p =? 8287)%N || (p =? 12288)%N.

(** The case tables.  They hold Basic Latin and Latin-1 Supplement
    (U+0000 to U+00FF), the three code points that the mappings of
    these reach (U+0178, U+039C, U+03BC) and U+0130, the dotted capital
    I, whose lower case is two code points.  Any other code point is
    taken as caseless. *)
Definition isupper_point (p : N) : bool :=
  between 65 90 p || between 192 214 p || between 216 222 p
  || (p =? 304)%N || (p =? 376)%N || (p =? 924)%N.

Definition islower_point (p : N) : bool :=
  between 97 122 p || (p =? 170)%N || (p =? 181)%N || (p =? 186)%N
  || between 223 246 p || between 248 255 p || (p =? 956)%N.

Definition cased_point (p : N) : bool :=
  isupper_point p || islower_point p.

(** The full lower-case mapping of a code point. *)
Definition lower_point (p : N) : list N :=
  if between 65 90 p || between 192 214 p || between 216 222 p
  then [(p + 32)%N]
  else if (p =? 304)%N then [105; 775]%N
  else if (p =? 376)%N then [255%N]
  else if (p =? 924)%N then [956%N]
  else [p].

(** The full title-case mapping of a code point. *)
Definition title_point (p : N) : list N :=
  if between 97 122 p || between 224 246 p || between 248 254 p
  then [(p - 32)%N]
  else if (p =? 255)%N then [376%N]
  else if (p =? 181)%N then [924%N]
  else if (p =? 223)%N then [83; 115]%N
  else if (p =? 956)%N then [924%N]
  else [p].

Fixpoint lstrip_points (l : list N) : list N :=
  match l with
  | p :: r => if isspace_point p then lstrip_points r else l
  | [] => []
  end.

Fixpoint rstrip_points (l : list N) : list N :=
  match l with
  | [] => []
  | p :: r =>
      match rstrip_points r with
      | [] => if isspace_point p then [] else [p]
      | r' => p :: r'
      end
  end.

Definition strip_points (l : list N) : list N :=
  lstrip_points (rstrip_points l).

(** [str.title] on code points: a code point that follows a cased one
    is lower-cased, any other is title-cased; both mappings may write
    more than one code point. *)
Fixpoint title_points (previous_is_cased : bool) (l : list N) : list N :=
  match l with
  | [] => []
  | p :: r =>
      (if previous_is_cased then lower_point p else title_point p)
      ++ title_points (cased_point p) r
  end.

(** [str.strip] and [str.title]. *)
Definition strip (s : string) : string :=
  string_of_list_ascii
    (encode (strip_points (decode (list_ascii_of_string s)))).

Definition title (s : string) : string :=
  string_of_list_ascii
    (encode (title_points false (decode (list_ascii_of_string s)))).

(** The text holds ASCII characters only. *)
Definition is_ascii_char (c : ascii) : bool := (point c <? 128)%N.

Definition is_ascii (s : string) : bool :=
  forallb is_ascii_char (list_ascii_of_string s).

End Str.

(* ================================================================= *)
(** ** Exceptions and pandas helpers shared by both classes *)

Inductive exn : Type :=
| KeyError
| IndexError
| AttributeError.

Inductive result (A : Type) : Type :=
| Ok (a : A)
| Raise (e : exn).

Arguments Ok {A} a.
Arguments Raise {A} e.

Module Pandas.

Section SortValues.

Context {A : Type}.
(** [isna r]: the sort key of row [r] is NaN.  [geb r1 r2]: the key
    of [r1] is at least the key of [r2] (both not NaN). *)
Variable isna : A -> bool.
Variable geb : A -> A -> bool.

(** Insertion into a list sorted by descending key: [x] goes in front
    of the first row whose key is not larger than its own. *)
Fixpoint insert_desc (x : A) (l : list A) : list A :=
  match l with
  | [] => [x]
  | y :: r => if geb x y then x :: y :: r else y :: insert_desc x r
  end.

Definition sort_desc (l : list A) : list A := fold_right insert_desc [] l.

(** [df.sort_values(col, ascending=False)] with the default
    [na_position='last']: the rows with a key, by descending key,
    then the rows whose key is NaN in their original order.  The
    sort looks at the one key column; rows with equal keys are left
    in table order, which is what numpy's default sort does on the
    short arrays (fewer than 17 rows) it sorts by insertion. *)
Definition sort_values_desc (l : list A) : list A :=
  sort_desc (filter (fun r => negb (isna r)) l) ++ filter isna l.

End SortValues.

(** Ascending sort of group keys, as [groupby] orders its groups. *)
Fixpoint insert_key (k : string) (l : list string) : list string :=
  match l with
  | [] => [k]
  | y :: r => if String.leb k y then k :: y :: r else y :: insert_key k r
  end.

Definition sort_keys (l : list string) : list string :=
  fold_right insert_key [] l.

Fixpoint text_values (l : list (option string)) : list string :=
  match l with
  | [] => []
  | Some s :: r => s :: text_values r
  | None :: r => text_values r
  end.

(** The group keys of [groupby(col)]: the distinct values of the
    column, NaN dropped, in ascending order. *)
Definition group_keys (col : list (option string)) : list string :=
  sort_keys (nodup string_dec (text_values col)).

Definition key_is (k : string) (cell : option string) : bool :=
  match cell with Some s => String.eqb s k | None => false end.

End Pandas.

(* ================================================================= *)
(** ** The listings table *)

Record Row : Type := mkRow {
  precio : option Q;
  metros_cuadrados : option Q;
  dormitorios : option Q;
  banos : option Q;
  barrio : option string;
  precio_por_m2 : option Q;
  tipo_operacion : string;
  categoria_precio : option string;
  categoria_tamano : option string
}.

Definition DataFrame := list Row.

(* ================================================================= *)
(** ** scraping/data_processor.py *)

(** The methods of [DataProcessor] read and replace [self.df] and
    nothing else of the object; each is a function of that table.  The
    progress lines they print are not represented. *)
Module DataProcessor.

Import Settings.

(** A bin edge of [pandas.cut]: a number or [float('inf')]. *)
Inductive edge : Type :=
| At (q : Q)
| PosInf.

Definition le_edge (x : Q) (e : edge) : bool :=
  match e with At q => Qle_bool x q | PosInf => true end.

Definition lt_edge (e : edge) (x : Q) : bool :=
  match e with At q => Cell.Qltb q x | PosInf => false end.

(** [pandas.cut(x, bins, labels)] with the default [right=True]: the
    label of the half-open bin (lo, hi] that holds [x]; NaN for a value
    in no bin and for NaN. *)
Fixpoint cut_from (lo : edge) (bins : list (edge * string)) (x : Q)
  : option string :=
  match bins with
  | [] => None
  | (hi, label) :: rest =>
      if lt_edge lo x && le_edge x hi then Some label
      else cut_from hi rest x
  end.

Definition cut (lo : edge) (bins : list (edge * string)) (x : option Q)
  : option string :=
  match x with Some v => cut_from lo bins v | None => None end.

Definition precio_bins : list (edge * string) :=
  [(At 100000, "Económica"%string); (At 200000, "Media"%string);
   (At 300000, "Alta"%string); (PosInf, "Premium"%string)].

Definition tamano_bins : list (edge * string) :=
  [(At 50, "Pequeña"%string); (At 80, "Mediana"%string);
   (At 120, "Grande"%string); (PosInf, "Extra Grande"%string)].

(** [dropna(subset=['precio', 'metros_cuadrados', 'barrio'])] keeps the
    rows in which none of the three is missing. *)
Definition complete (r : Row) : bool :=
  Cell.notna (precio r) && Cell.notna (metros_cuadrados r)
  && Cell.notna (barrio r).

(** The range filter of [clean_data]. *)
Definition in_range (r : Row) : bool :=
  Cell.ge (precio r) MIN_PRICE && Cell.le (precio r) MAX_PRICE
  && Cell.ge (metros_cuadrados r) MIN_M2
  && Cell.le (metros_cuadrados r) MAX_M2.

(** Column division [precio / metros_cuadrados], applied after the
    range filter, where the divisor is at least [MIN_M2]. *)
Definition per_m2 (p m : option Q) : option Q := Cell.lift2 Qdiv p m.

(** The four column assignments of [clean_data] on one row. *)
Definition derive (r : Row) : Row :=
  {| precio := precio r;
     metros_cuadrados := metros_cuadrados r;
     dormitorios := dormitorios r;
     banos := banos r;
     barrio := option_map (fun s => Str.title (Str.strip s)) (barrio r);
     precio_por_m2 := per_m2 (precio r) (metros_cuadrados r);
     tipo_operacion := tipo_operacion r;
     categoria_precio := cut (At 0) precio_bins (precio r);
     categoria_tamano := cut (At 0) tamano_bins (metros_cuadrados r) |}.

Definition clean_data (df : DataFrame) : DataFrame :=
  map derive (filter in_range (filter complete df)).

(** The neighbourhood names of the table are ASCII text. *)
Definition ascii_names (df : DataFrame) : Prop :=
  forall r s, In r df -> barrio r = Some s -> Str.is_ascii s = true.

(** A numpy float64 scalar: finite, an infinity, or NaN.  Zero has no
    sign here. *)
Inductive xfloat : Type :=
| Fin (q : Q)
| Inf (negative : bool)
| NaN.

Definition of_cell (x : option Q) : xfloat :=
  match x with Some q => Fin q | None => NaN end.

Definition is_zero (q : Q) : bool := Qeq_bool q 0.
Definition is_neg (q : Q) : bool := Cell.Qltb q 0.

(** numpy multiplication and division: dividing by zero raises nothing
    and gives an infinity, or NaN for 0/0. *)
Definition xmul (x y : xfloat) : xfloat :=
  match x, y with
  | NaN, _ | _, NaN => NaN
  | Fin a, Fin b => Fin (a * b)
  | Inf s, Fin b | Fin b, Inf s =>
      if is_zero b then NaN else Inf (xorb s (is_neg b))
  | Inf s, Inf t => Inf (xorb s t)
  end.

Definition xdiv (x y : xfloat) : xfloat :=
  match x, y with
  | NaN, _ | _, NaN => NaN
  | Fin a, Fin b =>
      if is_zero b then (if is_zero a then NaN else Inf (is_neg a))
      else Fin (a / b)
  | Fin _, Inf _ => Fin 0
  | Inf s, Fin b => Inf (xorb s (is_neg b))
  | Inf _, Inf _ => NaN
  end.

Definition finite (x : xfloat) : Prop :=
  match x with Fin _ => True | _ => False end.

Definition xisnan (x : xfloat) : bool :=
  match x with NaN => true | _ => false end.

(** [x >= y] on values that are not NaN. *)
Definition xgeb (x y : xfloat) : bool :=
  match x, y with
  | Fin a, Fin b => Qle_bool b a
  | Inf false, _ => true
  | _, Inf true => true
  | _, _ => false
  end.

(** [df[df['tipo_operacion'] == op]]: the sale, or rent, subset. *)
Definition subset (op : string) (df : DataFrame) : DataFrame :=
  filter (fun r => String.eqb (tipo_operacion r) op) df.

(** The rows of one group of [groupby('barrio')]. *)
Definition group (k : string) (sub : DataFrame) : DataFrame :=
  filter (fun r => Pandas.key_is k (barrio r)) sub.

(** [df[df['tipo_operacion'] == op].groupby('barrio')['precio'].mean()]:
    a Series indexed by neighbourhood. *)
Definition precio_mean_by_barrio (op : string) (df : DataFrame)
  : list (string * option Q) :=
  let sub := subset op df in
  map (fun k => (k, Cell.mean (map precio (group k sub))))
      (Pandas.group_keys (map barrio sub)).

(** [barrio in series.index] and [series[barrio]]. *)
Definition in_index (k : string) (s : list (string * option Q)) : bool :=
  existsb (fun e => String.eqb (fst e) k) s.

Definition at_index (k : string) (s : list (string * option Q))
  : option Q :=
  match find (fun e => String.eqb (fst e) k) s with
  | Some e => snd e
  | None => None
  end.

Record RoiRow : Type := mkRoiRow {
  roi_barrio : string;
  precio_venta_promedio : option Q;
  precio_alquiler_mensual_promedio : option Q;
  roi_anual_porcentaje : xfloat
}.

(** The loop of [calculate_roi_potential] that fills [roi_data]. *)
Definition roi_data (venta_avg alquiler_avg : list (string * option Q))
  : list RoiRow :=
  flat_map
    (fun e =>
       let barrio := fst e in
       if in_index barrio alquiler_avg then
         let precio_venta := snd e in
         let precio_alquiler_mensual := at_index barrio alquiler_avg in
         let roi_anual :=
           xmul (xdiv (xmul (of_cell precio_alquiler_mensual) (Fin 12))
                      (of_cell precio_venta))
                (Fin 100) in
         [ {| roi_barrio := barrio;
              precio_venta_promedio := precio_venta;
              precio_alquiler_mensual_promedio := precio_alquiler_mensual;
              roi_anual_porcentaje := roi_anual |} ]
       else [])
    venta_avg.

(** [calculate_roi_potential]; a DataFrame built from an empty
    [roi_data] has no column to sort by, and [sort_values] raises
    [KeyError]. *)
Definition calculate_roi_potential (df : DataFrame)
  : result (list RoiRow) :=
  let venta_avg := precio_mean_by_barrio "venta" df in
  let alquiler_avg := precio_mean_by_barrio "alquiler" df in
  match roi_data venta_avg alquiler_avg with
  | [] => Raise KeyError
  | rows =>
      Ok (Pandas.sort_values_desc
            (fun r => xisnan (roi_anual_porcentaje r))
            (fun r1 r2 => xgeb (roi_anual_porcentaje r1)
                               (roi_anual_porcentaje r2))
            rows)
  end.

End DataProcessor.

(* ================================================================= *)
(** ** sklearn.preprocessing.MinMaxScaler, as called on one column *)

Module MinMaxScaler.

(** The float64 machine epsilon, 2^-52. *)
Definition eps : Q := 1 # 4503599627370496.

(** [_handle_zeros_in_scale]: a range below ten epsilons counts as a
    constant column and is replaced by 1; a NaN range stays NaN. *)
Definition handle_zeros_in_scale (scale : option Q) : option Q :=
  match scale with
  | Some s => if Cell.Qltb s (10 * eps) then Some 1 else Some s
  | None => None
  end.

Record fitted : Type := mkFitted {
  data_min_ : option Q;
  data_max_ : option Q;
  data_range_ : option Q;
  scale_ : option Q;
  min_ : option Q
}.

(** [fit] with the default [feature_range=(0, 1)]. *)
Definition fit (col : list (option Q)) : fitted :=
  let data_min := Cell.nanmin col in
  let data_max := Cell.nanmax col in
  let data_range := Cell.sub data_max data_min in
  let scale :=
    Cell.lift2 Qdiv (Some (1 - 0)) (handle_zeros_in_scale data_range) in
  {| data_min_ := data_min;
     data_max_ := data_max;
     data_range_ := data_range;
     scale_ := scale;
     min_ := Cell.sub (Some 0) (Cell.mul data_min scale) |}.

(** [transform]: [X * scale_ + min_]; a NaN cell stays NaN. *)
Definition transform (f : fitted) (col : list (option Q))
  : list (option Q) :=
  map (fun x => Cell.add (Cell.mul x (scale_ f)) (min_ f)) col.

Definition fit_transform (col : list (option Q)) : list (option Q) :=
  transform (fit col) col.

End MinMaxScaler.

(* ================================================================= *)
(** ** machine_learning/optimizer.py *)

Module Optimizer.

(** A row of [roi_df[['barrio', 'roi_anual_porcentaje']]], as read from
    the ROI table saved after cleaning; its percentages are finite or
    missing. *)
Record RoiEntry : Type := mkRoiEntry {
  r_barrio : option string;
  r_roi_anual_porcentaje : option Q
}.

(** A row of [venta_props]: the listing, the merged ROI and the four
    score columns. *)
Record Scored : Type := mkScored {
  listing : Row;
  roi_anual_porcentaje : option Q;
  score_roi : option Q;
  score_precio_m2 : option Q;
  score_tamano : option Q;
  investment_score : option Q
}.

Record Weights : Type := mkWeights {
  w_roi : Q;
  w_precio_m2 : Q;
  w_tamano : Q
}.

(** The [if]/[elif]/[else] on [risk_tolerance]. *)
Definition weights_for (risk_tolerance : string) : Weights :=
  if String.eqb risk_tolerance "low" then
    {| w_roi := 0.3; w_precio_m2 := 0.4; w_tamano := 0.3 |}
  else if String.eqb risk_tolerance "medium" then
    {| w_roi := 0.4; w_precio_m2 := 0.3; w_tamano := 0.3 |}
  else
    {| w_roi := 0.6; w_precio_m2 := 0.2; w_tamano := 0.2 |}.

(** The boolean mask of the budget filter. *)
Definition in_budget (budget_min budget_max : Q) (r : Row) : bool :=
  String.eqb (tipo_operacion r) "venta"
  && Cell.ge (precio r) budget_min
  && Cell.le (precio r) budget_max.

(** [properties_df[mask]]: the sale listings inside the budget. *)
Definition budget_filter (budget_min budget_max : Q) (df : DataFrame)
  : DataFrame :=
  filter (in_budget budget_min budget_max) df.

Definition same_key (a b : option string) : bool :=
  match a, b with
  | Some x, Some y => String.eqb x y
  | None, None => true
  | _, _ => false
  end.

(** [venta_props.merge(roi_df[[...]], on='barrio', how='left')]: every
    left row, in order, once per matching right row, or once with a NaN
    ROI when no right row matches. *)
Definition merge_left (left : DataFrame) (right : list RoiEntry)
  : list (Row * option Q) :=
  flat_map
    (fun r =>
       match filter (fun e => same_key (barrio r) (r_barrio e)) right with
       | [] => [(r, None)]
       | ms => map (fun e => (r, r_roi_anual_porcentaje e)) ms
       end)
    left.

Definition score_row (w : Weights)
  (row : Row * option Q) (s : option Q * (option Q * option Q)) : Scored :=
  let '(s_roi, (s_precio_m2, s_tamano)) := s in
  {| listing := fst row;
     roi_anual_porcentaje := snd row;
     score_roi := s_roi;
     score_precio_m2 := s_precio_m2;
     score_tamano := s_tamano;
     investment_score :=
       Cell.add
         (Cell.add (Cell.mul s_roi (Some (w_roi w)))
                   (Cell.mul s_precio_m2 (Some (w_precio_m2 w))))
         (Cell.mul s_tamano (Some (w_tamano w))) |}.

(** The merge with the ROI table and the median fill of
    [calculate_investment_score]: each candidate with its ROI. *)
Definition with_roi (venta_props : DataFrame) (roi_df : list RoiEntry)
  : list (Row * option Q) :=
  let merged := merge_left venta_props roi_df in
  let mediana := Cell.median (map snd merged) in
  map (fun row => (fst row, Cell.fillna mediana (snd row))) merged.

(** The body of [calculate_investment_score] after the empty check:
    merge, median fill, the three scalings and the weighted sum, before
    the sort. *)
Definition scored_rows (venta_props : DataFrame) (roi_df : list RoiEntry)
  (risk_tolerance : string) : list Scored :=
  let filled := with_roi venta_props roi_df in
  let col_score_roi := MinMaxScaler.fit_transform (map snd filled) in
  let col_score_precio_m2 :=
    map (Cell.sub (Some 1))
        (MinMaxScaler.fit_transform
           (map (fun row => precio_por_m2 (fst row)) filled)) in
  let col_score_tamano :=
    MinMaxScaler.fit_transform
      (map (fun row => metros_cuadrados (fst row)) filled) in
  let weights := weights_for risk_tolerance in
  map (fun p => score_row weights (fst p) (snd p))
      (combine filled
               (combine col_score_roi
                        (combine col_score_precio_m2 col_score_tamano))).

Definition score_isna (r : Scored) : bool :=
  negb (Cell.notna (investment_score r)).

Definition score_geb (r1 r2 : Scored) : bool :=
  match investment_score r1, investment_score r2 with
  | Some a, Some b => Qle_bool b a
  | _, _ => false
  end.

(** Descending order of the score column, NaN scores last. *)
Definition score_order (r1 r2 : Scored) : Prop :=
  match investment_score r1, investment_score r2 with
  | _, None => True
  | Some a, Some b => b <= a
  | None, Some _ => False
  end.

(** [sort_values('investment_score', ascending=False)]. *)
Definition sort_by_score (rows : list Scored) : list Scored :=
  Pandas.sort_values_desc score_isna score_geb rows.

(** *** The object and its methods

    The state is the object after [load_data]: both tables are set and
    [investment_scores] is still [None] until the first scoring.  A
    method is a function of the object that returns its result, the
    object afterwards and the diagnostic lines it printed.  The report
    that [get_investment_recommendation] formats on the console repeats
    the tables it returns and is not recorded. *)
Record InvestmentOptimizer : Type := mkOptimizer {
  properties_df : DataFrame;
  roi_df : list RoiEntry;
  investment_scores : option (list Scored)
}.

Definition M (A : Type) : Type :=
  InvestmentOptimizer -> result A * InvestmentOptimizer * list string.

Definition ret {A} (a : A) : M A := fun self => (Ok a, self, []).

Definition bind {A B} (m : M A) (k : A -> M B) : M B :=
  fun self =>
    match m self with
    | (Ok a, self', out) =>
        let '(b, self'', out') := k a self' in (b, self'', out ++ out')
    | (Raise e, self', out) => (Raise e, self', out)
    end.

Definition get : M InvestmentOptimizer := fun self => (Ok self, self, []).

Definition set_investment_scores (v : list Scored) : M unit :=
  fun self =>
    (Ok tt,
     {| properties_df := properties_df self;
        roi_df := roi_df self;
        investment_scores := Some v |},
     []).

Definition print (line : string) : M unit :=
  fun self => (Ok tt, self, [line]).

Definition raise {A} (e : exn) : M A := fun self => (Raise e, self, []).

Notation "x <- m ;; k" := (bind m (fun x => k))
  (at level 61, m at next level, right associativity).
Notation "m ;;; k" := (bind m (fun _ => k))
  (at level 61, right associativity).

Definition no_properties_message : string :=
  "No hay propiedades en el rango de presupuesto especificado".

Definition calculate_investment_score
  (budget_min budget_max : Q) (risk_tolerance : string)
  : M (option (list Scored)) :=
  self <- get ;;
  let venta_props :=
    budget_filter budget_min budget_max (properties_df self) in
  if (List.length venta_props =? 0)%nat then
    print no_properties_message ;;;
    ret None
  else
    let venta_props' :=
      sort_by_score (scored_rows venta_props (roi_df self) risk_tolerance) in
    set_investment_scores venta_props' ;;;
    ret (Some venta_props').

(** A row of the table returned by [get_top_opportunities]. *)
Record TopRow : Type := mkTopRow {
  t_barrio : option string;
  t_precio : option Q;
  t_metros_cuadrados : option Q;
  t_precio_por_m2 : option Q;
  t_roi_anual_porcentaje : option Q;
  t_investment_score : option Q;
  t_dormitorios : option Q;
  t_banos : option Q
}.

(** The column selection of [get_top_opportunities], rounded by
    [.round(2)]. *)
Definition top_columns (r : Scored) : TopRow :=
  {| t_barrio := barrio (listing r);
     t_precio := Cell.round2 (precio (listing r));
     t_metros_cuadrados := Cell.round2 (metros_cuadrados (listing r));
     t_precio_por_m2 := Cell.round2 (precio_por_m2 (listing r));
     t_roi_anual_porcentaje := Cell.round2 (roi_anual_porcentaje r);
     t_investment_score := Cell.round2 (investment_score r);
     t_dormitorios := Cell.round2 (dormitorios (listing r));
     t_banos := Cell.round2 (banos (listing r)) |}.

Definition get_top_opportunities (n : nat) : M (option (list TopRow)) :=
  self <- get ;;
  match investment_scores self with
  | None =>
      print "Primero calcule los scores de inversión" ;;;
      ret None
  | Some scores => ret (Some (map top_columns (firstn n scores)))
  end.

(** A row of the table returned by [analyze_by_neighborhood]. *)
Record NeighborhoodRow : Type := mkNeighborhoodRow {
  n_barrio : string;
  score_promedio : option Q;
  score_maximo : option Q;
  cantidad_propiedades : nat;
  precio_promedio : option Q;
  precio_minimo : option Q;
  precio_maximo : option Q;
  roi_promedio : option Q;
  precio_m2_promedio : option Q
}.

Definition aggregate (k : string) (scores : list Scored)
  : NeighborhoodRow :=
  let g := filter (fun r => Pandas.key_is k (barrio (listing r))) scores in
  let scores_g := map investment_score g in
  let precios_g := map (fun r => precio (listing r)) g in
  {| n_barrio := k;
     score_promedio := Cell.round2 (Cell.mean scores_g);
     score_maximo := Cell.round2 (Cell.nanmax scores_g);
     cantidad_propiedades := Cell.count scores_g;
     precio_promedio := Cell.round2 (Cell.mean precios_g);
     precio_minimo := Cell.round2 (Cell.nanmin precios_g);
     precio_maximo := Cell.round2 (Cell.nanmax precios_g);
     roi_promedio := Cell.round2 (Cell.mean (map roi_anual_porcentaje g));
     precio_m2_promedio :=
       Cell.round2 (Cell.mean (map (fun r => precio_por_m2 (listing r)) g))
  |}.

Definition promedio_geb (r1 r2 : NeighborhoodRow) : bool :=
  match score_promedio r1, score_promedio r2 with
  | Some a, Some b => Qle_bool b a
  | _, _ => false
  end.

Definition analyze_by_neighborhood : M (option (list NeighborhoodRow)) :=
  self <- get ;;
  match investment_scores self with
  | None => ret None
  | Some scores =>
      let neighborhood_analysis :=
        map (fun k => aggregate k scores)
            (Pandas.group_keys (map (fun r => barrio (listing r)) scores)) in
      ret (Some (Pandas.sort_values_desc
                   (fun r => negb (Cell.notna (score_promedio r)))
                   promedio_geb neighborhood_analysis))
  end.

Record Recommendation : Type := mkRecommendation {
  top_opportunities : list TopRow;
  neighborhood_analysis : list NeighborhoodRow;
  best_opportunity : TopRow
}.

(** Truth value of the optional [location_preference]: [None] and the
    empty string are false. *)
Definition truthy (location_preference : option string) : bool :=
  match location_preference with
  | Some s => negb (String.eqb s "")
  | None => false
  end.

(** [get_investment_recommendation].  The location filter rebinds the
    local [opportunities]; the top ten, the rollup and the best
    opportunity are then read from [self.investment_scores] through the
    two methods above.  Calling a method of [None] raises
    [AttributeError], and [iloc[0]] of an empty table [IndexError].
    [str.contains] compiles the preference as a regular expression and
    raises [re.error] on one that does not compile; the embedding
    follows the call for preferences that compile, and the statements
    about a call with candidates are about calls that return. *)
Definition get_investment_recommendation
  (budget_min budget_max : Q) (risk_tolerance : string)
  (location_preference : option string) : M (option Recommendation) :=
  opportunities <-
    calculate_investment_score budget_min budget_max risk_tolerance ;;
  match opportunities with
  | None => ret None
  | Some opportunities =>
      let opportunities :=
        if truthy location_preference then
          filter (fun r =>
                    Str.contains_nocase
                      (match location_preference with
                       | Some s => s
                       | None => ""%string
                       end)
                      (barrio (listing r)))
                 opportunities
        else opportunities in
      top_10 <- get_top_opportunities 10 ;;
      match top_10 with
      | None => raise AttributeError
      | Some top_10 =>
          neighborhood_analysis <- analyze_by_neighborhood ;;
          match neighborhood_analysis with
          | None => raise AttributeError
          | Some neighborhood_analysis =>
              match top_10 with
              | [] => raise IndexError
              | best_opportunity :: _ =>
                  ret (Some {| top_opportunities := top_10;
                               neighborhood_analysis := neighborhood_analysis;
                               best_opportunity := best_opportunity |})
              end
          end
      end
  end.

End Optimizer.

(* ================================================================= *)
(** ** Sample tables *)

Module Examples.

Import Optimizer.

Definition venta (p m : Q) (b : string) : Row :=
  {| precio := Some p;
     metros_cuadrados := Some m;
     dormitorios := Some 2;
     banos := Some 1;
     barrio := Some b;
     precio_por_m2 := Some (p / m);
     tipo_operacion := "venta";
     categoria_precio := DataProcessor.cut (DataProcessor.At 0)
                           DataProcessor.precio_bins (Some p);
     categoria_tamano := DataProcessor.cut (DataProcessor.At 0)
                           DataProcessor.tamano_bins (Some m) |}.

Definition alquiler (p m : Q) (b : string) : Row :=
  {| precio := Some p;
     metros_cuadrados := Some m;
     dormitorios := Some 2;
     banos := Some 1;
     barrio := Some b;
     precio_por_m2 := Some (p / m);
     tipo_operacion := "alquiler";
     categoria_precio := None;
     categoria_tamano := None |}.

Definition loaded (properties : DataFrame) (roi : list RoiEntry)
  : InvestmentOptimizer :=
  {| properties_df := properties;
     roi_df := roi;
     investment_scores := None |}.

Definition roi_table : list RoiEntry :=
  [ {| r_barrio := Some "Pocitos"%string;
       r_roi_anual_porcentaje := Some 14.4 |};
    {| r_barrio := Some "Centro"%string;
       r_roi_anual_porcentaje := Some 20 |} ].

(** One listing, in a neighbourhood of the ROI table. *)
Definition one_listing : InvestmentOptimizer :=
  loaded [venta 100000 50 "Pocitos"] roi_table.

(** One listing, in a neighbourhood the ROI table does not have. *)
Definition one_listing_without_roi : InvestmentOptimizer :=
  loaded [venta 100000 50 "Cordon"] roi_table.

(** Two listings of one neighbourhood: the first is larger and dearer
    per square metre, the second smaller and cheaper. *)
Definition two_in_pocitos : InvestmentOptimizer :=
  loaded [venta 262144 128 "Pocitos"; venta 65536 64 "Pocitos"] roi_table.

(** Two listings of two neighbourhoods. *)
Definition centro_and_pocitos : InvestmentOptimizer :=
  loaded [venta 100000 50 "Centro"; venta 200000 80 "Pocitos"] roi_table.

(** A raw table with a sale priced 0 and a rent in one neighbourhood. *)
Definition free_sale : DataFrame :=
  [venta 0 50 "Pocitos"; alquiler 1200 50 "Pocitos"].

(** The sale and the rent of the ROI scenario. *)
Definition pocitos_pair : DataFrame :=
  [venta 100000 50 "Pocitos"; alquiler 1200 50 "Pocitos"].

(** A raw table: a row to clean and keep, a rent below the price
    bound, and a row without price. *)
Definition raw_table : DataFrame :=
  [ venta 100000 50 "  poCitos  nuevo ";
    alquiler 1200 50 "Pocitos";
    {| precio := None;
       metros_cuadrados := Some 60;
       dormitorios := None;
       banos := None;
       barrio := Some "Centro"%string;
       precio_por_m2 := None;
       tipo_operacion := "venta";
       categoria_precio := None;
       categoria_tamano := None |} ].


(** The table of a successful call, empty for any other outcome. *)
Definition table_of {A B C}
  (outcome : result (option (list A)) * B * C) : list A :=
  match outcome with
  | (Ok (Some rows), _, _) => rows
  | _ => []
  end.

(** The rows of a result, none when it is an exception. *)
Definition rows_of {A} (res : result (list A)) : list A :=
  match res with
  | Ok rows => rows
  | Raise _ => []
  end.

End Examples.

(* ================================================================= *)
(** ** Orders of the sorted tables *)

Module Orders.

(** Descending order of the annual ROI, NaN last. *)
Definition roi_order (r1 r2 : DataProcessor.RoiRow) : Prop :=
  match DataProcessor.roi_anual_porcentaje r1,
        DataProcessor.roi_anual_porcentaje r2 with
  | _, DataProcessor.NaN => True
  | DataProcessor.NaN, _ => False
  | x, y => DataProcessor.xgeb x y = true
  end.

(** Descending order of the mean score of a neighbourhood, NaN last. *)
Definition promedio_order (r1 r2 : Optimizer.NeighborhoodRow) : Prop :=
  match Optimizer.score_promedio r1, Optimizer.score_promedio r2 with
  | _, None => True
  | Some a, Some b => b <= a
  | None, Some _ => False
  end.

(** Descending order of the rounded score of the top list, NaN last. *)
Definition top_order (r1 r2 : Optimizer.TopRow) : Prop :=
  match Optimizer.t_investment_score r1,
        Optimizer.t_investment_score r2 with
  | _, None => True
  | Some a, Some b => b <= a
  | None, Some _ => False
  end.

End Orders.

(* ================================================================= *)
(** ** [prepare_ml_features] of scraping/data_processor.py *)

Module Features.

Import DataProcessor.

(** The indicator columns that [pandas.get_dummies] makes of one text
    column: one per distinct value, NaN left out, in ascending order,
    named prefix, underscore, value. *)
Definition categories (col : list (option string)) : list string :=
  Pandas.group_keys col.

Definition dummy_name (prefix value : string) : string :=
  (prefix ++ "_" ++ value)%string.

(** The indicators of one cell: true in the column of its own value,
    false elsewhere, all false for NaN. *)
Definition dummies (prefix : string) (cats : list string)
  (cell : option string) : list (string * bool) :=
  map (fun c => (dummy_name prefix c, Pandas.key_is c cell)) cats.

(** A row of [ml_df]: the columns that are not encoded, the two
    indicator groups and the two ratios. *)
Record MLRow : Type := mkMLRow {
  ml_precio : option Q;
  ml_metros_cuadrados : option Q;
  ml_dormitorios : option Q;
  ml_banos : option Q;
  ml_precio_por_m2 : option Q;
  ml_categoria_precio : option string;
  ml_categoria_tamano : option string;
  ml_barrio : list (string * bool);
  ml_operacion : list (string * bool);
  ratio_precio_dormitorios : xfloat;
  ratio_m2_dormitorios : xfloat
}.

(** [prepare_ml_features]: the one-hot encoding of [barrio] and
    [tipo_operacion], the median fill of bedrooms and bathrooms, and
    the two divisions by the filled bedrooms; a division by zero
    raises nothing and gives an infinity, or NaN for 0/0. *)
Definition prepare_ml_features (df : DataFrame) : list MLRow :=
  let barrio_cats := categories (map barrio df) in
  let operacion_cats :=
    categories (map (fun r => Some (tipo_operacion r)) df) in
  let mediana_dormitorios := Cell.median (map dormitorios df) in
  let mediana_banos := Cell.median (map banos df) in
  map (fun r =>
         let d := Cell.fillna mediana_dormitorios (dormitorios r) in
         {| ml_precio := precio r;
            ml_metros_cuadrados := metros_cuadrados r;
            ml_dormitorios := d;
            ml_banos := Cell.fillna mediana_banos (banos r);
            ml_precio_por_m2 := precio_por_m2 r;
            ml_categoria_precio := categoria_precio r;
            ml_categoria_tamano := categoria_tamano r;
            ml_barrio := dummies "barrio" barrio_cats (barrio r);
            ml_operacion :=
              dummies "operacion" operacion_cats (Some (tipo_operacion r));
            ratio_precio_dormitorios :=
              xdiv (of_cell (precio r)) (of_cell d);
            ratio_m2_dormitorios :=
              xdiv (of_cell (metros_cuadrados r)) (of_cell d) |})
      df.

End Features.

(* ================================================================= *)
(** ** The text cleaners of scraping/infocasas_scraper.py *)

(** Texts are read byte by byte: a byte above 127 is neither a digit
    nor whitespace, and has no case. *)
Module Scraper.

Import Settings.

Definition isdigit (c : ascii) : bool :=
  let n := Str.code c in ((48 <=? n) && (n <=? 57))%nat.

Definition digit (c : ascii) : Z := Z.of_nat (Str.code c - 48).

(** The digits of a Python integer literal, read left to right:
    digits, with single underscores between two digits.  The result
    is the value and the number of digits. *)
Fixpoint int_digits (acc count : Z) (after_digit : bool)
  (l : list ascii) : option (Z * Z) :=
  match l with
  | [] => if after_digit then Some (acc, count) else None
  | c :: r =>
      if isdigit c then
        int_digits (acc * 10 + digit c) (count + 1) true r
      else if Ascii.eqb c "_" then
        (if after_digit then int_digits acc count false r else None)
      else None
  end.

(** The default of [sys.int_max_str_digits]. *)
Definition int_max_str_digits : Z := 4300.

(** [int(s)] in base 10, [None] for [ValueError]: surrounding
    whitespace is dropped, a sign may come first, and a literal of
    more than [int_max_str_digits] digits is refused. *)
Definition int_of_chars (s : list ascii) : option Z :=
  let l := Str.strip_chars s in
  let '(negative, body) :=
    match l with
    | c :: r =>
        if Ascii.eqb c "-" then (true, r)
        else if Ascii.eqb c "+" then (false, r)
        else (false, l)
    | [] => (false, l)
    end in
  match int_digits 0 0 false body with
  | Some (v, n) =>
      if (int_max_str_digits <? n)%Z then None
      else Some (if negative then (- v)%Z else v)
  | None => None
  end.

(** The character class of the pattern of [clean_price]: the letters
    U and S, the dollar sign, comma, full stop and whitespace. *)
Definition removed (c : ascii) : bool :=
  Ascii.eqb c "U" || Ascii.eqb c "$" || Ascii.eqb c "S"
  || Ascii.eqb c "," || Ascii.eqb c "." || Str.isspace c.

(** [clean_price]: the characters of the class are deleted and the
    rest is read as an integer; [None] when [int] raises. *)
Definition clean_price (price_text : string) : option Z :=
  int_of_chars
    (filter (fun c => negb (removed c)) (list_ascii_of_string price_text)).

(** [a.lower() in b.lower()]. *)
Definition in_lower (a b : string) : bool :=
  Str.infix_chars (map Str.lower (list_ascii_of_string a))
                  (map Str.lower (list_ascii_of_string b)).

(** [clean_neighborhood]: the first configured neighbourhood whose
    name occurs in the text, letter case ignored; the stripped text
    when none does.  The text is read as ASCII. *)
Definition clean_neighborhood (location_text : string) : string :=
  match find (fun barrio => in_lower barrio location_text)
             BARRIOS_MONTEVIDEO with
  | Some barrio => barrio
  | None => Str.strip_ascii location_text
  end.

(** The number that a list of digits writes. *)
Definition decimal (digits : list ascii) : Z :=
  fold_left (fun acc c => (acc * 10 + digit c)%Z) digits 0%Z.

End Scraper.

(* ================================================================= *)
(** ** The prompts of [run_investment_analysis] in main.py *)

Module Main.

(** [input(...) or default]: the default replaces an empty answer. *)
Definition or_default (typed default : string) : string :=
  if String.eqb typed "" then default else typed.

(** [risk_map.get(risk_choice, "medium")] on the answer to the risk
    prompt, whose default is "2". *)
Definition risk_tolerance_of (typed : string) : string :=
  let risk_choice := or_default typed "2" in
  if String.eqb risk_choice "1" then "low"
  else if String.eqb risk_choice "2" then "medium"
  else if String.eqb risk_choice "3" then "high"
  else "medium".

End Main.

(* ================================================================= *)
(** ** More sample tables *)

Module Samples.

(** Three listings: a flat without bedroom count, a studio with no
    bedroom, and a flat with two, in two neighbourhoods. *)
Definition flats : DataFrame :=
  [ {| precio := Some 120000;
       metros_cuadrados := Some 60;
       dormitorios := None;
       banos := Some 1;
       barrio := Some "Pocitos"%string;
       precio_por_m2 := Some 2000;
       tipo_operacion := "venta";
       categoria_precio := Some "Media"%string;
       categoria_tamano := Some "Mediana"%string |};
    {| precio := Some 70000;
       metros_cuadrados := Some 35;
       dormitorios := Some 0;
       banos := Some 1;
       barrio := Some "Centro"%string;
       precio_por_m2 := Some 2000;
       tipo_operacion := "venta";
       categoria_precio := Some "Económica"%string;
       categoria_tamano := Some "Pequeña"%string |};
    {| precio := Some 150000;
       metros_cuadrados := Some 75;
       dormitorios := Some 2;
       banos := None;
       barrio := Some "Pocitos"%string;
       precio_por_m2 := Some 2000;
       tipo_operacion := "alquiler";
       categoria_precio := Some "Media"%string;
       categoria_tamano := Some "Mediana"%string |} ].

(** The object after a first scoring of two listings. *)
Definition scored_once : Optimizer.InvestmentOptimizer :=
  snd (fst (Optimizer.calculate_investment_score 50000 300000 "medium"
              Examples.centro_and_pocitos)).

End Samples.

(* ================================================================= *)
(** ** Properties of the string methods *)

Module StrFacts.

Import Str.

Lemma cased_not_space (c : ascii) :
  islower c || isupper c = true -> isspace c = false.
Proof.
  destruct c as [[] [] [] [] [] [] [] []]; vm_compute; congruence.
Qed.

Lemma upper_of_lower (c : ascii) :
  islower c = true ->
  islower (upper c) = false /\ isupper (upper c) = true.
Proof.
  destruct c as [[] [] [] [] [] [] [] []]; vm_compute;
    intuition congruence.
Qed.

Lemma lower_of_upper (c : ascii) :
  isupper c = true -> islower (lower c) = true.
Proof.
  destruct c as [[] [] [] [] [] [] [] []]; vm_compute; congruence.
Qed.

Lemma title_chars_cons (b : bool) (c : ascii) (r : list ascii) :
  title_chars b (c :: r) = title_char b c :: title_chars (cased c) r.
Proof.
  unfold title_char, cased; simpl.
  destruct (islower c); [reflexivity|].
  destruct (isupper c); reflexivity.
Qed.

Lemma title_char_space (b : bool) (c : ascii) :
  isspace (title_char b c) = isspace c.
Proof.
  unfold title_char.
  destruct (islower c) eqn:Hl.
  - destruct b; [reflexivity|].
    destruct (upper_of_lower c Hl) as [_ Hu].
    rewrite (cased_not_space (upper c)), (cased_not_space c);
      [reflexivity | now rewrite Hl | now rewrite Hu, orb_true_r].
  - destruct (isupper c) eqn:Hu; [|reflexivity].
    destruct b; [|reflexivity].
    rewrite (cased_not_space (lower c)), (cased_not_space c);
      [reflexivity | now rewrite Hu, orb_true_r
      | now rewrite (lower_of_upper c Hu)].
Qed.

Lemma title_char_cased (b : bool) (c : ascii) :
  cased (title_char b c) = cased c.
Proof.
  unfold title_char, cased.
  destruct (islower c) eqn:Hl.
  - destruct b; [now rewrite Hl|].
    destruct (upper_of_lower c Hl) as [-> ->]; reflexivity.
  - destruct (isupper c) eqn:Hu.
    + destruct b; [|now rewrite Hl, Hu].
      now rewrite (lower_of_upper c Hu).
    + now rewrite Hl, Hu.
Qed.

Lemma title_char_idem (b : bool) (c : ascii) :
  title_char b (title_char b c) = title_char b c.
Proof.
  unfold title_char.
  destruct (islower c) eqn:Hl.
  - destruct b; [now rewrite Hl|].
    destruct (upper_of_lower c Hl) as [-> ->]; reflexivity.
  - destruct (isupper c) eqn:Hu.
    + destruct b; [|now rewrite Hl, Hu].
      now rewrite (lower_of_upper c Hu).
    + now rewrite Hl, Hu.
Qed.

Lemma title_chars_idem (l : list ascii) :
  forall b, title_chars b (title_chars b l) = title_chars b l.
Proof.
  induction l as [|c r IH]; intros b; [reflexivity|].
  rewrite !title_chars_cons, title_char_idem, title_char_cased, IH.
  reflexivity.
Qed.

Lemma lstrip_title (l : list ascii) :
  lstrip (title_chars false l) = title_chars false (lstrip l).
Proof.
  induction l as [|c r IH]; [reflexivity|].
  rewrite title_chars_cons. simpl lstrip at 1 2.
  rewrite title_char_space.
  destruct (isspace c) eqn:Hs.
  - assert (Hc : cased c = false).
    { destruct (cased c) eqn:E; [|reflexivity].
      apply cased_not_space in E. congruence. }
    rewrite Hc. exact IH.
  - rewrite title_chars_cons. reflexivity.
Qed.

Lemma rstrip_title (l : list ascii) :
  forall b, rstrip (title_chars b l) = title_chars b (rstrip l).
Proof.
  induction l as [|c r IH]; intros b; [reflexivity|].
  rewrite title_chars_cons. simpl rstrip at 1 2.
  rewrite IH.
  destruct (rstrip r) as [|x r'] eqn:E.
  - simpl. rewrite title_char_space.
    destruct (isspace c); [reflexivity|].
    rewrite title_chars_cons. reflexivity.
  - rewrite (title_chars_cons b c). rewrite title_chars_cons.
    reflexivity.
Qed.

Lemma lstrip_idem (l : list ascii) : lstrip (lstrip l) = lstrip l.
Proof.
  induction l as [|c r IH]; [reflexivity|].
  simpl. destruct (isspace c) eqn:Hs; [exact IH|].
  simpl. now rewrite Hs.
Qed.

Lemma rstrip_cons (c : ascii) (r : list ascii) :
  rstrip (c :: r) =
  match rstrip r with
  | [] => if isspace c then [] else [c]
  | r' => c :: r'
  end.
Proof. reflexivity. Qed.

Lemma rstrip_idem (l : list ascii) : rstrip (rstrip l) = rstrip l.
Proof.
  induction l as [|c r IH]; [reflexivity|].
  rewrite rstrip_cons.
  destruct (rstrip r) as [|x r'] eqn:E.
  - destruct (isspace c) eqn:Hs; [reflexivity|].
    simpl. now rewrite Hs.
  - rewrite rstrip_cons, IH. reflexivity.
Qed.

Lemma rstrip_lstrip (l : list ascii) :
  rstrip (lstrip l) = lstrip (rstrip l).
Proof.
  induction l as [|c r IH]; [reflexivity|].
  simpl lstrip at 1.
  destruct (isspace c) eqn:Hs.
  - rewrite IH. simpl rstrip.
    destruct (rstrip r) as [|x r'] eqn:E.
    + now rewrite Hs.
    + simpl lstrip at 2. now rewrite Hs.
  - simpl rstrip.
    destruct (rstrip r) as [|x r'] eqn:E.
    + rewrite Hs. simpl. now rewrite Hs.
    + simpl. now rewrite Hs.
Qed.

Lemma strip_chars_idem (l : list ascii) :
  strip_chars (strip_chars l) = strip_chars l.
Proof.
  unfold strip_chars.
  rewrite (rstrip_lstrip (rstrip l)), rstrip_idem, lstrip_idem.
  reflexivity.
Qed.

Lemma strip_title_chars (l : list ascii) :
  strip_chars (title_chars false l) = title_chars false (strip_chars l).
Proof.
  unfold strip_chars. rewrite rstrip_title, lstrip_title. reflexivity.
Qed.


End StrFacts.

(* ================================================================= *)
(** ** The Unicode methods on ASCII text *)

Module UnicodeFacts.

Import Str.

(** On an ASCII character the tables of code points say what the
    byte-wise methods say. *)
Lemma ascii_tables (c : ascii) :
  is_ascii_char c = true ->
  isspace_point (point c) = isspace c /\
  cased_point (point c) = cased c /\
  lower_point (point c) = [point (lower c)] /\
  title_point (point c) = [point (upper c)] /\
  (forall b, title_char b c = if b then lower c else upper c) /\
  is_ascii_char (lower c) = true /\
  is_ascii_char (upper c) = true /\
  encode_point (point c) = [c].
Proof.
  destruct c as [[] [] [] [] [] [] [] []]; vm_compute;
    try discriminate; intros _;
    repeat split; try reflexivity; intros []; reflexivity.
Qed.

Lemma decode_ascii (l : list ascii) :
  forallb is_ascii_char l = true -> decode l = map point l.
Proof.
  induction l as [|c r IH]; [reflexivity|].
  cbn [forallb]. rewrite andb_true_iff. intros [Hc Hr].
  cbn [decode map]. unfold is_ascii_char in Hc. rewrite Hc.
  now rewrite IH.
Qed.

Lemma encode_ascii (l : list ascii) :
  forallb is_ascii_char l = true -> encode (map point l) = l.
Proof.
  unfold encode.
  induction l as [|c r IH]; [reflexivity|].
  cbn [forallb]. rewrite andb_true_iff. intros [Hc Hr].
  cbn [map flat_map].
  destruct (ascii_tables c Hc) as (_ & _ & _ & _ & _ & _ & _ & ->).
  simpl. now rewrite IH.
Qed.

Lemma lstrip_ascii (l : list ascii) :
  forallb is_ascii_char l = true ->
  lstrip_points (map point l) = map point (lstrip l) /\
  forallb is_ascii_char (lstrip l) = true.
Proof.
  induction l as [|c r IH]; [split; reflexivity|].
  intros H. pose proof H as H'.
  cbn [forallb] in H'. apply andb_true_iff in H' as [Hc Hr].
  cbn [map lstrip_points lstrip].
  destruct (ascii_tables c Hc) as (-> & _).
  destruct (isspace c); [now apply IH | split; [reflexivity | exact H]].
Qed.

Lemma rstrip_ascii (l : list ascii) :
  forallb is_ascii_char l = true ->
  rstrip_points (map point l) = map point (rstrip l) /\
  forallb is_ascii_char (rstrip l) = true.
Proof.
  induction l as [|c r IH]; [split; reflexivity|].
  cbn [forallb]. rewrite andb_true_iff. intros [Hc Hr].
  destruct (IH Hr) as [E Ha].
  cbn [map rstrip_points]. rewrite StrFacts.rstrip_cons, E.
  destruct (ascii_tables c Hc) as (-> & _).
  destruct (rstrip r) as [|x r']; cbn [map].
  - destruct (isspace c); [split; reflexivity|].
    split; [reflexivity|]. cbn [forallb]. now rewrite Hc.
  - split; [reflexivity|]. cbn [forallb] in *. now rewrite Hc.
Qed.

Lemma title_ascii_points (l : list ascii) :
  forallb is_ascii_char l = true ->
  forall b,
    title_points b (map point l) = map point (title_chars b l) /\
    forallb is_ascii_char (title_chars b l) = true.
Proof.
  induction l as [|c r IH]; [split; reflexivity|].
  cbn [forallb]. rewrite andb_true_iff. intros [Hc Hr] b.
  rewrite StrFacts.title_chars_cons. cbn [map title_points forallb].
  destruct (ascii_tables c Hc) as (_ & -> & -> & -> & -> & Hl & Hu & _).
  destruct (IH Hr (cased c)) as [-> ->].
  destruct b; simpl; [now rewrite Hl | now rewrite Hu].
Qed.

Lemma strip_agrees (s : string) :
  is_ascii s = true ->
  strip s = strip_ascii s /\ is_ascii (strip_ascii s) = true.
Proof.
  unfold is_ascii, strip, strip_ascii, strip_points, strip_chars.
  set (l := list_ascii_of_string s). intros H.
  rewrite list_ascii_of_string_of_list_ascii.
  destruct (rstrip_ascii l H) as [Er Ha].
  destruct (lstrip_ascii (rstrip l) Ha) as [El Hb].
  rewrite (decode_ascii l H), Er, El, (encode_ascii _ Hb). auto.
Qed.

Lemma title_agrees (s : string) :
  is_ascii s = true ->
  title s = title_ascii s /\ is_ascii (title_ascii s) = true.
Proof.
  unfold is_ascii, title, title_ascii.
  set (l := list_ascii_of_string s). intros H.
  rewrite list_ascii_of_string_of_list_ascii.
  destruct (title_ascii_points l H false) as [E Ha].
  rewrite (decode_ascii l H), E, (encode_ascii _ Ha). auto.
Qed.

(** On an ASCII name, normalising is the byte-wise normalising, and
    gives an ASCII name. *)
Lemma normalise_agrees (s : string) :
  is_ascii s = true ->
  title (strip s) = title_ascii (strip_ascii s) /\
  is_ascii (title_ascii (strip_ascii s)) = true.
Proof.
  intros H. destruct (strip_agrees s H) as [-> Ha].
  exact (title_agrees _ Ha).
Qed.

End UnicodeFacts.

(* ================================================================= *)
(** ** Properties of [clean_data] *)

Module CleanFacts.

Import Settings DataProcessor.





(** The rows that pass both masks are exactly the rows of the cleaned
    table, up to the column assignments. *)
Lemma clean_data_rows (df : DataFrame) (r : Row) :
  In r (clean_data df) <->
  exists r0, In r0 df /\ complete r0 = true /\ in_range r0 = true
             /\ r = derive r0.
Proof.
  unfold clean_data. rewrite in_map_iff. split.
  - intros (r0 & <- & H). apply filter_In in H as [H Hr].
    apply filter_In in H as [H Hc]. eauto.
  - intros (r0 & Hin & Hc & Hr & ->). exists r0. split; [reflexivity|].
    apply filter_In; split; [|exact Hr]. apply filter_In; auto.
Qed.

Lemma in_range_bounds (r : Row) :
  in_range r = true ->
  exists p m,
    precio r = Some p /\ metros_cuadrados r = Some m /\
    MIN_PRICE <= p /\ p <= MAX_PRICE /\ MIN_M2 <= m /\ m <= MAX_M2.
Proof.
  unfold in_range, Cell.ge, Cell.le. intros H.
  destruct (precio r) as [p|]; [|discriminate H].
  destruct (metros_cuadrados r) as [m|];
    [|rewrite !andb_false_r in H; discriminate H].
  apply andb_prop in H as [H H4]. apply andb_prop in H as [H H3].
  apply andb_prop in H as [H1 H2].
  exists p, m. rewrite <- !Qle_bool_iff. auto 10.
Qed.

End CleanFacts.

(** C8.  Every row of the table that [clean_data] produces has a price
    between MIN_PRICE = 50000 and MAX_PRICE = 500000 and an area
    between MIN_M2 = 30 and MAX_M2 = 200, both present. *)
Theorem clean_data_within_bounds (raw : DataFrame) (r : Row) :
  In r (DataProcessor.clean_data raw) ->
  exists p m,
    precio r = Some p /\ metros_cuadrados r = Some m /\
    50000 <= p /\ p <= 500000 /\ 30 <= m /\ m <= 200.
Proof.
  intros H. apply CleanFacts.clean_data_rows in H
    as (r0 & _ & _ & Hr & ->).
  exact (CleanFacts.in_range_bounds r0 Hr).
Qed.

Lemma clean_data_within_bounds_witness :
  let r := DataProcessor.derive
             (Examples.venta 100000 50 "  poCitos  nuevo ") in
  In r (DataProcessor.clean_data Examples.raw_table) /\
  exists p m,
    precio r = Some p /\ metros_cuadrados r = Some m /\
    50000 <= p /\ p <= 500000 /\ 30 <= m /\ m <= 200.
Proof.
  intros r.
  assert (H : In r (DataProcessor.clean_data Examples.raw_table))
    by (left; reflexivity).
  split; [exact H|].
  exact (clean_data_within_bounds Examples.raw_table r H).
Defined.




(* ================================================================= *)
(** ** Properties of the pandas helpers *)

Module PandasFacts.

Import Pandas.

Section SortValuesFacts.

Context {A : Type}.
Variable isna : A -> bool.
Variable geb : A -> A -> bool.

Lemma insert_desc_perm (x : A) (l : list A) :
  Permutation (x :: l) (insert_desc geb x l).
Proof.
  induction l as [|y r IH]; simpl; [reflexivity|].
  destruct (geb x y); [reflexivity|].
  rewrite perm_swap. now apply perm_skip.
Qed.

Lemma sort_desc_perm (l : list A) : Permutation l (sort_desc geb l).
Proof.
  induction l as [|x r IH]; simpl; [reflexivity|].
  rewrite <- insert_desc_perm. now apply perm_skip.
Qed.

Lemma partition_perm (l : list A) :
  Permutation l (filter (fun r => negb (isna r)) l ++ filter isna l).
Proof.
  induction l as [|x r IH]; simpl; [reflexivity|].
  destruct (isna x); simpl.
  - now apply Permutation_cons_app.
  - now apply perm_skip.
Qed.

Lemma sort_values_desc_perm (l : list A) :
  Permutation l (sort_values_desc isna geb l).
Proof.
  unfold sort_values_desc.
  rewrite <- sort_desc_perm. apply partition_perm.
Qed.

Lemma sort_values_desc_In (l : list A) (x : A) :
  In x (sort_values_desc isna geb l) <-> In x l.
Proof.
  split; apply Permutation_in;
    [symmetry|]; apply sort_values_desc_perm.
Qed.

(** Sortedness, for an order [R] that [geb] decides on the rows with
    a key and that puts every row without a key last. *)
Variable R : A -> A -> Prop.
Hypothesis R_trans : forall x y z, R x y -> R y z -> R x z.
Hypothesis geb_true :
  forall x y, isna x = false -> isna y = false ->
              geb x y = true -> R x y.
Hypothesis geb_false :
  forall x y, isna x = false -> isna y = false ->
              geb x y = false -> R y x.
Hypothesis R_nan : forall x y, isna y = true -> R x y.

Let has_key (x : A) : Prop := isna x = false.

Lemma insert_desc_sorted (x : A) (l : list A) :
  has_key x -> Forall has_key l ->
  StronglySorted R l -> StronglySorted R (insert_desc geb x l).
Proof.
  intros Hx Hl Hs. induction Hs as [|y r Hs IH Hy]; simpl.
  - constructor; constructor.
  - inversion Hl as [|? ? Hky Hkr]; subst.
    destruct (geb x y) eqn:E.
    + constructor; [constructor; assumption|].
      constructor; [now apply geb_true|].
      eapply Forall_impl; [|exact Hy].
      intros z Hz. eapply R_trans; [|exact Hz]. now apply geb_true.
    + constructor; [now apply IH|].
      apply (Permutation_Forall (insert_desc_perm x r)).
      constructor; [now apply geb_false | exact Hy].
Qed.

Lemma sort_desc_sorted (l : list A) :
  Forall has_key l -> StronglySorted R (sort_desc geb l).
Proof.
  induction 1 as [|x r Hx Hr IH]; simpl; [constructor|].
  apply insert_desc_sorted; [exact Hx | | exact IH].
  apply (Permutation_Forall (sort_desc_perm r)). exact Hr.
Qed.

Lemma all_nan_sorted (l : list A) :
  Forall (fun x => isna x = true) l -> StronglySorted R l.
Proof.
  induction 1 as [|x r Hx Hr IH]; constructor; [exact IH|].
  eapply Forall_impl; [|exact Hr]. intros y Hy. now apply R_nan.
Qed.

Lemma app_sorted (l1 l2 : list A) :
  StronglySorted R l1 -> StronglySorted R l2 ->
  (forall x y, In x l1 -> In y l2 -> R x y) ->
  StronglySorted R (l1 ++ l2).
Proof.
  intros H1 H2 H12. induction H1 as [|x r Hs IH Hx]; simpl;
    [exact H2|].
  constructor.
  - apply IH. intros a b Ha Hb. apply H12; [now right | exact Hb].
  - apply Forall_app. split; [exact Hx|].
    apply Forall_forall. intros y Hy. apply H12; [now left | exact Hy].
Qed.

Lemma sort_values_desc_sorted (l : list A) :
  StronglySorted R (sort_values_desc isna geb l).
Proof.
  unfold sort_values_desc. apply app_sorted.
  - apply sort_desc_sorted. apply Forall_forall. intros x Hx.
    apply filter_In in Hx as [_ Hx]. unfold has_key.
    now destruct (isna x).
  - apply all_nan_sorted. apply Forall_forall. intros x Hx.
    apply filter_In in Hx. tauto.
  - intros x y _ Hy. apply filter_In in Hy as [_ Hy].
    now apply R_nan.
Qed.

End SortValuesFacts.

Lemma insert_key_In (k x : string) (l : list string) :
  In x (insert_key k l) <-> x = k \/ In x l.
Proof.
  induction l as [|y r IH]; simpl; [intuition|].
  destruct (String.leb k y); simpl; [intuition|].
  rewrite IH. intuition.
Qed.

Lemma sort_keys_In (x : string) (l : list string) :
  In x (sort_keys l) <-> In x l.
Proof.
  induction l as [|k r IH]; simpl; [tauto|].
  rewrite insert_key_In, IH. intuition.
Qed.

Lemma text_values_In (x : string) (col : list (option string)) :
  In x (text_values col) <-> In (Some x) col.
Proof.
  induction col as [|[s|] r IH]; simpl; [tauto| |].
  - rewrite IH. split; intros [H|H]; auto; left; congruence.
  - rewrite IH. split; [auto|]. intros [H|H]; [discriminate|exact H].
Qed.

Lemma group_keys_In (x : string) (col : list (option string)) :
  In x (group_keys col) <-> In (Some x) col.
Proof.
  unfold group_keys.
  rewrite sort_keys_In, nodup_In. apply text_values_In.
Qed.

Lemma key_is_true (k : string) (cell : option string) :
  key_is k cell = true <-> cell = Some k.
Proof.
  destruct cell as [s|]; simpl; [|split; discriminate].
  rewrite String.eqb_eq. split; congruence.
Qed.

End PandasFacts.

(* ================================================================= *)
(** ** Properties of [calculate_roi_potential] *)

Module RoiFacts.

Import DataProcessor.

Lemma subset_In (op : string) (df : DataFrame) (r : Row) :
  In r (subset op df) <-> In r df /\ tipo_operacion r = op.
Proof.
  unfold subset. rewrite filter_In, String.eqb_eq. tauto.
Qed.

Lemma mean_by_barrio_In (op : string) (df : DataFrame)
  (e : string * option Q) :
  In e (precio_mean_by_barrio op df) <->
  In (Some (fst e)) (map barrio (subset op df)) /\
  snd e = Cell.mean (map precio (group (fst e) (subset op df))).
Proof.
  unfold precio_mean_by_barrio. rewrite in_map_iff. split.
  - intros (k & <- & Hk). apply PandasFacts.group_keys_In in Hk.
    simpl. auto.
  - intros [Hk He]. exists (fst e). split.
    + destruct e as [k v]; simpl in *. now rewrite He.
    + now apply PandasFacts.group_keys_In.
Qed.

Lemma in_index_true (k : string) (s : list (string * option Q)) :
  in_index k s = true -> exists e, In e s /\ fst e = k.
Proof.
  unfold in_index. rewrite existsb_exists.
  intros (e & He & Hk). apply String.eqb_eq in Hk. eauto.
Qed.

Lemma at_index_found (k : string) (s : list (string * option Q)) :
  in_index k s = true ->
  exists e, In e s /\ fst e = k /\ at_index k s = snd e.
Proof.
  unfold in_index, at_index. intros H.
  destruct (find _ s) as [e|] eqn:E.
  - apply find_some in E as [He Hk]. apply String.eqb_eq in Hk. eauto.
  - apply existsb_exists in H as (e & He & Hk).
    apply (find_none _ _ E) in He. congruence.
Qed.

(** A row of [roi_data] comes from a key of the sale Series that is
    also in the index of the rent Series. *)
Lemma roi_data_In (venta_avg alquiler_avg : list (string * option Q))
  (r : RoiRow) :
  In r (roi_data venta_avg alquiler_avg) ->
  exists e,
    In e venta_avg /\ in_index (fst e) alquiler_avg = true /\
    roi_barrio r = fst e /\
    precio_venta_promedio r = snd e /\
    precio_alquiler_mensual_promedio r = at_index (fst e) alquiler_avg /\
    roi_anual_porcentaje r =
      xmul (xdiv (xmul (of_cell (at_index (fst e) alquiler_avg)) (Fin 12))
                 (of_cell (snd e)))
           (Fin 100).
Proof.
  unfold roi_data. rewrite in_flat_map. intros (e & He & Hr).
  exists e. destruct (in_index (fst e) alquiler_avg); [|contradiction].
  destruct Hr as [<-|[]]. simpl. auto 10.
Qed.

Lemma calculate_roi_potential_In (df : DataFrame) (out : list RoiRow)
  (r : RoiRow) :
  calculate_roi_potential df = Ok out -> In r out ->
  In r (roi_data (precio_mean_by_barrio "venta" df)
                 (precio_mean_by_barrio "alquiler" df)).
Proof.
  unfold calculate_roi_potential. intros H Hr.
  destruct (roi_data _ _) as [|r0 rows] eqn:E; [discriminate H|].
  injection H as <-.
  now apply PandasFacts.sort_values_desc_In in Hr.
Qed.

Lemma barrio_in_subset (op : string) (df : DataFrame) (k : string) :
  In (Some k) (map barrio (subset op df)) ->
  exists s, In s df /\ tipo_operacion s = op /\ barrio s = Some k.
Proof.
  rewrite in_map_iff. intros (s & Hb & Hs).
  apply subset_In in Hs as [Hs Hop]. eauto.
Qed.

(** Means of present, positive prices. *)
Lemma values_all_some (l : list Row) :
  (forall s, In s l -> exists p, precio s = Some p /\ 0 < p) ->
  List.length (Cell.values (map precio l)) = List.length l /\
  Forall (fun v => 0 < v) (Cell.values (map precio l)).
Proof.
  induction l as [|s r IH]; intros H; simpl; [auto|].
  destruct (H s (or_introl eq_refl)) as (p & -> & Hp).
  destruct IH as [IH1 IH2]; [intros; apply H; now right|].
  simpl. split; [now rewrite IH1 | now constructor].
Qed.

Lemma Qsum_pos (l : list Q) :
  Forall (fun v => 0 < v) l -> l <> [] -> 0 < Cell.Qsum l.
Proof.
  induction 1 as [|x r Hx Hr IH]; intros Hne; [congruence|].
  simpl. destruct r as [|y r'].
  - simpl. lra.
  - assert (0 < Cell.Qsum (y :: r')) by (apply IH; discriminate). lra.
Qed.

Lemma mean_pos (l : list Row) :
  l <> [] ->
  (forall s, In s l -> exists p, precio s = Some p /\ 0 < p) ->
  exists v, Cell.mean (map precio l) = Some v /\ 0 < v.
Proof.
  intros Hne H. destruct (values_all_some l H) as [Hlen Hpos].
  unfold Cell.mean.
  destruct (Cell.values (map precio l)) as [|v r] eqn:E.
  - destruct l; [congruence | discriminate Hlen].
  - eexists; split; [reflexivity|].
    apply Qlt_shift_div_l.
    + change 0 with (inject_Z 0). rewrite <- Zlt_Qlt.
      simpl List.length. lia.
    + rewrite Qmult_0_l. apply Qsum_pos; [exact Hpos | discriminate].
Qed.

Lemma group_nonempty (op : string) (df : DataFrame) (k : string) :
  In (Some k) (map barrio (subset op df)) ->
  group k (subset op df) <> [].
Proof.
  rewrite in_map_iff. intros (s & Hb & Hs) E.
  assert (Hin : In s (group k (subset op df))).
  { apply filter_In. split; [exact Hs|].
    now apply PandasFacts.key_is_true. }
  rewrite E in Hin. exact Hin.
Qed.

Lemma group_mean_pos (op : string) (df : DataFrame)
  (e : string * option Q) :
  (forall s, In s df -> exists p, precio s = Some p /\ 0 < p) ->
  In e (precio_mean_by_barrio op df) ->
  exists v, snd e = Some v /\ 0 < v.
Proof.
  intros H He. apply mean_by_barrio_In in He as [Hk ->].
  apply mean_pos; [now apply group_nonempty|].
  intros s Hs. apply filter_In in Hs as [Hs _].
  apply subset_In in Hs as [Hs _]. now apply H.
Qed.

(** No neighbourhood of both subsets is left out, whatever its
    averages. *)
Lemma common_neighborhood_kept (df : DataFrame) (b : string) :
  (exists s, In s df /\ tipo_operacion s = "venta"%string
             /\ barrio s = Some b) ->
  (exists s, In s df /\ tipo_operacion s = "alquiler"%string
             /\ barrio s = Some b) ->
  exists out r,
    calculate_roi_potential df = Ok out /\ In r out /\ roi_barrio r = b.
Proof.
  intros (sv & Hsv & Hopv & Hbv) (sa & Hsa & Hopa & Hba).
  set (venta_avg := precio_mean_by_barrio "venta" df).
  set (alquiler_avg := precio_mean_by_barrio "alquiler" df).
  assert (Hkey : forall op s, In s df -> tipo_operacion s = op ->
                 barrio s = Some b ->
                 In (b, Cell.mean (map precio (group b (subset op df))))
                    (precio_mean_by_barrio op df)).
  { intros op s Hs Hop Hb. apply mean_by_barrio_In. simpl.
    split; [|reflexivity]. rewrite <- Hb. apply in_map.
    now apply subset_In. }
  pose proof (Hkey _ sv Hsv Hopv Hbv) as Hv.
  pose proof (Hkey _ sa Hsa Hopa Hba) as Ha.
  assert (Hidx : in_index b alquiler_avg = true).
  { unfold in_index. apply existsb_exists. eexists. split; [exact Ha|].
    simpl. apply String.eqb_refl. }
  assert (Hrow : exists r, In r (roi_data venta_avg alquiler_avg)
                           /\ roi_barrio r = b).
  { eexists. split.
    - unfold roi_data. apply in_flat_map. eexists. split; [exact Hv|].
      simpl. rewrite Hidx. left. reflexivity.
    - reflexivity. }
  destruct Hrow as (r & Hr & Hb).
  unfold calculate_roi_potential. fold venta_avg alquiler_avg.
  destruct (roi_data venta_avg alquiler_avg) as [|r0 rows] eqn:E;
    [destruct Hr|].
  eexists. exists r. split; [reflexivity|]. split; [|exact Hb].
  now apply PandasFacts.sort_values_desc_In.
Qed.

End RoiFacts.

(** The ROI scenario: a sale of 100000 and a monthly rent of 1200 in
    Pocitos give an annual ROI of 14.4 percent. *)
Example roi_scenario :
  exists r,
    DataProcessor.calculate_roi_potential Examples.pocitos_pair = Ok [r] /\
    DataProcessor.roi_barrio r = "Pocitos"%string /\
    exists q, DataProcessor.roi_anual_porcentaje r = DataProcessor.Fin q
              /\ q == 14.4.
Proof.
  eexists. split; [vm_compute; reflexivity|].
  split; [reflexivity|]. eexists. split; reflexivity.
Qed.

(** C7.  Every neighbourhood in the result of [calculate_roi_potential]
    is the neighbourhood of some sale row and of some rent row of the
    input table. *)
Theorem roi_neighborhood_in_both_subsets
  (df : DataFrame) (out : list DataProcessor.RoiRow)
  (r : DataProcessor.RoiRow) :
  DataProcessor.calculate_roi_potential df = Ok out ->
  In r out ->
  (exists s, In s df /\ tipo_operacion s = "venta"%string
             /\ barrio s = Some (DataProcessor.roi_barrio r)) /\
  (exists s, In s df /\ tipo_operacion s = "alquiler"%string
             /\ barrio s = Some (DataProcessor.roi_barrio r)).
Proof.
  intros H Hr.
  apply (RoiFacts.calculate_roi_potential_In df out r H) in Hr.
  apply RoiFacts.roi_data_In in Hr as (e & He & Hidx & -> & _).
  split.
  - apply RoiFacts.mean_by_barrio_In in He as [He _].
    now apply RoiFacts.barrio_in_subset.
  - apply RoiFacts.in_index_true in Hidx as (e' & He' & Hk).
    apply RoiFacts.mean_by_barrio_In in He' as [He' _].
    rewrite Hk in He'. now apply RoiFacts.barrio_in_subset.
Qed.

Lemma roi_neighborhood_in_both_subsets_witness :
  exists r,
    Examples.rows_of
      (DataProcessor.calculate_roi_potential Examples.pocitos_pair) = [r] /\
    DataProcessor.roi_barrio r = "Pocitos"%string /\
    (exists s, In s Examples.pocitos_pair
               /\ tipo_operacion s = "venta"%string
               /\ barrio s = Some (DataProcessor.roi_barrio r)) /\
    (exists s, In s Examples.pocitos_pair
               /\ tipo_operacion s = "alquiler"%string
               /\ barrio s = Some (DataProcessor.roi_barrio r)).
Proof.
  set (res := DataProcessor.calculate_roi_potential Examples.pocitos_pair).
  assert (Hcall : res = Ok (Examples.rows_of res))
    by (vm_compute; reflexivity).
  destruct (Examples.rows_of res) as [|r [|]] eqn:E;
    [discriminate E | | discriminate E].
  exists r. split; [reflexivity|].
  injection E as E. split; [rewrite <- E; reflexivity|].
  apply (roi_neighborhood_in_both_subsets Examples.pocitos_pair [r] r
           Hcall).
  left. reflexivity.
Defined.

(** The claim of C4 fails on a sale priced 0: the neighbourhood is not
    skipped, the division is made and its annual ROI is infinite. *)
Lemma zero_sale_price_not_skipped :
  exists r,
    DataProcessor.calculate_roi_potential Examples.free_sale = Ok [r] /\
    DataProcessor.roi_barrio r = "Pocitos"%string /\
    Cell.eqv (DataProcessor.precio_venta_promedio r) (Some 0) /\
    DataProcessor.roi_anual_porcentaje r = DataProcessor.Inf false /\
    ~ DataProcessor.finite (DataProcessor.roi_anual_porcentaje r).
Proof.
  eexists. split; [vm_compute; reflexivity|].
  repeat split. intros H. exact H.
Qed.

(** C4, as the code has it.  [calculate_roi_potential] divides for
    every neighbourhood of both subsets, without a guard on a zero
    divisor.  On a table in which every price is present and positive,
    as the cleaning bounds make it, every annual ROI of the result is
    a finite number. *)
Theorem roi_finite_on_positive_prices
  (df : DataFrame) (out : list DataProcessor.RoiRow)
  (r : DataProcessor.RoiRow) :
  (forall s, In s df -> exists p, precio s = Some p /\ 0 < p) ->
  DataProcessor.calculate_roi_potential df = Ok out ->
  In r out ->
  DataProcessor.finite (DataProcessor.roi_anual_porcentaje r).
Proof.
  intros Hpos H Hr.
  apply (RoiFacts.calculate_roi_potential_In df out r H) in Hr.
  apply RoiFacts.roi_data_In in Hr
    as (e & He & Hidx & _ & _ & _ & ->).
  destruct (RoiFacts.group_mean_pos _ df e Hpos He) as (pv & -> & Hpv).
  apply RoiFacts.at_index_found in Hidx as (e' & He' & _ & ->).
  destruct (RoiFacts.group_mean_pos _ df e' Hpos He') as (pa & -> & _).
  simpl. unfold DataProcessor.is_zero.
  destruct (Qeq_bool pv 0) eqn:E; [|exact I].
  apply Qeq_bool_eq in E. lra.
Qed.

Lemma roi_finite_on_positive_prices_witness :
  exists r,
    (forall s, In s Examples.pocitos_pair ->
               exists p, precio s = Some p /\ 0 < p) /\
    Examples.rows_of
      (DataProcessor.calculate_roi_potential Examples.pocitos_pair) = [r] /\
    DataProcessor.finite (DataProcessor.roi_anual_porcentaje r).
Proof.
  assert (Hpos : forall s, In s Examples.pocitos_pair ->
                           exists p, precio s = Some p /\ 0 < p).
  { intros s [<-|[<-|[]]]; eexists; split; reflexivity. }
  set (res := DataProcessor.calculate_roi_potential Examples.pocitos_pair).
  assert (Hcall : res = Ok (Examples.rows_of res))
    by (vm_compute; reflexivity).
  destruct (Examples.rows_of res) as [|r [|]] eqn:E;
    [discriminate E | | discriminate E].
  exists r. split; [exact Hpos|]. split; [reflexivity|].
  apply (roi_finite_on_positive_prices Examples.pocitos_pair [r] r
           Hpos Hcall).
  left. reflexivity.
Defined.

(* ================================================================= *)
(** ** Properties of the scaler *)

Module ScalerFacts.

Import MinMaxScaler.

Lemma fit_transform_length (col : list (option Q)) :
  List.length (fit_transform col) = List.length col.
Proof. unfold fit_transform, transform. apply length_map. Qed.

Lemma values_constant (col : list (option Q)) (v : Q) :
  (forall x, In x col -> Cell.eqv x (Some v)) ->
  Forall (fun a => a == v) (Cell.values col) /\
  List.length (Cell.values col) = List.length col.
Proof.
  induction col as [|[a|] r IH]; intros H; simpl.
  - auto.
  - destruct IH as [IH1 IH2]; [intros; apply H; now right|].
    split; [|now rewrite IH2].
    constructor; [|exact IH1]. exact (H (Some a) (or_introl eq_refl)).
  - destruct (H None (or_introl eq_refl)).
Qed.

Lemma fold_min_constant (r : list Q) (v : Q) :
  Forall (fun a => a == v) r ->
  forall a, a == v -> fold_left Cell.Qmin' r a == v.
Proof.
  induction 1 as [|x r Hx _ IH]; intros a Ha; simpl; [exact Ha|].
  apply IH. unfold Cell.Qmin'. now destruct (Qle_bool a x).
Qed.

Lemma fold_max_constant (r : list Q) (v : Q) :
  Forall (fun a => a == v) r ->
  forall a, a == v -> fold_left Cell.Qmax' r a == v.
Proof.
  induction 1 as [|x r Hx _ IH]; intros a Ha; simpl; [exact Ha|].
  apply IH. unfold Cell.Qmax'. now destruct (Qle_bool a x).
Qed.

(** A column whose cells all hold the same number is scaled to 0: its
    range is zero, [handle_zeros_in_scale] turns the divisor into 1,
    and [x * 1 - min * 1] is 0. *)
Lemma fit_transform_constant (col : list (option Q)) (v : Q) :
  (forall x, In x col -> Cell.eqv x (Some v)) ->
  forall y, In y (fit_transform col) -> Cell.eqv y (Some 0).
Proof.
  intros H y Hy.
  destruct (values_constant col v H) as [Hv Hlen].
  unfold fit_transform, transform in Hy.
  apply in_map_iff in Hy as (x & <- & Hx).
  pose proof (H x Hx) as Hxv.
  destruct x as [a|]; [|destruct Hxv]. simpl in Hxv.
  unfold fit, Cell.nanmin, Cell.nanmax; simpl.
  destruct (Cell.values col) as [|v0 r] eqn:E.
  { destruct col; [destruct Hx | discriminate Hlen]. }
  inversion Hv as [|? ? Hv0 Hr]; subst.
  pose proof (fold_min_constant r v Hr v0 Hv0) as Hmin.
  pose proof (fold_max_constant r v Hr v0 Hv0) as Hmax.
  set (mn := fold_left Cell.Qmin' r v0) in *.
  set (mx := fold_left Cell.Qmax' r v0) in *.
  simpl.
  assert (Hlt : Cell.Qltb (mx - mn) (10 * eps) = true).
  { unfold Cell.Qltb. apply negb_true_iff.
    destruct (Qle_bool (10 * eps) (mx - mn)) eqn:E'; [|reflexivity].
    apply Qle_bool_iff in E'. unfold eps in E'.
    assert (mx - mn == 0) by lra.
    assert (0 < 10 * (1 # 4503599627370496)) by reflexivity. lra. }
  rewrite Hlt. simpl. field_simplify. lra.
Qed.

(** A column without any number is scaled to NaN cells only. *)
Lemma fit_transform_all_nan (col : list (option Q)) :
  (forall x, In x col -> x = None) ->
  forall y, In y (fit_transform col) -> y = None.
Proof.
  intros H y Hy. unfold fit_transform, transform in Hy.
  apply in_map_iff in Hy as (x & <- & Hx).
  rewrite (H x Hx). reflexivity.
Qed.

End ScalerFacts.

(* ================================================================= *)
(** ** Properties of the scoring *)

Module ScoreFacts.

Import Optimizer.

(** *** The score columns of [scored_rows] *)

Lemma zip_columns (w : Weights) (xs : list (Row * option Q)) :
  forall c1 c2 c3 : list (option Q),
    List.length c1 = List.length xs ->
    List.length c2 = List.length xs ->
    List.length c3 = List.length xs ->
    let out := map (fun p => score_row w (fst p) (snd p))
                   (combine xs (combine c1 (combine c2 c3))) in
    map listing out = map fst xs /\
    map roi_anual_porcentaje out = map snd xs /\
    map score_roi out = c1 /\
    map score_precio_m2 out = c2 /\
    map score_tamano out = c3.
Proof.
  induction xs as [|x xs IH]; intros c1 c2 c3 H1 H2 H3.
  - destruct c1, c2, c3; try discriminate. simpl. auto.
  - destruct c1 as [|a c1], c2 as [|b c2], c3 as [|c c3];
      try discriminate.
    injection H1 as H1. injection H2 as H2. injection H3 as H3.
    destruct (IH c1 c2 c3 H1 H2 H3) as (E1 & E2 & E3 & E4 & E5).
    simpl. rewrite E1, E2, E3, E4, E5. auto.
Qed.

Section Columns.

Variable venta_props : DataFrame.
Variable roi_df : list RoiEntry.
Variable risk_tolerance : string.

Let rows := scored_rows venta_props roi_df risk_tolerance.
Let filled := with_roi venta_props roi_df.

Lemma scored_columns :
  map listing rows = map fst filled /\
  map roi_anual_porcentaje rows = map snd filled /\
  map score_roi rows = MinMaxScaler.fit_transform (map snd filled) /\
  map score_precio_m2 rows =
    map (Cell.sub (Some 1))
        (MinMaxScaler.fit_transform
           (map (fun row => precio_por_m2 (fst row)) filled)) /\
  map score_tamano rows =
    MinMaxScaler.fit_transform
      (map (fun row => metros_cuadrados (fst row)) filled).
Proof.
  unfold rows, scored_rows. fold filled.
  apply zip_columns;
    rewrite ?length_map, !ScalerFacts.fit_transform_length, ?length_map;
    reflexivity.
Qed.

Lemma score_roi_column :
  map score_roi rows
  = MinMaxScaler.fit_transform (map roi_anual_porcentaje rows).
Proof.
  destruct scored_columns as (_ & E2 & E3 & _). now rewrite E2.
Qed.

Lemma score_precio_m2_column :
  map score_precio_m2 rows
  = map (Cell.sub (Some 1))
        (MinMaxScaler.fit_transform
           (map (fun r => precio_por_m2 (listing r)) rows)).
Proof.
  destruct scored_columns as (E1 & _ & _ & E4 & _).
  rewrite E4. do 2 f_equal.
  rewrite <- (map_map listing precio_por_m2), E1, map_map. reflexivity.
Qed.

Lemma score_tamano_column :
  map score_tamano rows
  = MinMaxScaler.fit_transform
      (map (fun r => metros_cuadrados (listing r)) rows).
Proof.
  destruct scored_columns as (E1 & _ & _ & _ & E5).
  rewrite E5. f_equal.
  rewrite <- (map_map listing metros_cuadrados), E1, map_map.
  reflexivity.
Qed.

Lemma investment_score_formula (r : Scored) :
  In r rows ->
  let w := weights_for risk_tolerance in
  investment_score r =
  Cell.add
    (Cell.add (Cell.mul (score_roi r) (Some (w_roi w)))
              (Cell.mul (score_precio_m2 r) (Some (w_precio_m2 w))))
    (Cell.mul (score_tamano r) (Some (w_tamano w))).
Proof.
  unfold rows, scored_rows. rewrite in_map_iff.
  intros ([row [s1 [s2 s3]]] & <- & _). reflexivity.
Qed.

End Columns.

End ScoreFacts.

(* ================================================================= *)
(** ** Properties of the methods of [InvestmentOptimizer] *)

Module MethodFacts.

Import Optimizer.

(** The two outcomes of [calculate_investment_score]. *)
Lemma calculate_investment_score_eq
  (budget_min budget_max : Q) (risk_tolerance : string)
  (self : InvestmentOptimizer) :
  calculate_investment_score budget_min budget_max risk_tolerance self =
  match budget_filter budget_min budget_max (properties_df self) with
  | [] => (Ok None, self, [no_properties_message])
  | venta_props =>
      let rows :=
        sort_by_score
          (scored_rows venta_props (roi_df self) risk_tolerance) in
      (Ok (Some rows),
       {| properties_df := properties_df self;
          roi_df := roi_df self;
          investment_scores := Some rows |},
       [])
  end.
Proof.
  unfold calculate_investment_score, bind, get; simpl.
  destruct (budget_filter _ _ _); reflexivity.
Qed.

Lemma calculate_investment_score_rows
  (budget_min budget_max : Q) (risk_tolerance : string)
  (self self' : InvestmentOptimizer) (rows : list Scored)
  (out : list string) :
  calculate_investment_score budget_min budget_max risk_tolerance self
  = (Ok (Some rows), self', out) ->
  rows = sort_by_score
           (scored_rows
              (budget_filter budget_min budget_max (properties_df self))
              (roi_df self) risk_tolerance).
Proof.
  rewrite calculate_investment_score_eq.
  destruct (budget_filter _ _ _); [discriminate|].
  simpl. intros H. injection H as <- _ _. reflexivity.
Qed.

Lemma sort_by_score_In (l : list Scored) (r : Scored) :
  In r (sort_by_score l) <-> In r l.
Proof. apply PandasFacts.sort_values_desc_In. Qed.

Lemma score_order_trans (x y z : Scored) :
  score_order x y -> score_order y z -> score_order x z.
Proof.
  unfold score_order.
  destruct (investment_score x), (investment_score y),
    (investment_score z); try tauto.
  intros. lra.
Qed.

Lemma sort_by_score_sorted (l : list Scored) :
  StronglySorted score_order (sort_by_score l).
Proof.
  apply PandasFacts.sort_values_desc_sorted.
  - exact score_order_trans.
  - unfold score_isna, score_geb, score_order. intros x y.
    destruct (investment_score x), (investment_score y);
      try discriminate.
    intros _ _ H. now apply Qle_bool_iff.
  - unfold score_isna, score_geb, score_order. intros x y.
    destruct (investment_score x), (investment_score y);
      try discriminate.
    intros _ _ H.
    destruct (Qlt_le_dec q q0) as [Hlt|Hle]; [lra|].
    apply Qle_bool_iff in Hle. congruence.
  - unfold score_isna, score_order. intros x y.
    destruct (investment_score y); [discriminate|].
    now destruct (investment_score x).
Qed.

(** With the maximum below the minimum no price is inside the budget. *)
Lemma budget_filter_inverted (budget_min budget_max : Q)
  (df : DataFrame) :
  budget_max < budget_min ->
  budget_filter budget_min budget_max df = [].
Proof.
  intros H. unfold budget_filter.
  induction df as [|r df IH]; [reflexivity|]. simpl.
  rewrite IH.
  replace (in_budget budget_min budget_max r) with false; [reflexivity|].
  unfold in_budget, Cell.ge, Cell.le.
  destruct (precio r) as [p|]; [|now rewrite andb_false_r].
  destruct (Qle_bool budget_min p) eqn:E1;
    [|now rewrite andb_false_r].
  destruct (Qle_bool p budget_max) eqn:E2;
    [|now rewrite andb_false_r].
  apply Qle_bool_iff in E1, E2. lra.
Qed.


End MethodFacts.

(* ================================================================= *)
(** ** The scorer on degenerate candidate sets *)

(** The claim of C1 fails on a single candidate: scored alone, its
    three components are 0, 1 and 0, none of them 0.5; its investment
    score is 0.3 under the medium weights and 0.4 under the low ones,
    so it is not 0.5 and it depends on the weight table. *)
Lemma single_candidate_not_neutral :
  exists r s,
    Examples.table_of
      (Optimizer.calculate_investment_score 50000 300000 "medium"
         Examples.one_listing) = [r] /\
    Examples.table_of
      (Optimizer.calculate_investment_score 50000 300000 "low"
         Examples.one_listing) = [s] /\
    Cell.eqv (Optimizer.score_roi r) (Some 0) /\
    Cell.eqv (Optimizer.score_precio_m2 r) (Some 1) /\
    Cell.eqv (Optimizer.score_tamano r) (Some 0) /\
    Cell.eqv (Optimizer.investment_score r) (Some 0.3) /\
    Cell.eqv (Optimizer.investment_score s) (Some 0.4) /\
    ~ Cell.eqv (Optimizer.investment_score r) (Some 0.5).
Proof.
  eexists. eexists.
  split; [vm_compute; reflexivity|].
  split; [vm_compute; reflexivity|].
  vm_compute. repeat split; try reflexivity. discriminate.
Qed.

(** C1, as the code has it.  A metric with the same value on every
    candidate is scaled to 0 by [MinMaxScaler], not to 0.5: the ROI
    score and the size score are 0 and the price-per-area score, being
    one minus the scaled value, is 1.  A single candidate whose three
    metrics are present therefore scores 0, 1 and 0, and its
    investment score is the price-per-area weight of the risk profile
    in use. *)
Theorem zero_range_metric_scores
  (self self' : Optimizer.InvestmentOptimizer)
  (budget_min budget_max : Q) (risk_tolerance : string)
  (rows : list Optimizer.Scored) (out : list string) :
  Optimizer.calculate_investment_score budget_min budget_max
    risk_tolerance self = (Ok (Some rows), self', out) ->
  (forall v,
      (forall r, In r rows ->
                 Cell.eqv (Optimizer.roi_anual_porcentaje r) (Some v)) ->
      forall r, In r rows -> Cell.eqv (Optimizer.score_roi r) (Some 0)) /\
  (forall v,
      (forall r, In r rows ->
                 Cell.eqv (precio_por_m2 (Optimizer.listing r)) (Some v)) ->
      forall r, In r rows ->
                Cell.eqv (Optimizer.score_precio_m2 r) (Some 1)) /\
  (forall v,
      (forall r, In r rows ->
                 Cell.eqv (metros_cuadrados (Optimizer.listing r))
                          (Some v)) ->
      forall r, In r rows ->
                Cell.eqv (Optimizer.score_tamano r) (Some 0)) /\
  (forall r,
      rows = [r] ->
      Cell.notna (Optimizer.roi_anual_porcentaje r) = true ->
      Cell.notna (precio_por_m2 (Optimizer.listing r)) = true ->
      Cell.notna (metros_cuadrados (Optimizer.listing r)) = true ->
      Cell.eqv (Optimizer.score_roi r) (Some 0) /\
      Cell.eqv (Optimizer.score_precio_m2 r) (Some 1) /\
      Cell.eqv (Optimizer.score_tamano r) (Some 0) /\
      Cell.eqv (Optimizer.investment_score r)
               (Some (Optimizer.w_precio_m2
                        (Optimizer.weights_for risk_tolerance)))).
Proof.
  intros Hcall.
  apply MethodFacts.calculate_investment_score_rows in Hcall.
  set (venta_props :=
         Optimizer.budget_filter budget_min budget_max
           (Optimizer.properties_df self)) in Hcall.
  set (sc := Optimizer.scored_rows venta_props (Optimizer.roi_df self)
               risk_tolerance) in Hcall.
  assert (Hin : forall r, In r rows <-> In r sc).
  { intros r. rewrite Hcall. apply MethodFacts.sort_by_score_In. }
  assert (Hroi : forall v,
      (forall r, In r rows ->
                 Cell.eqv (Optimizer.roi_anual_porcentaje r) (Some v)) ->
      forall r, In r rows -> Cell.eqv (Optimizer.score_roi r) (Some 0)).
  { intros v Hv r Hr.
    apply (ScalerFacts.fit_transform_constant
             (map Optimizer.roi_anual_porcentaje sc) v).
    - intros x Hx. apply in_map_iff in Hx as (r' & <- & Hr').
      apply Hv. now apply Hin.
    - unfold sc. rewrite <- ScoreFacts.score_roi_column.
      apply in_map. now apply Hin. }
  assert (Hppa : forall v,
      (forall r, In r rows ->
                 Cell.eqv (precio_por_m2 (Optimizer.listing r)) (Some v)) ->
      forall r, In r rows ->
                Cell.eqv (Optimizer.score_precio_m2 r) (Some 1)).
  { intros v Hv r Hr.
    assert (Hcol : In (Optimizer.score_precio_m2 r)
                      (map Optimizer.score_precio_m2 sc))
      by (apply in_map; now apply Hin).
    unfold sc in Hcol. rewrite ScoreFacts.score_precio_m2_column in Hcol.
    apply in_map_iff in Hcol as (y & <- & Hy).
    apply (ScalerFacts.fit_transform_constant _ v) in Hy.
    - destruct y as [a|]; [|destruct Hy]. simpl in *. lra.
    - intros x Hx. apply in_map_iff in Hx as (r' & <- & Hr').
      apply Hv. now apply Hin. }
  assert (Htam : forall v,
      (forall r, In r rows ->
                 Cell.eqv (metros_cuadrados (Optimizer.listing r))
                          (Some v)) ->
      forall r, In r rows ->
                Cell.eqv (Optimizer.score_tamano r) (Some 0)).
  { intros v Hv r Hr.
    apply (ScalerFacts.fit_transform_constant
             (map (fun r => metros_cuadrados (Optimizer.listing r)) sc) v).
    - intros x Hx. apply in_map_iff in Hx as (r' & <- & Hr').
      apply Hv. now apply Hin.
    - unfold sc. rewrite <- ScoreFacts.score_tamano_column.
      apply in_map. now apply Hin. }
  split; [exact Hroi|]. split; [exact Hppa|]. split; [exact Htam|].
  intros r Hrows Nroi Nppa Ntam.
  assert (Hr : In r rows) by (rewrite Hrows; now left).
  assert (Hone : forall r', In r' rows -> r' = r).
  { intros r' H'. rewrite Hrows in H'. destruct H' as [H'|[]]. auto. }
  destruct (Optimizer.roi_anual_porcentaje r) as [y|] eqn:Ey;
    [|discriminate Nroi].
  destruct (precio_por_m2 (Optimizer.listing r)) as [p|] eqn:Ep;
    [|discriminate Nppa].
  destruct (metros_cuadrados (Optimizer.listing r)) as [m|] eqn:Em;
    [|discriminate Ntam].
  assert (S1 : Cell.eqv (Optimizer.score_roi r) (Some 0)).
  { apply (Hroi y); [|exact Hr]. intros r' H'.
    rewrite (Hone r' H'), Ey. simpl. reflexivity. }
  assert (S2 : Cell.eqv (Optimizer.score_precio_m2 r) (Some 1)).
  { apply (Hppa p); [|exact Hr]. intros r' H'.
    rewrite (Hone r' H'), Ep. simpl. reflexivity. }
  assert (S3 : Cell.eqv (Optimizer.score_tamano r) (Some 0)).
  { apply (Htam m); [|exact Hr]. intros r' H'.
    rewrite (Hone r' H'), Em. simpl. reflexivity. }
  split; [exact S1|]. split; [exact S2|]. split; [exact S3|].
  rewrite (ScoreFacts.investment_score_formula venta_props
             (Optimizer.roi_df self) risk_tolerance r);
    [|now apply Hin].
  destruct (Optimizer.score_roi r) as [a|]; [|destruct S1].
  destruct (Optimizer.score_precio_m2 r) as [b|]; [|destruct S2].
  destruct (Optimizer.score_tamano r) as [c|]; [|destruct S3].
  simpl in *. rewrite S1, S2, S3. ring.
Qed.

Lemma zero_range_metric_scores_witness :
  exists r,
    Examples.table_of
      (Optimizer.calculate_investment_score 50000 300000 "medium"
         Examples.one_listing) = [r] /\
    Cell.eqv (Optimizer.score_roi r) (Some 0) /\
    Cell.eqv (Optimizer.score_precio_m2 r) (Some 1) /\
    Cell.eqv (Optimizer.score_tamano r) (Some 0) /\
    Cell.eqv (Optimizer.investment_score r)
             (Some (Optimizer.w_precio_m2
                      (Optimizer.weights_for "medium"))).
Proof.
  set (o := Optimizer.calculate_investment_score 50000 300000 "medium"
              Examples.one_listing).
  assert (Hcall : o = (Ok (Some (Examples.table_of o)), snd (fst o), snd o))
    by (vm_compute; reflexivity).
  destruct (Examples.table_of o) as [|r [|]] eqn:E;
    [discriminate E | | discriminate E].
  exists r. split; [reflexivity|].
  injection E as E.
  apply (proj2 (proj2 (proj2
    (zero_range_metric_scores Examples.one_listing _ 50000 300000
       "medium" _ _ Hcall))));
    [reflexivity | | |]; rewrite <- E; reflexivity.
Defined.

(* ================================================================= *)
(** ** The order of the scored table *)

(** The claim of C3 fails on two listings of equal score: both score
    0.3 under the medium weights, and the listing priced 262144 stays
    in front of the one priced 65536. *)
Lemma equal_scores_dearer_first :
  exists r1 r2,
    Examples.table_of
      (Optimizer.calculate_investment_score 50000 300000 "medium"
         Examples.two_in_pocitos) = [r1; r2] /\
    Cell.eqv (Optimizer.investment_score r1)
             (Optimizer.investment_score r2) /\
    precio (Optimizer.listing r1) = Some 262144 /\
    precio (Optimizer.listing r2) = Some 65536 /\
    barrio (Optimizer.listing r1) = barrio (Optimizer.listing r2).
Proof.
  eexists. eexists.
  split; [vm_compute; reflexivity|].
  vm_compute. repeat split; reflexivity.
Qed.

(** C3, as the code has it.  The table that the scorer returns holds
    the scored candidates, each once, by descending investment score,
    rows without a score last.  The score is the only sort key. *)
Theorem scores_sorted_descending
  (self self' : Optimizer.InvestmentOptimizer)
  (budget_min budget_max : Q) (risk_tolerance : string)
  (rows : list Optimizer.Scored) (out : list string) :
  Optimizer.calculate_investment_score budget_min budget_max
    risk_tolerance self = (Ok (Some rows), self', out) ->
  StronglySorted Optimizer.score_order rows /\
  Permutation
    (Optimizer.scored_rows
       (Optimizer.budget_filter budget_min budget_max
          (Optimizer.properties_df self))
       (Optimizer.roi_df self) risk_tolerance)
    rows.
Proof.
  intros Hcall.
  apply MethodFacts.calculate_investment_score_rows in Hcall.
  rewrite Hcall. split.
  - apply MethodFacts.sort_by_score_sorted.
  - apply PandasFacts.sort_values_desc_perm.
Qed.

Lemma scores_sorted_descending_witness :
  let rows :=
    Examples.table_of
      (Optimizer.calculate_investment_score 50000 300000 "medium"
         Examples.centro_and_pocitos) in
  StronglySorted Optimizer.score_order rows /\
  Permutation
    (Optimizer.scored_rows
       (Optimizer.budget_filter 50000 300000
          (Optimizer.properties_df Examples.centro_and_pocitos))
       (Optimizer.roi_df Examples.centro_and_pocitos) "medium")
    rows.
Proof.
  intros rows.
  eapply (scores_sorted_descending Examples.centro_and_pocitos _
            50000 300000 "medium" rows []).
  vm_compute. reflexivity.
Defined.

(* ================================================================= *)
(** ** A budget whose minimum exceeds its maximum *)

(** The claim of C6 fails: with the minimum above the maximum the
    scorer raises nothing and gives exactly what it gives for an
    empty, well-formed budget: [None] and the no-properties line. *)
Lemma inverted_budget_same_as_empty :
  Optimizer.calculate_investment_score 200000 100000 "medium"
    Examples.one_listing
  = (Ok None, Examples.one_listing, [Optimizer.no_properties_message])
  /\
  Optimizer.calculate_investment_score 200000 100000 "medium"
    Examples.one_listing
  = Optimizer.calculate_investment_score 90000 90000 "medium"
      Examples.one_listing.
Proof. split; vm_compute; reflexivity. Qed.

(** C6, as the code has it.  With [budget_min > budget_max] the scorer
    and the recommender print the no-properties line and return
    [None], leaving the object untouched: the outcome of a query
    without candidates, not a failure of its own. *)
Theorem inverted_budget_no_candidates
  (self : Optimizer.InvestmentOptimizer)
  (budget_min budget_max : Q) (risk_tolerance : string)
  (location_preference : option string) :
  budget_max < budget_min ->
  Optimizer.calculate_investment_score budget_min budget_max
    risk_tolerance self
  = (Ok None, self, [Optimizer.no_properties_message]) /\
  Optimizer.get_investment_recommendation budget_min budget_max
    risk_tolerance location_preference self
  = (Ok None, self, [Optimizer.no_properties_message]).
Proof.
  intros H.
  assert (E : Optimizer.calculate_investment_score budget_min budget_max
                risk_tolerance self
              = (Ok None, self, [Optimizer.no_properties_message])).
  { rewrite MethodFacts.calculate_investment_score_eq.
    now rewrite MethodFacts.budget_filter_inverted. }
  split; [exact E|].
  unfold Optimizer.get_investment_recommendation, Optimizer.bind.
  rewrite E. reflexivity.
Qed.

Lemma inverted_budget_no_candidates_witness :
  200000 < 300000 /\
  Optimizer.calculate_investment_score 300000 200000 "high"
    Examples.centro_and_pocitos
  = (Ok None, Examples.centro_and_pocitos,
     [Optimizer.no_properties_message]) /\
  Optimizer.get_investment_recommendation 300000 200000 "high"
    (Some "Centro"%string) Examples.centro_and_pocitos
  = (Ok None, Examples.centro_and_pocitos,
     [Optimizer.no_properties_message]).
Proof.
  split; [reflexivity|].
  apply (inverted_budget_no_candidates Examples.centro_and_pocitos
           300000 200000 "high" (Some "Centro"%string)).
  reflexivity.
Defined.

(* ================================================================= *)
(** ** The risk profile *)



(* ================================================================= *)
(** ** The location preference *)

(** C2, on the code.  Asked for "Pocitos" over a listing in Centro and
    one in Pocitos, the recommender returns both listings in its top
    list and the Centro listing as the best opportunity, although
    "Pocitos" does not occur in "Centro": the filtered table is bound
    to a local name and the lists are read from the unfiltered
    [investment_scores]. *)
Theorem location_filter_not_applied :
  exists rec self' out,
    Optimizer.get_investment_recommendation 50000 300000 "medium"
      (Some "Pocitos"%string) Examples.centro_and_pocitos
    = (Ok (Some rec), self', out) /\
    map Optimizer.t_barrio (Optimizer.top_opportunities rec)
    = [Some "Centro"%string; Some "Pocitos"%string] /\
    Optimizer.t_barrio (Optimizer.best_opportunity rec)
    = Some "Centro"%string /\
    Str.contains_nocase "Pocitos" (Some "Centro"%string) = false /\
    Str.contains_nocase "Pocitos" (Some "Pocitos"%string) = true.
Proof.
  eexists. eexists. eexists.
  split; [vm_compute; reflexivity|].
  repeat split; vm_compute; reflexivity.
Qed.

(* ================================================================= *)
(** ** The extrema of a column *)

Module RangeFacts.

Import MinMaxScaler.

Lemma fold_min_bounds (r : list Q) :
  forall a,
    fold_left Cell.Qmin' r a <= a /\
    Forall (fun x => fold_left Cell.Qmin' r a <= x) r.
Proof.
  induction r as [|x r IH]; intros a; simpl.
  - split; [lra | constructor].
  - destruct (IH (Cell.Qmin' a x)) as [H1 H2].
    assert (Cell.Qmin' a x <= a /\ Cell.Qmin' a x <= x) as [Ha Hx].
    { unfold Cell.Qmin'. destruct (Qle_bool a x) eqn:E.
      - apply Qle_bool_iff in E. lra.
      - destruct (Qlt_le_dec x a) as [Hlt|Hle]; [lra|].
        apply Qle_bool_iff in Hle. congruence. }
    split; [lra|]. constructor; [lra | exact H2].
Qed.

Lemma fold_max_bounds (r : list Q) :
  forall a,
    a <= fold_left Cell.Qmax' r a /\
    Forall (fun x => x <= fold_left Cell.Qmax' r a) r.
Proof.
  induction r as [|x r IH]; intros a; simpl.
  - split; [lra | constructor].
  - destruct (IH (Cell.Qmax' a x)) as [H1 H2].
    assert (a <= Cell.Qmax' a x /\ x <= Cell.Qmax' a x) as [Ha Hx].
    { unfold Cell.Qmax'. destruct (Qle_bool a x) eqn:E.
      - apply Qle_bool_iff in E. lra.
      - destruct (Qlt_le_dec x a) as [Hlt|Hle]; [lra|].
        apply Qle_bool_iff in Hle. congruence. }
    split; [lra|]. constructor; [lra | exact H2].
Qed.

Lemma values_In (col : list (option Q)) (a : Q) :
  In (Some a) col -> In a (Cell.values col).
Proof.
  induction col as [|[b|] r IH]; simpl; [tauto| |].
  - intros [H|H]; [left; congruence | right; auto].
  - intros [H|H]; [discriminate | auto].
Qed.

Lemma nan_extrema (col : list (option Q)) (a : Q) :
  In (Some a) col ->
  exists mn mx,
    Cell.nanmin col = Some mn /\ Cell.nanmax col = Some mx /\
    mn <= a /\ a <= mx.
Proof.
  intros H. apply values_In in H.
  unfold Cell.nanmin, Cell.nanmax.
  destruct (Cell.values col) as [|v r]; [destruct H|].
  destruct (fold_min_bounds r v) as [Hm1 Hm2].
  destruct (fold_max_bounds r v) as [Hx1 Hx2].
  do 2 eexists. split; [reflexivity|]. split; [reflexivity|].
  rewrite Forall_forall in Hm2, Hx2.
  destruct H as [<-|H]; [lra|].
  split; [now apply Hm2 | now apply Hx2].
Qed.

End RangeFacts.

(** When no candidate has an ROI the median fill leaves the column
    empty, and every ROI score and investment score is NaN. *)
Lemma no_roi_no_score
  (self self' : Optimizer.InvestmentOptimizer)
  (budget_min budget_max : Q) (risk_tolerance : string)
  (rows : list Optimizer.Scored) (out : list string) :
  Optimizer.calculate_investment_score budget_min budget_max
    risk_tolerance self = (Ok (Some rows), self', out) ->
  (forall r, In r rows -> Optimizer.roi_anual_porcentaje r = None) ->
  forall r, In r rows ->
    Optimizer.score_roi r = None /\ Optimizer.investment_score r = None.
Proof.
  intros Hcall Hnone r Hr.
  apply MethodFacts.calculate_investment_score_rows in Hcall.
  set (sc := Optimizer.scored_rows _ _ _) in Hcall.
  assert (Hin : forall r, In r rows <-> In r sc).
  { intros r'. rewrite Hcall. apply MethodFacts.sort_by_score_In. }
  assert (Hs : Optimizer.score_roi r = None).
  { apply (ScalerFacts.fit_transform_all_nan
             (map Optimizer.roi_anual_porcentaje sc)).
    - intros x Hx. apply in_map_iff in Hx as (r' & <- & Hr').
      apply Hnone. now apply Hin.
    - unfold sc. rewrite <- ScoreFacts.score_roi_column.
      apply in_map. now apply Hin. }
  split; [exact Hs|].
  unfold sc in Hin.
  rewrite (ScoreFacts.investment_score_formula _ _ _ r (proj1 (Hin r) Hr)).
  rewrite Hs. reflexivity.
Qed.

(** C5, on the code.  A candidate whose neighbourhood is not in the ROI
    table, scored alone, has no ROI after the median fill, the median
    of no value being NaN: its ROI score and its investment score are
    NaN, outside [0, 1]. *)
Theorem missing_roi_score_is_nan :
  exists r,
    Examples.table_of
      (Optimizer.calculate_investment_score 50000 300000 "medium"
         Examples.one_listing_without_roi) = [r] /\
    Optimizer.roi_anual_porcentaje r = None /\
    Optimizer.score_roi r = None /\
    Optimizer.investment_score r = None /\
    ~ Cell.within 0 1 (Optimizer.score_roi r).
Proof.
  eexists. split; [vm_compute; reflexivity|].
  repeat split. intros H. exact H.
Qed.

(* ================================================================= *)
(** ** The candidates and their ROI *)

Module JoinFacts.

Import Optimizer.

Lemma budget_filter_In (budget_min budget_max : Q) (df : DataFrame)
  (r : Row) :
  In r (budget_filter budget_min budget_max df) <->
  In r df /\ tipo_operacion r = "venta"%string /\
  exists p, precio r = Some p /\ budget_min <= p /\ p <= budget_max.
Proof.
  unfold budget_filter, in_budget, Cell.ge, Cell.le.
  rewrite filter_In, !andb_true_iff, String.eqb_eq.
  destruct (precio r) as [p|].
  - rewrite !Qle_bool_iff. split.
    + intros (H & (Hop & H1) & H2). eauto 10.
    + intros (H & Hop & q & Hq & H1 & H2).
      injection Hq as <-. auto.
  - split.
    + intros (_ & (_ & H) & _). discriminate H.
    + intros (_ & _ & q & Hq & _). discriminate Hq.
Qed.

Lemma merge_left_fst_In (left : DataFrame) (right : list RoiEntry)
  (l : Row) :
  In l (map fst (merge_left left right)) <-> In l left.
Proof.
  unfold merge_left. rewrite in_map_iff. split.
  - intros ([l' y] & <- & H). apply in_flat_map in H as (r & Hr & H).
    destruct (filter _ right) as [|e ms].
    + destruct H as [H|[]]. injection H as <- _. exact Hr.
    + apply in_map_iff in H as (e' & H & _). injection H as <- _.
      exact Hr.
  - intros H.
    destruct (filter (fun e => same_key (barrio l) (r_barrio e)) right)
      as [|e ms] eqn:E.
    + exists (l, None). split; [reflexivity|].
      apply in_flat_map. exists l. split; [exact H|].
      rewrite E. now left.
    + exists (l, r_roi_anual_porcentaje e). split; [reflexivity|].
      apply in_flat_map. exists l. split; [exact H|].
      rewrite E. now left.
Qed.

Lemma with_roi_fst (venta_props : DataFrame) (roi : list RoiEntry) :
  map fst (with_roi venta_props roi)
  = map fst (merge_left venta_props roi).
Proof. unfold with_roi. rewrite map_map. reflexivity. Qed.

Lemma same_key_eq (a b : option string) :
  same_key a b = true <-> a = b.
Proof.
  destruct a as [x|], b as [y|]; simpl;
    try (split; [discriminate | discriminate]); [|tauto].
  rewrite String.eqb_eq. split; congruence.
Qed.

(** A key that occurs once in the right table matches at most one of
    its rows. *)
Lemma unique_match (right : list RoiEntry) (k : option string) :
  NoDup (map r_barrio right) ->
  (List.length (filter (fun e => same_key k (r_barrio e)) right) <= 1)%nat.
Proof.
  induction right as [|e right IH]; intros Hnd; simpl; [lia|].
  inversion Hnd as [|? ? Hnot Hnd']; subst.
  destruct (same_key k (r_barrio e)) eqn:E; [|now apply IH].
  apply same_key_eq in E. simpl.
  destruct (filter _ right) as [|e' ms] eqn:F; [simpl; lia|].
  exfalso. apply Hnot.
  assert (He' : In e' (filter (fun e => same_key k (r_barrio e)) right))
    by (rewrite F; now left).
  apply filter_In in He' as [Hin Hk]. apply same_key_eq in Hk.
  rewrite <- E, Hk. now apply in_map.
Qed.

Lemma merge_left_fst (left : DataFrame) (right : list RoiEntry) :
  NoDup (map r_barrio right) ->
  map fst (merge_left left right) = left.
Proof.
  intros Hnd. unfold merge_left.
  induction left as [|r left IH]; [reflexivity|].
  cbn [flat_map]. rewrite map_app, IH.
  pose proof (unique_match right (barrio r) Hnd) as Hlen.
  destruct (filter _ right) as [|e [|e' ms]]; simpl in *;
    [reflexivity | reflexivity | lia].
Qed.

(** The ROI column of the scored rows, before the sort. *)
Lemma roi_column (venta_props : DataFrame) (roi : list RoiEntry)
  (risk_tolerance : string) :
  map roi_anual_porcentaje (scored_rows venta_props roi risk_tolerance)
  = map (Cell.fillna (Cell.median (map snd (merge_left venta_props roi))))
        (map snd (merge_left venta_props roi)).
Proof.
  destruct (ScoreFacts.scored_columns venta_props roi risk_tolerance)
    as (_ & E & _).
  rewrite E. unfold with_roi. rewrite !map_map. reflexivity.
Qed.

Lemma Qinsert_length (x : Q) (l : list Q) :
  List.length (Cell.Qinsert x l) = S (List.length l).
Proof.
  induction l as [|y r IH]; simpl; [reflexivity|].
  destruct (Qle_bool x y); simpl; [reflexivity | now rewrite IH].
Qed.

Lemma Qsort_length (l : list Q) :
  List.length (Cell.Qsort l) = List.length l.
Proof.
  induction l as [|x r IH]; simpl; [reflexivity|].
  now rewrite Qinsert_length, IH.
Qed.

(** The median is NaN only for a column without any number. *)
Lemma median_none (col : list (option Q)) :
  Cell.median col = None -> Cell.values col = [].
Proof.
  unfold Cell.median. rewrite Qsort_length.
  destruct (Cell.values col) as [|v r]; [reflexivity|].
  simpl List.length. destruct (Nat.even _); discriminate.
Qed.

Lemma values_nil (col : list (option Q)) :
  Cell.values col = [] -> forall x, In x col -> x = None.
Proof.
  induction col as [|[a|] r IH]; simpl; intros H x Hx.
  - destruct Hx.
  - discriminate H.
  - destruct Hx as [<-|Hx]; [reflexivity | now apply IH].
Qed.

End JoinFacts.

(** The listings of the scored table are the sale listings of
    [properties_df] whose price is present and inside the budget, no
    other and none missing. *)
Theorem scored_listings_are_the_candidates
  (self self' : Optimizer.InvestmentOptimizer)
  (budget_min budget_max : Q) (risk_tolerance : string)
  (rows : list Optimizer.Scored) (out : list string) (l : Row) :
  Optimizer.calculate_investment_score budget_min budget_max
    risk_tolerance self = (Ok (Some rows), self', out) ->
  (In l (map Optimizer.listing rows) <->
   In l (Optimizer.properties_df self) /\
   tipo_operacion l = "venta"%string /\
   exists p, precio l = Some p /\ budget_min <= p /\ p <= budget_max).
Proof.
  intros Hcall.
  apply MethodFacts.calculate_investment_score_rows in Hcall.
  rewrite <- JoinFacts.budget_filter_In.
  set (venta_props := Optimizer.budget_filter _ _ _) in *.
  rewrite <- (JoinFacts.merge_left_fst_In venta_props
                (Optimizer.roi_df self)).
  rewrite <- JoinFacts.with_roi_fst.
  destruct (ScoreFacts.scored_columns venta_props (Optimizer.roi_df self)
              risk_tolerance) as (E & _).
  rewrite <- E, Hcall.
  split; apply Permutation_in; apply Permutation_map;
    [symmetry|]; apply PandasFacts.sort_values_desc_perm.
Qed.

Lemma scored_listings_are_the_candidates_witness :
  let o := Optimizer.calculate_investment_score 150000 300000 "medium"
             Examples.centro_and_pocitos in
  let l := Examples.venta 200000 80 "Pocitos" in
  In l (map Optimizer.listing (Examples.table_of o)) <->
  In l (Optimizer.properties_df Examples.centro_and_pocitos) /\
  tipo_operacion l = "venta"%string /\
  exists p, precio l = Some p /\ 150000 <= p /\ p <= 300000.
Proof.
  intros o l.
  eapply (scored_listings_are_the_candidates Examples.centro_and_pocitos
            (snd (fst o)) 150000 300000 "medium" (Examples.table_of o)
            (snd o) l).
  vm_compute. reflexivity.
Defined.

(** When no neighbourhood occurs twice in the ROI table, the merge
    neither drops nor repeats a candidate: the scored table lists the
    candidates, each as often as the budget filter kept it. *)
Theorem one_scored_row_per_candidate
  (self self' : Optimizer.InvestmentOptimizer)
  (budget_min budget_max : Q) (risk_tolerance : string)
  (rows : list Optimizer.Scored) (out : list string) :
  NoDup (map Optimizer.r_barrio (Optimizer.roi_df self)) ->
  Optimizer.calculate_investment_score budget_min budget_max
    risk_tolerance self = (Ok (Some rows), self', out) ->
  Permutation
    (map Optimizer.listing rows)
    (Optimizer.budget_filter budget_min budget_max
       (Optimizer.properties_df self)).
Proof.
  intros Hnd Hcall.
  apply MethodFacts.calculate_investment_score_rows in Hcall.
  set (venta_props := Optimizer.budget_filter _ _ _) in *.
  destruct (ScoreFacts.scored_columns venta_props (Optimizer.roi_df self)
              risk_tolerance) as (E & _).
  rewrite JoinFacts.with_roi_fst, (JoinFacts.merge_left_fst _ _ Hnd) in E.
  rewrite <- E, Hcall. apply Permutation_map. symmetry.
  apply PandasFacts.sort_values_desc_perm.
Qed.

Lemma one_scored_row_per_candidate_witness :
  let o := Optimizer.calculate_investment_score 50000 300000 "low"
             Examples.centro_and_pocitos in
  NoDup (map Optimizer.r_barrio
           (Optimizer.roi_df Examples.centro_and_pocitos)) /\
  Permutation
    (map Optimizer.listing (Examples.table_of o))
    (Optimizer.budget_filter 50000 300000
       (Optimizer.properties_df Examples.centro_and_pocitos)).
Proof.
  intros o.
  assert (Hnd : NoDup (map Optimizer.r_barrio
                         (Optimizer.roi_df Examples.centro_and_pocitos))).
  { simpl. repeat constructor; simpl; intuition discriminate. }
  split; [exact Hnd|].
  eapply (one_scored_row_per_candidate Examples.centro_and_pocitos
            (snd (fst o)) 50000 300000 "low" (Examples.table_of o)
            (snd o) Hnd).
  vm_compute. reflexivity.
Defined.

(* ================================================================= *)
(** ** Each score as a function of its metric *)

Module PointFacts.

Import Optimizer.

(** The scaling that a fitted scaler applies to one cell. *)
Lemma transform_pointwise {A} (metric score : A -> option Q)
  (l : list A) :
  map score l = MinMaxScaler.fit_transform (map metric l) ->
  forall r, In r l ->
    score r =
    Cell.add (Cell.mul (metric r)
                (MinMaxScaler.scale_ (MinMaxScaler.fit (map metric l))))
             (MinMaxScaler.min_ (MinMaxScaler.fit (map metric l))).
Proof.
  unfold MinMaxScaler.fit_transform, MinMaxScaler.transform.
  rewrite map_map. intros H r Hr.
  exact (ext_in_map H r Hr).
Qed.

Lemma paired_columns {A B C} (f : A -> B) (g : A -> C) (l : list A) :
  forall xs : list (B * C),
    map f l = map fst xs -> map g l = map snd xs ->
    forall r, In r l -> In (f r, g r) xs.
Proof.
  induction l as [|a l IH]; intros xs Hf Hg r Hr; [destruct Hr|].
  destruct xs as [|[b c] xs]; [discriminate Hf|].
  simpl in Hf, Hg. injection Hf as Hb Hf. injection Hg as Hc Hg.
  destruct Hr as [<-|Hr].
  - left. now rewrite Hb, Hc.
  - right. now apply IH.
Qed.

Section Scaled.

Variable venta_props : DataFrame.
Variable roi_df : list RoiEntry.
Variable risk_tolerance : string.

Let rows := scored_rows venta_props roi_df risk_tolerance.

Lemma score_roi_pointwise (r : Scored) :
  In r rows ->
  score_roi r =
  let f := MinMaxScaler.fit (map roi_anual_porcentaje rows) in
  Cell.add (Cell.mul (roi_anual_porcentaje r) (MinMaxScaler.scale_ f))
           (MinMaxScaler.min_ f).
Proof.
  apply transform_pointwise. apply ScoreFacts.score_roi_column.
Qed.

Lemma score_tamano_pointwise (r : Scored) :
  In r rows ->
  score_tamano r =
  let f := MinMaxScaler.fit
             (map (fun r => metros_cuadrados (listing r)) rows) in
  Cell.add (Cell.mul (metros_cuadrados (listing r))
                     (MinMaxScaler.scale_ f))
           (MinMaxScaler.min_ f).
Proof.
  apply (transform_pointwise (fun r => metros_cuadrados (listing r))).
  apply ScoreFacts.score_tamano_column.
Qed.

Lemma score_precio_m2_pointwise (r : Scored) :
  In r rows ->
  score_precio_m2 r =
  let f := MinMaxScaler.fit
             (map (fun r => precio_por_m2 (listing r)) rows) in
  Cell.sub (Some 1)
    (Cell.add (Cell.mul (precio_por_m2 (listing r))
                        (MinMaxScaler.scale_ f))
              (MinMaxScaler.min_ f)).
Proof.
  intros Hr.
  pose proof (ScoreFacts.score_precio_m2_column venta_props roi_df
                risk_tolerance) as H.
  fold rows in H.
  unfold MinMaxScaler.fit_transform, MinMaxScaler.transform in H.
  rewrite !map_map in H.
  exact (ext_in_map H r Hr).
Qed.

Lemma listing_with_roi (r : Scored) :
  In r rows ->
  In (listing r, roi_anual_porcentaje r) (with_roi venta_props roi_df).
Proof.
  destruct (ScoreFacts.scored_columns venta_props roi_df risk_tolerance)
    as (E1 & E2 & _).
  apply paired_columns; assumption.
Qed.

End Scaled.

(** The fitted scale is a positive number as soon as the column has a
    number. *)
Lemma scale_positive (col : list (option Q)) (a : Q) :
  In (Some a) col ->
  exists mn sc,
    Cell.nanmin col = Some mn /\
    MinMaxScaler.scale_ (MinMaxScaler.fit col) = Some sc /\
    MinMaxScaler.min_ (MinMaxScaler.fit col) = Some (0 - mn * sc) /\
    0 < sc.
Proof.
  intros Ha.
  destruct (RangeFacts.nan_extrema col a Ha)
    as (mn & mx & Emn & Emx & _ & _).
  unfold MinMaxScaler.fit. simpl. rewrite Emn, Emx. simpl.
  destruct (Cell.Qltb (mx - mn) (10 * MinMaxScaler.eps)) eqn:E; simpl.
  - do 2 eexists. split; [reflexivity|]. split; [reflexivity|].
    split; [reflexivity|]. reflexivity.
  - do 2 eexists. split; [reflexivity|]. split; [reflexivity|].
    split; [reflexivity|].
    unfold Cell.Qltb in E. apply negb_false_iff in E.
    apply Qle_bool_iff in E.
    assert (0 < 10 * MinMaxScaler.eps) by reflexivity.
    apply Qlt_shift_div_l; lra.
Qed.

(** Scaling keeps the order of two numbers of the column. *)
Lemma transform_monotone (col : list (option Q)) (a b : Q) :
  In (Some a) col -> a <= b ->
  exists sa sb,
    Cell.add (Cell.mul (Some a)
                (MinMaxScaler.scale_ (MinMaxScaler.fit col)))
             (MinMaxScaler.min_ (MinMaxScaler.fit col)) = Some sa /\
    Cell.add (Cell.mul (Some b)
                (MinMaxScaler.scale_ (MinMaxScaler.fit col)))
             (MinMaxScaler.min_ (MinMaxScaler.fit col)) = Some sb /\
    sa <= sb.
Proof.
  intros Ha Hab.
  destruct (scale_positive col a Ha) as (mn & sc & _ & -> & -> & Hsc).
  simpl. do 2 eexists. split; [reflexivity|]. split; [reflexivity|].
  assert (a * sc <= b * sc) by (apply Qmult_le_compat_r; lra). lra.
Qed.

End PointFacts.

(** Within one query the three scores follow their metrics: of two
    candidates the one with the higher ROI has no lower ROI score, the
    larger one no lower size score, and the one cheaper per square
    metre no lower price score. *)
Theorem scores_follow_metrics
  (self self' : Optimizer.InvestmentOptimizer)
  (budget_min budget_max : Q) (risk_tolerance : string)
  (rows : list Optimizer.Scored) (out : list string)
  (r1 r2 : Optimizer.Scored) :
  Optimizer.calculate_investment_score budget_min budget_max
    risk_tolerance self = (Ok (Some rows), self', out) ->
  In r1 rows -> In r2 rows ->
  (forall y1 y2,
      Optimizer.roi_anual_porcentaje r1 = Some y1 ->
      Optimizer.roi_anual_porcentaje r2 = Some y2 -> y1 <= y2 ->
      exists s1 s2, Optimizer.score_roi r1 = Some s1 /\
                    Optimizer.score_roi r2 = Some s2 /\ s1 <= s2) /\
  (forall m1 m2,
      metros_cuadrados (Optimizer.listing r1) = Some m1 ->
      metros_cuadrados (Optimizer.listing r2) = Some m2 -> m1 <= m2 ->
      exists s1 s2, Optimizer.score_tamano r1 = Some s1 /\
                    Optimizer.score_tamano r2 = Some s2 /\ s1 <= s2) /\
  (forall p1 p2,
      precio_por_m2 (Optimizer.listing r1) = Some p1 ->
      precio_por_m2 (Optimizer.listing r2) = Some p2 -> p1 <= p2 ->
      exists s1 s2, Optimizer.score_precio_m2 r1 = Some s1 /\
                    Optimizer.score_precio_m2 r2 = Some s2 /\ s2 <= s1).
Proof.
  intros Hcall H1 H2.
  apply MethodFacts.calculate_investment_score_rows in Hcall.
  rewrite Hcall in H1, H2.
  apply (proj1 (MethodFacts.sort_by_score_In _ _)) in H1.
  apply (proj1 (MethodFacts.sort_by_score_In _ _)) in H2.
  set (venta_props := Optimizer.budget_filter _ _ _) in *.
  set (roi := Optimizer.roi_df self) in *.
  split; [|split].
  - intros y1 y2 E1 E2 Hle.
    rewrite (PointFacts.score_roi_pointwise venta_props roi _ r1 H1).
    rewrite (PointFacts.score_roi_pointwise venta_props roi _ r2 H2).
    cbv zeta. rewrite E1, E2.
    apply PointFacts.transform_monotone; [|exact Hle].
    rewrite <- E1. now apply in_map.
  - intros m1 m2 E1 E2 Hle.
    rewrite (PointFacts.score_tamano_pointwise venta_props roi _ r1 H1).
    rewrite (PointFacts.score_tamano_pointwise venta_props roi _ r2 H2).
    cbv zeta. rewrite E1, E2.
    apply PointFacts.transform_monotone; [|exact Hle].
    rewrite <- E1.
    exact (in_map (fun r => metros_cuadrados (Optimizer.listing r))
                  _ r1 H1).
  - intros p1 p2 E1 E2 Hle.
    rewrite (PointFacts.score_precio_m2_pointwise venta_props roi _ r1 H1).
    rewrite (PointFacts.score_precio_m2_pointwise venta_props roi _ r2 H2).
    cbv zeta. rewrite E1, E2.
    destruct (PointFacts.transform_monotone
                (map (fun r => precio_por_m2 (Optimizer.listing r))
                     (Optimizer.scored_rows venta_props roi risk_tolerance))
                p1 p2) as (s1 & s2 & -> & -> & Hs); [|exact Hle|].
    + rewrite <- E1.
      exact (in_map (fun r => precio_por_m2 (Optimizer.listing r))
                    _ r1 H1).
    + simpl. do 2 eexists. split; [reflexivity|].
      split; [reflexivity|]. lra.
Qed.

Lemma scores_follow_metrics_witness :
  exists r1 r2,
    Examples.table_of
      (Optimizer.calculate_investment_score 50000 300000 "medium"
         Examples.centro_and_pocitos) = [r1; r2] /\
    (forall y1 y2,
        Optimizer.roi_anual_porcentaje r2 = Some y1 ->
        Optimizer.roi_anual_porcentaje r1 = Some y2 -> y1 <= y2 ->
        exists s1 s2, Optimizer.score_roi r2 = Some s1 /\
                      Optimizer.score_roi r1 = Some s2 /\ s1 <= s2).
Proof.
  set (o := Optimizer.calculate_investment_score 50000 300000 "medium"
              Examples.centro_and_pocitos).
  assert (Hcall : o = (Ok (Some (Examples.table_of o)), snd (fst o), snd o))
    by (vm_compute; reflexivity).
  assert (Hrows : exists r1 r2, Examples.table_of o = [r1; r2])
    by (vm_compute; do 2 eexists; reflexivity).
  destruct Hrows as (r1 & r2 & E). rewrite E in Hcall |- *.
  exists r1, r2. split; [reflexivity|].
  apply (scores_follow_metrics Examples.centro_and_pocitos _ 50000 300000
           "medium" [r1; r2] _ r2 r1 Hcall).
  - right. left. reflexivity.
  - left. reflexivity.
Defined.

(** The ROI of a scored row is the value that the ROI table has for
    the neighbourhood of its listing; when the table has no row for
    it, or a NaN, it is the median of the ROI column of the merge. *)
Theorem roi_is_joined_or_median
  (self self' : Optimizer.InvestmentOptimizer)
  (budget_min budget_max : Q) (risk_tolerance : string)
  (rows : list Optimizer.Scored) (out : list string)
  (r : Optimizer.Scored) :
  Optimizer.calculate_investment_score budget_min budget_max
    risk_tolerance self = (Ok (Some rows), self', out) ->
  In r rows ->
  let mediana :=
    Cell.median
      (map snd
         (Optimizer.merge_left
            (Optimizer.budget_filter budget_min budget_max
               (Optimizer.properties_df self))
            (Optimizer.roi_df self))) in
  (exists e,
      In e (Optimizer.roi_df self) /\
      Optimizer.r_barrio e = barrio (Optimizer.listing r) /\
      Optimizer.roi_anual_porcentaje r
      = Cell.fillna mediana (Optimizer.r_roi_anual_porcentaje e)) \/
  ((forall e, In e (Optimizer.roi_df self) ->
              Optimizer.r_barrio e <> barrio (Optimizer.listing r)) /\
   Optimizer.roi_anual_porcentaje r = mediana).
Proof.
  intros Hcall Hr mediana.
  apply MethodFacts.calculate_investment_score_rows in Hcall.
  rewrite Hcall in Hr.
  apply (proj1 (MethodFacts.sort_by_score_In _ _)) in Hr.
  apply PointFacts.listing_with_roi in Hr.
  unfold Optimizer.with_roi in Hr. fold mediana in Hr.
  apply in_map_iff in Hr as ([l y0] & Hpair & Hm). simpl in Hpair.
  injection Hpair as Hl Hy.
  unfold Optimizer.merge_left in Hm.
  apply in_flat_map in Hm as (c & _ & Hm).
  destruct (filter _ (Optimizer.roi_df self)) as [|e0 ms] eqn:F.
  - right. destruct Hm as [Hm|[]]. injection Hm as Hc Hy0.
    subst c y0. split; [|now rewrite <- Hy].
    intros e He Hk.
    assert (Hin : In e (filter (fun e => Optimizer.same_key (barrio l)
                                           (Optimizer.r_barrio e))
                               (Optimizer.roi_df self))).
    { apply filter_In. split; [exact He|].
      apply JoinFacts.same_key_eq. now rewrite Hk, <- Hl. }
    rewrite F in Hin. exact Hin.
  - left. apply in_map_iff in Hm as (e & Hm & He).
    injection Hm as Hc Hy0. subst c y0.
    rewrite <- F in He. apply filter_In in He as [He Hk].
    apply JoinFacts.same_key_eq in Hk.
    exists e. split; [exact He|]. split; [now rewrite <- Hl, Hk|].
    now rewrite <- Hy.
Qed.

Lemma roi_is_joined_or_median_witness :
  exists r,
    Examples.table_of
      (Optimizer.calculate_investment_score 50000 300000 "medium"
         Examples.one_listing) = [r] /\
    ((exists e,
         In e Examples.roi_table /\
         Optimizer.r_barrio e = barrio (Optimizer.listing r) /\
         Optimizer.roi_anual_porcentaje r
         = Cell.fillna (Some 14.4) (Optimizer.r_roi_anual_porcentaje e)) \/
     ((forall e, In e Examples.roi_table ->
                 Optimizer.r_barrio e <> barrio (Optimizer.listing r)) /\
      Optimizer.roi_anual_porcentaje r = Some 14.4)).
Proof.
  set (o := Optimizer.calculate_investment_score 50000 300000 "medium"
              Examples.one_listing).
  assert (Hcall : o = (Ok (Some (Examples.table_of o)), snd (fst o), snd o))
    by (vm_compute; reflexivity).
  assert (Hrows : exists r, Examples.table_of o = [r])
    by (vm_compute; eexists; reflexivity).
  destruct Hrows as (r & E). rewrite E in Hcall |- *.
  exists r. split; [reflexivity|].
  apply (roi_is_joined_or_median Examples.one_listing _ 50000 300000
           "medium" [r] _ r Hcall).
  left. reflexivity.
Defined.

(** When one candidate of the query has an ROI, the median fill leaves
    no candidate without: every row of the table has an ROI that is a
    number and an ROI score that is a number. *)
Theorem median_fill_is_complete
  (self self' : Optimizer.InvestmentOptimizer)
  (budget_min budget_max : Q) (risk_tolerance : string)
  (rows : list Optimizer.Scored) (out : list string)
  (r0 r : Optimizer.Scored) :
  Optimizer.calculate_investment_score budget_min budget_max
    risk_tolerance self = (Ok (Some rows), self', out) ->
  In r0 rows -> Optimizer.roi_anual_porcentaje r0 <> None ->
  In r rows ->
  exists y s,
    Optimizer.roi_anual_porcentaje r = Some y /\
    Optimizer.score_roi r = Some s.
Proof.
  intros Hcall H0 Hsome Hr.
  apply MethodFacts.calculate_investment_score_rows in Hcall.
  rewrite Hcall in H0, Hr.
  apply (proj1 (MethodFacts.sort_by_score_In _ _)) in H0.
  apply (proj1 (MethodFacts.sort_by_score_In _ _)) in Hr.
  set (venta_props := Optimizer.budget_filter _ _ _) in *.
  set (roi := Optimizer.roi_df self) in *.
  set (sc := Optimizer.scored_rows venta_props roi risk_tolerance) in *.
  set (col := map snd (Optimizer.merge_left venta_props roi)).
  assert (Hcol : map Optimizer.roi_anual_porcentaje sc
                 = map (Cell.fillna (Cell.median col)) col)
    by apply JoinFacts.roi_column.
  assert (Hmed : exists m, Cell.median col = Some m).
  { destruct (Cell.median col) as [m|] eqn:Em; [eauto|].
    exfalso. apply Hsome.
    assert (Hin : In (Optimizer.roi_anual_porcentaje r0)
                     (map (Cell.fillna None) col))
      by (rewrite <- Hcol; now apply in_map).
    apply in_map_iff in Hin as (x & <- & Hx).
    rewrite (JoinFacts.values_nil col (JoinFacts.median_none col Em) x Hx).
    reflexivity. }
  destruct Hmed as (m & Em).
  assert (Hy : exists y, Optimizer.roi_anual_porcentaje r = Some y).
  { assert (Hin : In (Optimizer.roi_anual_porcentaje r)
                     (map (Cell.fillna (Cell.median col)) col))
      by (rewrite <- Hcol; now apply in_map).
    apply in_map_iff in Hin as (x & <- & _). rewrite Em.
    destruct x; simpl; eauto. }
  destruct Hy as (y & Ey).
  assert (Hs : exists s, Optimizer.score_roi r = Some s).
  { rewrite (PointFacts.score_roi_pointwise venta_props roi _ r Hr).
    cbv zeta. fold sc. rewrite Ey.
    destruct (PointFacts.scale_positive
                (map Optimizer.roi_anual_porcentaje sc) y)
      as (mn & k & _ & -> & -> & _).
    - rewrite <- Ey. now apply in_map.
    - simpl. eauto. }
  destruct Hs as (s & Es).
  exists y, s. split; [exact Ey | exact Es].
Qed.

Lemma median_fill_is_complete_witness :
  exists r1 r2,
    Examples.table_of
      (Optimizer.calculate_investment_score 50000 300000 "medium"
         (Examples.loaded
            [Examples.venta 100000 50 "Cordon";
             Examples.venta 200000 80 "Pocitos"]
            Examples.roi_table)) = [r1; r2] /\
    Optimizer.roi_anual_porcentaje r2 <> None /\
    exists y s,
      Optimizer.roi_anual_porcentaje r1 = Some y /\
      Optimizer.score_roi r1 = Some s.
Proof.
  set (self := Examples.loaded
                 [Examples.venta 100000 50 "Cordon";
                  Examples.venta 200000 80 "Pocitos"]
                 Examples.roi_table).
  set (o := Optimizer.calculate_investment_score 50000 300000 "medium"
              self).
  assert (Hcall : o = (Ok (Some (Examples.table_of o)), snd (fst o), snd o))
    by (vm_compute; reflexivity).
  assert (Hrows : exists r1 r2,
             Examples.table_of o = [r1; r2] /\
             Optimizer.roi_anual_porcentaje r2 <> None).
  { vm_compute. do 2 eexists. split; [reflexivity | discriminate]. }
  destruct Hrows as (r1 & r2 & E & H2). rewrite E in Hcall |- *.
  exists r1, r2. split; [reflexivity|]. split; [exact H2|].
  apply (median_fill_is_complete self _ 50000 300000 "medium" [r1; r2] _
           r2 r1 Hcall).
  - right. left. reflexivity.
  - exact H2.
  - left. reflexivity.
Defined.

(* ================================================================= *)
(** ** The object across calls *)

(** A scoring with candidates stores the table it returns and prints
    nothing; a scoring without candidates changes nothing, so
    [get_top_opportunities] still serves the table of the earlier
    query. *)
Theorem empty_query_keeps_earlier_scores
  (self self1 : Optimizer.InvestmentOptimizer)
  (min1 max1 min2 max2 : Q) (risk1 risk2 : string)
  (rows : list Optimizer.Scored) (out : list string) (n : nat) :
  Optimizer.calculate_investment_score min1 max1 risk1 self
  = (Ok (Some rows), self1, out) ->
  Optimizer.budget_filter min2 max2 (Optimizer.properties_df self) = [] ->
  Optimizer.investment_scores self1 = Some rows /\
  Optimizer.properties_df self1 = Optimizer.properties_df self /\
  Optimizer.roi_df self1 = Optimizer.roi_df self /\
  out = [] /\
  Optimizer.calculate_investment_score min2 max2 risk2 self1
  = (Ok None, self1, [Optimizer.no_properties_message]) /\
  Optimizer.get_top_opportunities n self1
  = (Ok (Some (map Optimizer.top_columns (firstn n rows))), self1, []).
Proof.
  intros Hcall Hempty.
  rewrite MethodFacts.calculate_investment_score_eq in Hcall.
  destruct (Optimizer.budget_filter min1 max1 _) as [|c v];
    [discriminate Hcall|].
  cbv zeta in Hcall. injection Hcall as Hrows Hself Hout.
  subst self1. simpl.
  split; [now rewrite Hrows|]. split; [reflexivity|].
  split; [reflexivity|]. split; [now rewrite Hout|]. split.
  - rewrite MethodFacts.calculate_investment_score_eq. simpl.
    rewrite Hempty. reflexivity.
  - unfold Optimizer.get_top_opportunities, Optimizer.bind, Optimizer.get.
    simpl. rewrite Hrows. reflexivity.
Qed.

Lemma empty_query_keeps_earlier_scores_witness :
  let o := Optimizer.calculate_investment_score 50000 300000 "medium"
             Examples.centro_and_pocitos in
  Optimizer.budget_filter 400000 500000
    (Optimizer.properties_df Examples.centro_and_pocitos) = [] /\
  Optimizer.calculate_investment_score 400000 500000 "low" (snd (fst o))
  = (Ok None, snd (fst o), [Optimizer.no_properties_message]) /\
  Optimizer.get_top_opportunities 1 (snd (fst o))
  = (Ok (Some (map Optimizer.top_columns
                   (firstn 1 (Examples.table_of o)))),
     snd (fst o), []).
Proof.
  intros o.
  assert (Hcall : o = (Ok (Some (Examples.table_of o)), snd (fst o), snd o))
    by (vm_compute; reflexivity).
  assert (Hempty : Optimizer.budget_filter 400000 500000
             (Optimizer.properties_df Examples.centro_and_pocitos) = [])
    by (vm_compute; reflexivity).
  split; [exact Hempty|].
  destruct (empty_query_keeps_earlier_scores Examples.centro_and_pocitos
              (snd (fst o)) 50000 300000 400000 500000 "medium" "low"
              (Examples.table_of o) (snd o) 1%nat Hcall Hempty)
    as (_ & _ & _ & _ & H1 & H2).
  split; [exact H1 | exact H2].
Defined.

(* ================================================================= *)
(** ** The recommendation *)

Module ReportFacts.

Import Optimizer.

Lemma merge_left_nonempty (left : DataFrame) (right : list RoiEntry) :
  left <> [] -> merge_left left right <> [].
Proof.
  destruct left as [|r left]; [congruence|]. intros _.
  unfold merge_left. cbn [flat_map].
  destruct (filter _ right); discriminate.
Qed.

Lemma scored_rows_length (venta_props : DataFrame)
  (roi : list RoiEntry) (risk_tolerance : string) :
  List.length (scored_rows venta_props roi risk_tolerance)
  = List.length (merge_left venta_props roi).
Proof.
  destruct (ScoreFacts.scored_columns venta_props roi risk_tolerance)
    as (E & _).
  rewrite <- (length_map listing), E. unfold with_roi.
  now rewrite !length_map.
Qed.

Lemma sorted_scores_nonempty (venta_props : DataFrame)
  (roi : list RoiEntry) (risk_tolerance : string) :
  venta_props <> [] ->
  sort_by_score (scored_rows venta_props roi risk_tolerance) <> [].
Proof.
  intros Hne E.
  pose proof (PandasFacts.sort_values_desc_perm score_isna score_geb
                (scored_rows venta_props roi risk_tolerance)) as P.
  apply Permutation_length in P. fold (sort_by_score
    (scored_rows venta_props roi risk_tolerance)) in P.
  rewrite E, scored_rows_length in P.
  apply (merge_left_nonempty venta_props roi Hne).
  now apply length_zero_iff_nil.
Qed.

(** Rounding to the nearest integer, in terms of the floor. *)
Lemma round_half_even_cases (q : Q) :
  let n := Qfloor q in
  let frac := q - inject_Z n in
  (Cell.round_half_even q = n /\
   (frac < 1 # 2 \/ (frac == 1 # 2 /\ Z.even n = true))) \/
  (Cell.round_half_even q = (n + 1)%Z /\
   (1 # 2 < frac \/ (frac == 1 # 2 /\ Z.even n = false))).
Proof.
  intros n frac. unfold Cell.round_half_even. fold n. fold frac.
  unfold Cell.Qltb.
  destruct (Qle_bool (1 # 2) frac) eqn:E1; simpl.
  - apply Qle_bool_iff in E1.
    destruct (Qle_bool frac (1 # 2)) eqn:E2; simpl.
    + apply Qle_bool_iff in E2.
      assert (frac == 1 # 2) by lra.
      destruct (Z.even n); [left | right]; auto.
    + right. split; [reflexivity|]. left.
      destruct (Qlt_le_dec (1 # 2) frac) as [H|H]; [exact H|].
      apply Qle_bool_iff in H. congruence.
  - left. split; [reflexivity|]. left.
    destruct (Qlt_le_dec frac (1 # 2)) as [H|H]; [exact H|].
    apply Qle_bool_iff in H. congruence.
Qed.

Lemma round_half_even_monotone (a b : Q) :
  a <= b -> (Cell.round_half_even a <= Cell.round_half_even b)%Z.
Proof.
  intros Hab.
  pose proof (Qfloor_resp_le a b Hab) as Hfl.
  destruct (round_half_even_cases a) as [[Ea Ha]|[Ea Ha]];
    destruct (round_half_even_cases b) as [[Eb Hb]|[Eb Hb]];
    rewrite Ea, Eb; try lia.
  destruct (Z.eq_dec (Qfloor a) (Qfloor b)) as [Heq|Hne]; [|lia].
  exfalso. rewrite <- Heq in Hb.
  destruct Ha as [Ha|[Ha Pa]], Hb as [Hb|[Hb Pb]];
    try lra; congruence.
Qed.

Lemma round2_monotone (a b : Q) :
  a <= b ->
  match Cell.round2 (Some a), Cell.round2 (Some b) with
  | Some x, Some y => x <= y
  | _, _ => False
  end.
Proof.
  intros Hab. unfold Cell.round2.
  assert (H : (Cell.round_half_even (a * 100)
               <= Cell.round_half_even (b * 100))%Z).
  { apply round_half_even_monotone. lra. }
  rewrite Zle_Qle in H.
  unfold Qdiv. apply Qmult_le_compat_r; [exact H | discriminate].
Qed.

Lemma top_columns_order (r1 r2 : Scored) :
  score_order r1 r2 -> Orders.top_order (top_columns r1) (top_columns r2).
Proof.
  unfold score_order, Orders.top_order, top_columns; simpl.
  destruct (investment_score r1) as [a|], (investment_score r2) as [b|];
    try tauto.
  intros H. exact (round2_monotone b a H).
Qed.

Lemma sorted_firstn {A} (R : A -> A -> Prop) (l : list A) :
  StronglySorted R l -> forall n, StronglySorted R (firstn n l).
Proof.
  induction 1 as [|x l Hs IH Hx]; intros [|n]; simpl; try constructor.
  - apply IH.
  - apply Forall_forall. intros y Hy.
    rewrite Forall_forall in Hx. apply Hx.
    rewrite <- (firstn_skipn n l). apply in_or_app. now left.
Qed.

Lemma sorted_map {A B} (R : A -> A -> Prop) (R' : B -> B -> Prop)
  (f : A -> B) (l : list A) :
  (forall x y, R x y -> R' (f x) (f y)) ->
  StronglySorted R l -> StronglySorted R' (map f l).
Proof.
  intros Hf. induction 1 as [|x l Hs IH Hx]; simpl; constructor.
  - exact IH.
  - apply Forall_forall. intros y Hy.
    apply in_map_iff in Hy as (z & <- & Hz).
    rewrite Forall_forall in Hx. auto.
Qed.

End ReportFacts.

(** What [get_investment_recommendation] returns, when it returns.  It
    gives [None] only for a query without candidates, with the
    no-properties line and the object as it was.  Otherwise the scorer
    returned a table: the top list is its first ten rows, at least
    one, the rollup is that of [analyze_by_neighborhood], and the best
    opportunity is the first row of the top list. *)
Theorem recommendation_contents
  (self self' : Optimizer.InvestmentOptimizer)
  (budget_min budget_max : Q) (risk_tolerance : string)
  (location_preference : option string)
  (res : option Optimizer.Recommendation) (out : list string) :
  Optimizer.get_investment_recommendation budget_min budget_max
    risk_tolerance location_preference self = (Ok res, self', out) ->
  (res = None /\
   Optimizer.budget_filter budget_min budget_max
     (Optimizer.properties_df self) = [] /\
   self' = self /\ out = [Optimizer.no_properties_message]) \/
  (exists rows rec,
      res = Some rec /\ out = [] /\
      Optimizer.calculate_investment_score budget_min budget_max
        risk_tolerance self = (Ok (Some rows), self', []) /\
      Optimizer.top_opportunities rec
      = map Optimizer.top_columns (firstn 10 rows) /\
      Optimizer.analyze_by_neighborhood self'
      = (Ok (Some (Optimizer.neighborhood_analysis rec)), self', []) /\
      hd_error (Optimizer.top_opportunities rec)
      = Some (Optimizer.best_opportunity rec) /\
      (1 <= List.length (Optimizer.top_opportunities rec) <= 10)%nat).
Proof.
  unfold Optimizer.get_investment_recommendation, Optimizer.bind.
  rewrite MethodFacts.calculate_investment_score_eq.
  destruct (Optimizer.budget_filter budget_min budget_max
              (Optimizer.properties_df self)) as [|c v] eqn:F.
  - intros H. injection H as <- <- <-. left. repeat split.
  - cbv zeta.
    pose proof (ReportFacts.sorted_scores_nonempty (c :: v)
                  (Optimizer.roi_df self) risk_tolerance) as Hne.
    destruct (Optimizer.sort_by_score _) as [|r0 rest] eqn:E;
      [exfalso; apply Hne; [discriminate | reflexivity]|].
    intros H. injection H as <- <- <-. right.
    do 2 eexists. split; [reflexivity|]. split; [reflexivity|].
    split; [reflexivity|]. split; [reflexivity|].
    split; [reflexivity|]. split; [reflexivity|].
    assert (L : (List.length (map Optimizer.top_columns (firstn 9 rest))
                 <= 9)%nat)
      by (rewrite length_map, length_firstn; lia).
    change (1 <= S (List.length
                      (map Optimizer.top_columns (firstn 9 rest))) <= 10)%nat.
    lia.
Qed.

Lemma recommendation_contents_witness :
  exists rec self' out,
    Optimizer.get_investment_recommendation 50000 300000 "medium"
      (Some "Pocitos"%string) Examples.centro_and_pocitos
    = (Ok (Some rec), self', out) /\
    out = [] /\
    hd_error (Optimizer.top_opportunities rec)
    = Some (Optimizer.best_opportunity rec) /\
    (1 <= List.length (Optimizer.top_opportunities rec) <= 10)%nat.
Proof.
  assert (Hcall : exists rec self' out,
             Optimizer.get_investment_recommendation 50000 300000 "medium"
               (Some "Pocitos"%string) Examples.centro_and_pocitos
             = (Ok (Some rec), self', out))
    by (vm_compute; do 3 eexists; reflexivity).
  destruct Hcall as (rec & self' & out & Hcall).
  exists rec, self', out. split; [exact Hcall|].
  destruct (recommendation_contents Examples.centro_and_pocitos self'
              50000 300000 "medium" (Some "Pocitos"%string) (Some rec) out
              Hcall)
    as [(Hnone & _)|(rows & rec' & Hrec & Hout & _ & _ & _ & Hhd & Hlen)];
    [discriminate Hnone|].
  injection Hrec as <-. auto.
Defined.

(** The list of [get_top_opportunities] is in descending order of the
    rounded investment score, rows without a score last, and has [n]
    rows or, when the scored table is shorter, all of them. *)
Theorem top_opportunities_sorted
  (self self' : Optimizer.InvestmentOptimizer)
  (budget_min budget_max : Q) (risk_tolerance : string)
  (rows : list Optimizer.Scored) (out : list string) (n : nat) :
  Optimizer.calculate_investment_score budget_min budget_max
    risk_tolerance self = (Ok (Some rows), self', out) ->
  exists top,
    Optimizer.get_top_opportunities n self' = (Ok (Some top), self', []) /\
    StronglySorted Orders.top_order top /\
    List.length top = Nat.min n (List.length rows).
Proof.
  intros Hcall.
  assert (Hsorted : StronglySorted Optimizer.score_order rows).
  { rewrite (MethodFacts.calculate_investment_score_rows _ _ _ _ _ _ _
               Hcall).
    apply MethodFacts.sort_by_score_sorted. }
  rewrite MethodFacts.calculate_investment_score_eq in Hcall.
  destruct (Optimizer.budget_filter _ _ _) as [|c v];
    [discriminate Hcall|].
  cbv zeta in Hcall. injection Hcall as Hrows Hself Hout. subst self'.
  exists (map Optimizer.top_columns (firstn n rows)). split.
  - unfold Optimizer.get_top_opportunities, Optimizer.bind, Optimizer.get.
    simpl. rewrite Hrows. reflexivity.
  - split.
    + apply (ReportFacts.sorted_map Optimizer.score_order);
        [exact ReportFacts.top_columns_order|].
      now apply ReportFacts.sorted_firstn.
    + rewrite length_map. apply length_firstn.
Qed.

Lemma top_opportunities_sorted_witness :
  let o := Optimizer.calculate_investment_score 50000 300000 "medium"
             Examples.centro_and_pocitos in
  exists top,
    Optimizer.get_top_opportunities 1 (snd (fst o))
    = (Ok (Some top), snd (fst o), []) /\
    StronglySorted Orders.top_order top /\
    List.length top = Nat.min 1 (List.length (Examples.table_of o)).
Proof.
  intros o.
  apply (top_opportunities_sorted Examples.centro_and_pocitos
           (snd (fst o)) 50000 300000 "medium" (Examples.table_of o)
           (snd o) 1%nat).
  vm_compute. reflexivity.
Defined.

(* ================================================================= *)
(** ** Group keys and the rollup by neighbourhood *)

Module KeyFacts.

Import Pandas.

Lemma insert_key_perm (k : string) (l : list string) :
  Permutation (k :: l) (insert_key k l).
Proof.
  induction l as [|y r IH]; simpl; [reflexivity|].
  destruct (String.leb k y); [reflexivity|].
  rewrite perm_swap. now apply perm_skip.
Qed.

Lemma sort_keys_perm (l : list string) : Permutation l (sort_keys l).
Proof.
  induction l as [|k r IH]; simpl; [reflexivity|].
  rewrite <- insert_key_perm. now apply perm_skip.
Qed.

Lemma group_keys_NoDup (col : list (option string)) :
  NoDup (group_keys col).
Proof.
  unfold group_keys.
  apply (Permutation_NoDup (sort_keys_perm _)). apply NoDup_nodup.
Qed.

Lemma values_length {A} (f : A -> option Q) (l : list A) :
  List.length (Cell.values (map f l))
  = List.length (filter (fun x => Cell.notna (f x)) l).
Proof.
  induction l as [|x r IH]; simpl; [reflexivity|].
  destruct (f x); simpl; now rewrite IH.
Qed.

Lemma promedio_order_trans (x y z : Optimizer.NeighborhoodRow) :
  Orders.promedio_order x y -> Orders.promedio_order y z ->
  Orders.promedio_order x z.
Proof.
  unfold Orders.promedio_order.
  destruct (Optimizer.score_promedio x), (Optimizer.score_promedio y),
    (Optimizer.score_promedio z); try tauto.
  intros. lra.
Qed.

Lemma promedio_sorted (l : list Optimizer.NeighborhoodRow) :
  StronglySorted Orders.promedio_order
    (sort_values_desc
       (fun r => negb (Cell.notna (Optimizer.score_promedio r)))
       Optimizer.promedio_geb l).
Proof.
  apply PandasFacts.sort_values_desc_sorted.
  - exact promedio_order_trans.
  - unfold Optimizer.promedio_geb, Orders.promedio_order. intros x y.
    destruct (Optimizer.score_promedio x), (Optimizer.score_promedio y);
      try discriminate.
    intros _ _ H. now apply Qle_bool_iff.
  - unfold Optimizer.promedio_geb, Orders.promedio_order. intros x y.
    destruct (Optimizer.score_promedio x), (Optimizer.score_promedio y);
      try discriminate.
    intros _ _ H.
    destruct (Qlt_le_dec q q0) as [Hlt|Hle]; [lra|].
    apply Qle_bool_iff in Hle. congruence.
  - unfold Orders.promedio_order. intros x y.
    destruct (Optimizer.score_promedio y); [discriminate|].
    now destruct (Optimizer.score_promedio x).
Qed.

End KeyFacts.

(** Once a table is scored, [analyze_by_neighborhood] returns one row
    for each neighbourhood of the table and for no other name, by
    descending mean score; the count of a row is the number of
    listings of the neighbourhood that have a score. *)
Theorem neighborhood_rollup
  (self : Optimizer.InvestmentOptimizer) (rows : list Optimizer.Scored) :
  Optimizer.investment_scores self = Some rows ->
  exists analysis,
    Optimizer.analyze_by_neighborhood self
    = (Ok (Some analysis), self, []) /\
    NoDup (map Optimizer.n_barrio analysis) /\
    (forall b, In b (map Optimizer.n_barrio analysis) <->
               exists r, In r rows /\
                         barrio (Optimizer.listing r) = Some b) /\
    StronglySorted Orders.promedio_order analysis /\
    (forall x, In x analysis ->
       Optimizer.cantidad_propiedades x
       = List.length
           (filter (fun r => Cell.notna (Optimizer.investment_score r))
              (filter (fun r => Pandas.key_is (Optimizer.n_barrio x)
                                  (barrio (Optimizer.listing r)))
                      rows))).
Proof.
  intros Hscores.
  unfold Optimizer.analyze_by_neighborhood, Optimizer.bind, Optimizer.get.
  simpl. rewrite Hscores. simpl.
  set (keys := Pandas.group_keys
                 (map (fun r => barrio (Optimizer.listing r)) rows)).
  set (table := map (fun k => Optimizer.aggregate k rows) keys).
  set (sorted := Pandas.sort_values_desc _ _ table).
  assert (P : Permutation table sorted)
    by apply PandasFacts.sort_values_desc_perm.
  assert (Hnames : map Optimizer.n_barrio table = keys).
  { unfold table. rewrite map_map. simpl. apply map_id. }
  exists sorted. split; [reflexivity|]. split; [|split; [|split]].
  - apply (Permutation_NoDup (Permutation_map _ P)).
    rewrite Hnames. apply KeyFacts.group_keys_NoDup.
  - intros b.
    assert (E : In b (map Optimizer.n_barrio sorted) <-> In b keys).
    { rewrite <- Hnames.
      split; apply Permutation_in; apply Permutation_map;
        [symmetry|]; exact P. }
    rewrite E. unfold keys. rewrite PandasFacts.group_keys_In.
    rewrite in_map_iff. split; intros (r & H1 & H2); eauto.
  - apply KeyFacts.promedio_sorted.
  - intros x Hx.
    apply (Permutation_in _ (Permutation_sym P)) in Hx.
    unfold table in Hx. apply in_map_iff in Hx as (k & <- & _).
    unfold Optimizer.aggregate. simpl. unfold Cell.count.
    apply KeyFacts.values_length.
Qed.

Lemma neighborhood_rollup_witness :
  exists analysis,
    Optimizer.analyze_by_neighborhood Samples.scored_once
    = (Ok (Some analysis), Samples.scored_once, []) /\
    NoDup (map Optimizer.n_barrio analysis) /\
    StronglySorted Orders.promedio_order analysis.
Proof.
  destruct (neighborhood_rollup Samples.scored_once
              (Examples.table_of
                 (Optimizer.calculate_investment_score 50000 300000
                    "medium" Examples.centro_and_pocitos)))
    as (analysis & H1 & H2 & _ & H3 & _).
  - vm_compute. reflexivity.
  - exists analysis. auto.
Defined.

(* ================================================================= *)
(** ** The derived columns of the cleaned table *)

Module DeriveFacts.

Import DataProcessor.

Lemma strip_normal (s : string) :
  Str.strip_ascii (Str.title_ascii (Str.strip_ascii s))
  = Str.title_ascii (Str.strip_ascii s).
Proof.
  unfold Str.title_ascii, Str.strip_ascii.
  rewrite !list_ascii_of_string_of_list_ascii.
  rewrite StrFacts.strip_title_chars, StrFacts.strip_chars_idem.
  reflexivity.
Qed.

Lemma title_normal (s : string) :
  Str.title_ascii (Str.title_ascii (Str.strip_ascii s))
  = Str.title_ascii (Str.strip_ascii s).
Proof.
  unfold Str.title_ascii, Str.strip_ascii.
  rewrite !list_ascii_of_string_of_list_ascii.
  rewrite StrFacts.title_chars_idem. reflexivity.
Qed.

Lemma Qltb_true (x y : Q) : Cell.Qltb x y = true <-> x < y.
Proof.
  unfold Cell.Qltb. rewrite negb_true_iff. split.
  - intros H. destruct (Qlt_le_dec x y) as [Hlt|Hle]; [exact Hlt|].
    apply Qle_bool_iff in Hle. congruence.
  - intros H. destruct (Qle_bool y x) eqn:E; [|reflexivity].
    apply Qle_bool_iff in E. lra.
Qed.

Lemma Qltb_false (x y : Q) : Cell.Qltb x y = false <-> y <= x.
Proof.
  unfold Cell.Qltb. rewrite negb_false_iff. apply Qle_bool_iff.
Qed.

Lemma Qle_bool_false (x y : Q) : Qle_bool x y = false <-> y < x.
Proof.
  rewrite <- Qltb_true. unfold Cell.Qltb.
  destruct (Qle_bool x y); simpl; split; congruence.
Qed.

(** The label of a positive number under four right-closed bins with
    breakpoints [b1 < b2 < b3]. *)
Lemma cut_four (b1 b2 b3 : Q) (l1 l2 l3 l4 : string) (x : Q) :
  0 < x -> 0 < b1 -> b1 < b2 -> b2 < b3 ->
  let label :=
    cut (At 0) [(At b1, l1); (At b2, l2); (At b3, l3); (PosInf, l4)]
        (Some x) in
  (x <= b1 -> label = Some l1) /\
  (b1 < x -> x <= b2 -> label = Some l2) /\
  (b2 < x -> x <= b3 -> label = Some l3) /\
  (b3 < x -> label = Some l4).
Proof.
  intros Hx H1 H2 H3. simpl. unfold lt_edge, le_edge.
  apply Qltb_true in Hx. rewrite Hx. simpl.
  destruct (Qle_bool x b1) eqn:E1.
  { apply Qle_bool_iff in E1. repeat split; intros; try reflexivity; lra. }
  apply Qle_bool_false in E1.
  rewrite (proj2 (Qltb_true b1 x) E1). simpl.
  destruct (Qle_bool x b2) eqn:E2.
  { apply Qle_bool_iff in E2. repeat split; intros; try reflexivity; lra. }
  apply Qle_bool_false in E2.
  rewrite (proj2 (Qltb_true b2 x) E2). simpl.
  destruct (Qle_bool x b3) eqn:E3.
  { apply Qle_bool_iff in E3. repeat split; intros; try reflexivity; lra. }
  apply Qle_bool_false in E3.
  rewrite (proj2 (Qltb_true b3 x) E3). simpl.
  repeat split; intros; try reflexivity; lra.
Qed.

End DeriveFacts.

(** In every row of the cleaned table the area is positive and the
    price per square metre is the price divided by the area, whatever
    the raw row held in that column.  When the names of the raw table
    are ASCII text, the name of the row is ASCII and in normal form:
    stripping it or title-casing it again changes nothing. *)
Theorem cleaned_row_is_normalised (raw : DataFrame) (r : Row) :
  In r (DataProcessor.clean_data raw) ->
  exists p m b,
    precio r = Some p /\ metros_cuadrados r = Some m /\ 0 < m /\
    precio_por_m2 r = Some (p / m) /\
    barrio r = Some b /\
    (DataProcessor.ascii_names raw ->
     Str.is_ascii b = true /\ Str.strip b = b /\ Str.title b = b).
Proof.
  intros H.
  apply CleanFacts.clean_data_rows in H as (r0 & Hin & Hc & Hr & ->).
  destruct (CleanFacts.in_range_bounds r0 Hr)
    as (p & m & Ep & Em & _ & _ & Hm & _).
  unfold DataProcessor.complete in Hc.
  destruct (barrio r0) as [b0|] eqn:Eb;
    [|rewrite andb_false_r in Hc; discriminate Hc].
  exists p, m, (Str.title (Str.strip b0)).
  unfold DataProcessor.derive; simpl. rewrite Ep, Em, Eb. simpl.
  unfold Settings.MIN_M2 in Hm.
  split; [reflexivity|]. split; [reflexivity|]. split; [lra|].
  split; [reflexivity|]. split; [reflexivity|].
  intros Hascii.
  destruct (UnicodeFacts.normalise_agrees b0 (Hascii r0 b0 Hin Eb))
    as [E Ha].
  rewrite E. split; [exact Ha|].
  destruct (UnicodeFacts.strip_agrees _ Ha) as [-> _].
  destruct (UnicodeFacts.title_agrees _ Ha) as [-> _].
  split; [apply DeriveFacts.strip_normal | apply DeriveFacts.title_normal].
Qed.

Lemma cleaned_row_is_normalised_witness :
  let r := DataProcessor.derive
             (Examples.venta 100000 50 "  poCitos  nuevo ") in
  In r (DataProcessor.clean_data Examples.raw_table) /\
  DataProcessor.ascii_names Examples.raw_table /\
  exists p m b,
    precio r = Some p /\ metros_cuadrados r = Some m /\ 0 < m /\
    precio_por_m2 r = Some (p / m) /\
    barrio r = Some b /\
    Str.is_ascii b = true /\ Str.strip b = b /\ Str.title b = b.
Proof.
  intros r.
  assert (H : In r (DataProcessor.clean_data Examples.raw_table))
    by (left; reflexivity).
  assert (Ha : DataProcessor.ascii_names Examples.raw_table).
  { intros r' s [<-|[<-|[<-|[]]]] Hs; injection Hs as <-; reflexivity. }
  split; [exact H|]. split; [exact Ha|].
  destruct (cleaned_row_is_normalised Examples.raw_table r H)
    as (p & m & b & Hp & Hm & Hpos & Hq & Hb & Hn).
  exists p, m, b. auto 10.
Defined.

(** Every row of the cleaned table has a price category and a size
    category, never NaN: up to 100000 Económica, up to 200000 Media,
    up to 300000 Alta, above Premium; up to 50 Pequeña, up to 80
    Mediana, up to 120 Grande, above Extra Grande.  A value on a
    breakpoint falls in the lower category. *)
Theorem cleaned_row_categories (raw : DataFrame) (r : Row) :
  In r (DataProcessor.clean_data raw) ->
  exists p m,
    precio r = Some p /\ metros_cuadrados r = Some m /\
    (p <= 100000 -> categoria_precio r = Some "Económica"%string) /\
    (100000 < p -> p <= 200000 ->
     categoria_precio r = Some "Media"%string) /\
    (200000 < p -> p <= 300000 ->
     categoria_precio r = Some "Alta"%string) /\
    (300000 < p -> categoria_precio r = Some "Premium"%string) /\
    (m <= 50 -> categoria_tamano r = Some "Pequeña"%string) /\
    (50 < m -> m <= 80 -> categoria_tamano r = Some "Mediana"%string) /\
    (80 < m -> m <= 120 -> categoria_tamano r = Some "Grande"%string) /\
    (120 < m -> categoria_tamano r = Some "Extra Grande"%string).
Proof.
  intros H.
  apply CleanFacts.clean_data_rows in H as (r0 & _ & _ & Hr & ->).
  destruct (CleanFacts.in_range_bounds r0 Hr)
    as (p & m & Ep & Em & Hp & _ & Hm & _).
  unfold Settings.MIN_PRICE in Hp. unfold Settings.MIN_M2 in Hm.
  exists p, m. unfold DataProcessor.derive; simpl. rewrite Ep, Em.
  split; [reflexivity|]. split; [reflexivity|].
  destruct (DeriveFacts.cut_four 100000 200000 300000
              "Económica" "Media" "Alta" "Premium" p)
    as (P1 & P2 & P3 & P4); try reflexivity; [lra|].
  destruct (DeriveFacts.cut_four 50 80 120
              "Pequeña" "Mediana" "Grande" "Extra Grande" m)
    as (M1 & M2 & M3 & M4); try reflexivity; [lra|].
  unfold DataProcessor.precio_bins, DataProcessor.tamano_bins.
  auto 10.
Qed.

Lemma cleaned_row_categories_witness :
  let r := DataProcessor.derive
             (Examples.venta 100000 50 "  poCitos  nuevo ") in
  In r (DataProcessor.clean_data Examples.raw_table) /\
  categoria_precio r = Some "Económica"%string /\
  categoria_tamano r = Some "Pequeña"%string.
Proof.
  intros r.
  assert (H : In r (DataProcessor.clean_data Examples.raw_table))
    by (left; reflexivity).
  split; [exact H|].
  destruct (cleaned_row_categories Examples.raw_table r H)
    as (p & m & Ep & Em & P1 & _ & _ & _ & M1 & _).
  injection Ep as <-. injection Em as <-.
  split; [apply P1 | apply M1]; discriminate.
Defined.

(** Cleaning works row by row: the cleaned table of two tables put
    one after the other is the two cleaned tables put one after the
    other, and the cleaned table of no rows has no rows. *)
Theorem clean_data_app (df1 df2 : DataFrame) :
  DataProcessor.clean_data (df1 ++ df2)
  = DataProcessor.clean_data df1 ++ DataProcessor.clean_data df2 /\
  DataProcessor.clean_data [] = [].
Proof.
  unfold DataProcessor.clean_data.
  rewrite !filter_app, map_app. split; reflexivity.
Qed.

(* ================================================================= *)
(** ** The ROI table *)

Module RoiTableFacts.

Import DataProcessor.

Lemma mean_by_barrio_keys (op : string) (df : DataFrame) :
  map fst (precio_mean_by_barrio op df)
  = Pandas.group_keys (map barrio (subset op df)).
Proof.
  unfold precio_mean_by_barrio. rewrite map_map. simpl. apply map_id.
Qed.

(** The neighbourhoods of [roi_data]: the keys of the sale Series that
    are in the index of the rent Series, in the order of the keys. *)
Lemma roi_data_barrios (venta_avg alquiler_avg : list (string * option Q)) :
  map roi_barrio (roi_data venta_avg alquiler_avg)
  = filter (fun k => in_index k alquiler_avg) (map fst venta_avg).
Proof.
  unfold roi_data.
  induction venta_avg as [|e v IH]; [reflexivity|].
  cbn [flat_map map filter]. rewrite map_app, IH.
  destruct (in_index (fst e) alquiler_avg); reflexivity.
Qed.

Lemma xgeb_trans (x y z : xfloat) :
  xisnan x = false -> xisnan y = false -> xisnan z = false ->
  xgeb x y = true -> xgeb y z = true -> xgeb x z = true.
Proof.
  destruct x as [a|[]|], y as [b|[]|], z as [c|[]|]; simpl;
    try congruence.
  intros _ _ _ H1 H2. apply Qle_bool_iff in H1, H2.
  apply Qle_bool_iff. lra.
Qed.

Lemma xgeb_total (x y : xfloat) :
  xisnan x = false -> xisnan y = false ->
  xgeb x y = false -> xgeb y x = true.
Proof.
  destruct x as [a|[]|], y as [b|[]|]; simpl; try congruence.
  intros _ _ H. apply Qle_bool_iff.
  apply DeriveFacts.Qle_bool_false in H. lra.
Qed.

Lemma roi_order_of_xgeb (r1 r2 : RoiRow) :
  xisnan (roi_anual_porcentaje r1) = false ->
  xisnan (roi_anual_porcentaje r2) = false ->
  (Orders.roi_order r1 r2 <->
   xgeb (roi_anual_porcentaje r1) (roi_anual_porcentaje r2) = true).
Proof.
  unfold Orders.roi_order.
  destruct (roi_anual_porcentaje r1) as [a|[]|],
    (roi_anual_porcentaje r2) as [b|[]|]; simpl;
    intros; try discriminate; tauto.
Qed.

Lemma roi_order_nan (r1 r2 : RoiRow) :
  xisnan (roi_anual_porcentaje r2) = true -> Orders.roi_order r1 r2.
Proof.
  unfold Orders.roi_order.
  destruct (roi_anual_porcentaje r2) as [b|[]|]; try discriminate.
  intros _. now destruct (roi_anual_porcentaje r1) as [a|[]|].
Qed.

Lemma roi_order_left_nan (r1 r2 : RoiRow) :
  xisnan (roi_anual_porcentaje r1) = true -> Orders.roi_order r1 r2 ->
  xisnan (roi_anual_porcentaje r2) = true.
Proof.
  unfold Orders.roi_order.
  destruct (roi_anual_porcentaje r1) as [a|[]|]; try discriminate.
  now destruct (roi_anual_porcentaje r2) as [b|[]|].
Qed.

Lemma roi_order_trans (x y z : RoiRow) :
  Orders.roi_order x y -> Orders.roi_order y z -> Orders.roi_order x z.
Proof.
  intros H1 H2.
  destruct (xisnan (roi_anual_porcentaje z)) eqn:Ez;
    [now apply roi_order_nan|].
  destruct (xisnan (roi_anual_porcentaje y)) eqn:Ey.
  { apply (roi_order_left_nan y z Ey) in H2. congruence. }
  destruct (xisnan (roi_anual_porcentaje x)) eqn:Ex.
  { apply (roi_order_left_nan x y Ex) in H1. congruence. }
  apply roi_order_of_xgeb; [assumption | assumption|].
  apply roi_order_of_xgeb in H1; [|assumption|assumption].
  apply roi_order_of_xgeb in H2; [|assumption|assumption].
  now apply (xgeb_trans _ (roi_anual_porcentaje y)).
Qed.

Lemma roi_sorted (l : list RoiRow) :
  StronglySorted Orders.roi_order
    (Pandas.sort_values_desc
       (fun r => xisnan (roi_anual_porcentaje r))
       (fun r1 r2 => xgeb (roi_anual_porcentaje r1)
                          (roi_anual_porcentaje r2)) l).
Proof.
  apply PandasFacts.sort_values_desc_sorted.
  - exact roi_order_trans.
  - intros x y Hx Hy H. now apply roi_order_of_xgeb.
  - intros x y Hx Hy H. apply roi_order_of_xgeb; [assumption..|].
    now apply xgeb_total.
  - intros x y. apply roi_order_nan.
Qed.

Lemma calculate_roi_potential_eq (df : DataFrame) :
  calculate_roi_potential df =
  match roi_data (precio_mean_by_barrio "venta" df)
                 (precio_mean_by_barrio "alquiler" df) with
  | [] => Raise KeyError
  | rows =>
      Ok (Pandas.sort_values_desc
            (fun r => xisnan (roi_anual_porcentaje r))
            (fun r1 r2 => xgeb (roi_anual_porcentaje r1)
                               (roi_anual_porcentaje r2))
            rows)
  end.
Proof. reflexivity. Qed.

End RoiTableFacts.

(** [calculate_roi_potential] fails with [KeyError] exactly when no
    neighbourhood has both a sale row and a rent row, as for an empty
    table or a table of sales only; otherwise it returns a table. *)
Theorem roi_key_error_iff_no_common_neighborhood (df : DataFrame) :
  DataProcessor.calculate_roi_potential df = Raise KeyError <->
  ~ exists b s1 s2,
      In s1 df /\ tipo_operacion s1 = "venta"%string
      /\ barrio s1 = Some b /\
      In s2 df /\ tipo_operacion s2 = "alquiler"%string
      /\ barrio s2 = Some b.
Proof.
  split.
  - intros Herr (b & s1 & s2 & H1 & O1 & B1 & H2 & O2 & B2).
    destruct (RoiFacts.common_neighborhood_kept df b)
      as (out & r & Hok & _); [eauto | eauto |].
    rewrite Herr in Hok. discriminate Hok.
  - intros Hnone.
    rewrite RoiTableFacts.calculate_roi_potential_eq.
    destruct (DataProcessor.roi_data _ _) as [|r rows] eqn:E;
      [reflexivity|].
    exfalso. apply Hnone.
    assert (Hr : In r (DataProcessor.roi_data
                         (DataProcessor.precio_mean_by_barrio "venta" df)
                         (DataProcessor.precio_mean_by_barrio "alquiler"
                            df)))
      by (rewrite E; now left).
    apply RoiFacts.roi_data_In in Hr as (e & He & Hidx & _).
    apply RoiFacts.mean_by_barrio_In in He as [He _].
    apply RoiFacts.barrio_in_subset in He as (s1 & H1 & O1 & B1).
    apply RoiFacts.in_index_true in Hidx as (e' & He' & Hk).
    apply RoiFacts.mean_by_barrio_In in He' as [He' _].
    rewrite Hk in He'.
    apply RoiFacts.barrio_in_subset in He' as (s2 & H2 & O2 & B2).
    exists (fst e), s1, s2. auto 10.
Qed.

(** A row of the ROI table holds the mean sale price and the mean rent
    of its neighbourhood; with both present and a non-zero mean sale
    price, its annual ROI is twelve rents over the sale price, in
    percent. *)
Theorem roi_row_of_group_means
  (df : DataFrame) (out : list DataProcessor.RoiRow)
  (r : DataProcessor.RoiRow) :
  DataProcessor.calculate_roi_potential df = Ok out -> In r out ->
  let sales := DataProcessor.group (DataProcessor.roi_barrio r)
                 (DataProcessor.subset "venta" df) in
  let rents := DataProcessor.group (DataProcessor.roi_barrio r)
                 (DataProcessor.subset "alquiler" df) in
  DataProcessor.precio_venta_promedio r = Cell.mean (map precio sales) /\
  DataProcessor.precio_alquiler_mensual_promedio r
  = Cell.mean (map precio rents) /\
  (forall pv pa,
      Cell.mean (map precio sales) = Some pv ->
      Cell.mean (map precio rents) = Some pa ->
      ~ pv == 0 ->
      exists q, DataProcessor.roi_anual_porcentaje r = DataProcessor.Fin q
                /\ q == pa * 12 / pv * 100).
Proof.
  intros Hcall Hr sales rents.
  apply (RoiFacts.calculate_roi_potential_In df out r Hcall) in Hr.
  apply RoiFacts.roi_data_In in Hr
    as (e & He & Hidx & Eb & Ev & Ea & Eroi).
  apply RoiFacts.mean_by_barrio_In in He as [_ Hmean].
  apply RoiFacts.at_index_found in Hidx as (e' & He' & Hk & Hat).
  apply RoiFacts.mean_by_barrio_In in He' as [_ Hmean'].
  assert (Hv : DataProcessor.precio_venta_promedio r
               = Cell.mean (map precio sales)).
  { unfold sales. now rewrite Ev, Eb. }
  assert (Ha : DataProcessor.precio_alquiler_mensual_promedio r
               = Cell.mean (map precio rents)).
  { unfold rents. now rewrite Ea, Hat, Hmean', Hk, Eb. }
  split; [exact Hv|]. split; [exact Ha|].
  intros pv pa Epv Epa Hnz.
  rewrite Eroi. rewrite <- Ea, <- Ev, Hv, Ha, Epv, Epa. simpl.
  unfold DataProcessor.is_zero.
  destruct (Qeq_bool pv 0) eqn:Z;
    [apply Qeq_bool_eq in Z; contradiction|].
  eexists. split; reflexivity.
Qed.

Lemma roi_row_of_group_means_witness :
  exists r,
    Examples.rows_of
      (DataProcessor.calculate_roi_potential Examples.pocitos_pair) = [r] /\
    DataProcessor.precio_venta_promedio r
    = Cell.mean [Some 100000] /\
    DataProcessor.precio_alquiler_mensual_promedio r
    = Cell.mean [Some 1200].
Proof.
  set (res := DataProcessor.calculate_roi_potential Examples.pocitos_pair).
  assert (Hcall : res = Ok (Examples.rows_of res))
    by (vm_compute; reflexivity).
  assert (Hrows : exists r, Examples.rows_of res = [r] /\
                            DataProcessor.roi_barrio r = "Pocitos"%string)
    by (vm_compute; eexists; split; reflexivity).
  destruct Hrows as (r & E & Hb). rewrite E in Hcall |- *.
  exists r. split; [reflexivity|].
  destruct (roi_row_of_group_means Examples.pocitos_pair [r] r Hcall
              (or_introl eq_refl)) as (Hv & Ha & _).
  rewrite Hb in Hv, Ha. split; [exact Hv | exact Ha].
Defined.

(** The ROI table has one row for each neighbourhood, none twice, in
    descending order of the annual ROI with NaN last. *)
Theorem roi_table_sorted_one_row_each
  (df : DataFrame) (out : list DataProcessor.RoiRow) :
  DataProcessor.calculate_roi_potential df = Ok out ->
  NoDup (map DataProcessor.roi_barrio out) /\
  StronglySorted Orders.roi_order out.
Proof.
  rewrite RoiTableFacts.calculate_roi_potential_eq.
  set (rows := DataProcessor.roi_data _ _).
  assert (Hnd : NoDup (map DataProcessor.roi_barrio rows)).
  { unfold rows. rewrite RoiTableFacts.roi_data_barrios.
    apply NoDup_filter. rewrite RoiTableFacts.mean_by_barrio_keys.
    apply KeyFacts.group_keys_NoDup. }
  destruct rows as [|r0 rest] eqn:E; [discriminate|].
  intros H. injection H as <-. split.
  - eapply Permutation_NoDup; [|exact Hnd].
    apply Permutation_map. apply PandasFacts.sort_values_desc_perm.
  - apply RoiTableFacts.roi_sorted.
Qed.

Lemma roi_table_sorted_one_row_each_witness :
  let out := Examples.rows_of
               (DataProcessor.calculate_roi_potential
                  (Examples.pocitos_pair
                   ++ [Examples.venta 90000 60 "Centro";
                       Examples.alquiler 600 60 "Centro"])) in
  NoDup (map DataProcessor.roi_barrio out) /\
  StronglySorted Orders.roi_order out.
Proof.
  intros out.
  apply (roi_table_sorted_one_row_each
           (Examples.pocitos_pair
            ++ [Examples.venta 90000 60 "Centro";
                Examples.alquiler 600 60 "Centro"])).
  vm_compute. reflexivity.
Defined.

(* ================================================================= *)
(** ** The feature table *)

Module FeatureFacts.

Import DataProcessor Features.

Lemma dummies_absent (prefix : string) (cats : list string) (b : string) :
  ~ In b cats -> filter snd (dummies prefix cats (Some b)) = [].
Proof.
  induction cats as [|c cats IH]; intros Hb; [reflexivity|].
  simpl. destruct (String.eqb b c) eqn:E.
  - apply String.eqb_eq in E. exfalso. apply Hb. now left.
  - apply IH. intros H. apply Hb. now right.
Qed.

Lemma dummies_one_hot (prefix : string) (cats : list string) (b : string) :
  NoDup cats -> In b cats ->
  filter snd (dummies prefix cats (Some b)) = [(dummy_name prefix b, true)].
Proof.
  induction 1 as [|c cats Hc Hnd IH]; intros Hb; [destruct Hb|].
  simpl. destruct (String.eqb b c) eqn:E.
  - apply String.eqb_eq in E. subst c. simpl.
    now rewrite (dummies_absent prefix cats b Hc).
  - apply IH. destruct Hb as [Hb|Hb]; [|exact Hb].
    subst c. rewrite String.eqb_refl in E. discriminate E.
Qed.

Lemma dummies_nan (prefix : string) (cats : list string) :
  filter snd (dummies prefix cats None) = [].
Proof. induction cats as [|c cats IH]; [reflexivity | exact IH]. Qed.

Lemma dummies_names (prefix : string) (cats : list string)
  (cell : option string) :
  map fst (dummies prefix cats cell) = map (dummy_name prefix) cats.
Proof. unfold dummies. rewrite map_map. reflexivity. Qed.

Lemma fill_complete (col : list (option Q)) (x : option Q) :
  (exists y, In y col /\ y <> None) ->
  Cell.fillna (Cell.median col) x <> None.
Proof.
  intros (y & Hy & Hsome).
  destruct x as [a|]; [discriminate|]. simpl.
  destruct (Cell.median col) eqn:E; [discriminate|].
  exfalso. apply Hsome.
  exact (JoinFacts.values_nil col (JoinFacts.median_none col E) y Hy).
Qed.

Lemma Qinsert_In (x y : Q) (l : list Q) :
  In y (Cell.Qinsert x l) -> y = x \/ In y l.
Proof.
  induction l as [|z l IH]; simpl.
  - intros [H|[]]. now left.
  - destruct (Qle_bool x z); simpl.
    + intros [H|H]; [now left | now right].
    + intros [H|H]; [right; now left|].
      destruct (IH H) as [E|E]; [now left | right; now right].
Qed.

Lemma Qsort_In (y : Q) (l : list Q) :
  In y (Cell.Qsort l) -> In y l.
Proof.
  induction l as [|x l IH]; simpl; [tauto|].
  intros H. apply Qinsert_In in H as [H|H]; [now left | right; auto].
Qed.

Lemma values_present (col : list (option Q)) (a : Q) :
  In a (Cell.values col) -> In (Some a) col.
Proof.
  induction col as [|[b|] r IH]; simpl; [tauto| |].
  - intros [H|H]; [left; congruence | right; auto].
  - intros H. right. auto.
Qed.

(** The median of a column lies between two of its numbers. *)
Lemma median_between (col : list (option Q)) (m : Q) :
  Cell.median col = Some m ->
  exists a b, In (Some a) col /\ In (Some b) col /\ a <= m /\ m <= b.
Proof.
  unfold Cell.median.
  set (s := Cell.Qsort (Cell.values col)).
  assert (Hs : forall i, (i < List.length s)%nat ->
                         In (Some (nth i s 0)) col).
  { intros i Hi. apply values_present, Qsort_In. now apply nth_In. }
  destruct (List.length s) as [|n] eqn:En; [discriminate|].
  assert (Hhalf : (S n / 2 < S n)%nat)
    by (apply Nat.div_lt; lia).
  destruct (Nat.even (S n)).
  - set (x := nth (S n / 2 - 1) s 0).
    set (y := nth (S n / 2) s 0).
    assert (Hx : In (Some x) col) by (apply Hs; lia).
    assert (Hy : In (Some y) col) by (apply Hs; lia).
    clearbody x y. intros H.
    assert (Hm : (x + y) / 2 = m) by (injection H; exact (fun e => e)).
    subst m.
    destruct (Qlt_le_dec x y) as [Hlt|Hle]; [exists x, y | exists y, x];
      (split; [assumption|]; split; [assumption|]; split;
       [apply Qle_shift_div_l | apply Qle_shift_div_r]; lra).
  - set (x := nth (S n / 2) s 0).
    assert (Hx : In (Some x) col) by (apply Hs; lia).
    clearbody x. intros H.
    assert (Hm : x = m) by (injection H; exact (fun e => e)).
    subst m. exists x, x. repeat split; try assumption; lra.
Qed.

End FeatureFacts.

(** The encoding of [prepare_ml_features] is one-hot.  The feature
    table has one row per listing, in the order of the listings.  The
    indicator columns are the same in every row, one for each
    neighbourhood that occurs in the table.  The row made from a
    listing sets the indicator of that listing's neighbourhood and no
    other, none when the listing has no neighbourhood, and the one
    indicator of that listing's operation. *)
Theorem ml_encoding_is_one_hot (df : DataFrame) (i : nat) (r : Row) :
  nth_error df i = Some r ->
  List.length (Features.prepare_ml_features df) = List.length df /\
  (forall b, In b (Features.categories (map barrio df)) <->
             exists r', In r' df /\ barrio r' = Some b) /\
  exists x,
    nth_error (Features.prepare_ml_features df) i = Some x /\
    map fst (Features.ml_barrio x)
    = map (Features.dummy_name "barrio")
          (Features.categories (map barrio df)) /\
    (forall b, barrio r = Some b ->
       filter snd (Features.ml_barrio x)
       = [(Features.dummy_name "barrio" b, true)]) /\
    (barrio r = None -> filter snd (Features.ml_barrio x) = []) /\
    filter snd (Features.ml_operacion x)
    = [(Features.dummy_name "operacion" (tipo_operacion r), true)].
Proof.
  intros Hi. pose proof (nth_error_In _ _ Hi) as Hr.
  unfold Features.prepare_ml_features.
  split; [apply length_map|]. split.
  { intros b. unfold Features.categories.
    rewrite PandasFacts.group_keys_In, in_map_iff. split.
    - intros (r' & E & H'). eauto.
    - intros (r' & H' & E). eauto. }
  eexists. split; [apply map_nth_error; exact Hi|]. simpl.
  split; [apply FeatureFacts.dummies_names|].
  split; [|split].
  - intros b Hb. rewrite Hb.
    apply FeatureFacts.dummies_one_hot;
      [apply KeyFacts.group_keys_NoDup|].
    apply PandasFacts.group_keys_In. rewrite <- Hb. now apply in_map.
  - intros Hb. rewrite Hb. apply FeatureFacts.dummies_nan.
  - apply FeatureFacts.dummies_one_hot;
      [apply KeyFacts.group_keys_NoDup|].
    apply PandasFacts.group_keys_In.
    exact (in_map (fun r => Some (tipo_operacion r)) df r Hr).
Qed.

Lemma ml_encoding_is_one_hot_witness :
  exists r x,
    nth_error Samples.flats 1 = Some r /\
    barrio r = Some "Centro"%string /\
    nth_error (Features.prepare_ml_features Samples.flats) 1 = Some x /\
    map fst (Features.ml_barrio x)
    = ["barrio_Centro"%string; "barrio_Pocitos"%string] /\
    filter snd (Features.ml_barrio x) = [("barrio_Centro"%string, true)] /\
    filter snd (Features.ml_operacion x)
    = [("operacion_venta"%string, true)].
Proof.
  assert (Hr : exists r,
             nth_error Samples.flats 1 = Some r /\
             barrio r = Some "Centro"%string /\
             tipo_operacion r = "venta"%string)
    by (eexists; repeat split; reflexivity).
  destruct Hr as (r & Hi & Hb & Hop).
  destruct (ml_encoding_is_one_hot Samples.flats 1 r Hi)
    as (_ & _ & x & Hx & Hnames & Hown & _ & Hoper).
  exists r, x. split; [exact Hi|]. split; [exact Hb|].
  split; [exact Hx|]. split; [exact Hnames|].
  split; [exact (Hown _ Hb)|].
  rewrite Hoper, Hop. reflexivity.
Defined.

(** [prepare_ml_features] keeps the bedroom count of a listing that
    has one and gives a listing without the median of the bedroom
    counts of the table, which lies between two of them; when one
    listing has a bedroom count no row of the feature table lacks it.
    The same holds of bathrooms. *)
Theorem ml_counts_are_filled (df : DataFrame) (i : nat) (r : Row) :
  nth_error df i = Some r ->
  exists x,
    nth_error (Features.prepare_ml_features df) i = Some x /\
    (forall d, dormitorios r = Some d ->
               Features.ml_dormitorios x = Some d) /\
    (dormitorios r = None ->
     Features.ml_dormitorios x = Cell.median (map dormitorios df)) /\
    (forall b, banos r = Some b -> Features.ml_banos x = Some b) /\
    (banos r = None ->
     Features.ml_banos x = Cell.median (map banos df)) /\
    ((exists r', In r' df /\ dormitorios r' <> None) ->
     exists m r1 r2 d1 d2,
       Cell.median (map dormitorios df) = Some m /\
       In r1 df /\ dormitorios r1 = Some d1 /\
       In r2 df /\ dormitorios r2 = Some d2 /\
       d1 <= m /\ m <= d2 /\
       Features.ml_dormitorios x <> None) /\
    ((exists r', In r' df /\ banos r' <> None) ->
     exists m r1 r2 b1 b2,
       Cell.median (map banos df) = Some m /\
       In r1 df /\ banos r1 = Some b1 /\
       In r2 df /\ banos r2 = Some b2 /\
       b1 <= m /\ m <= b2 /\
       Features.ml_banos x <> None).
Proof.
  intros Hi.
  assert (Hfill : forall (count : Row -> option Q) (c : option Q),
             (exists r', In r' df /\ count r' <> None) ->
             exists m r1 r2 c1 c2,
               Cell.median (map count df) = Some m /\
               In r1 df /\ count r1 = Some c1 /\
               In r2 df /\ count r2 = Some c2 /\
               c1 <= m /\ m <= c2 /\
               Cell.fillna (Cell.median (map count df)) c <> None).
  { intros count c (r' & Hr' & Hc).
    assert (Hne : Cell.fillna (Cell.median (map count df)) c <> None).
    { apply FeatureFacts.fill_complete.
      exists (count r'). split; [now apply in_map | exact Hc]. }
    destruct (Cell.median (map count df)) as [m|] eqn:Em.
    - destruct (FeatureFacts.median_between _ m Em)
        as (a & b & Ha & Hb & Hlo & Hhi).
      apply in_map_iff in Ha as (r1 & E1 & H1).
      apply in_map_iff in Hb as (r2 & E2 & H2).
      exists m, r1, r2, a, b. repeat split; assumption.
    - exfalso. apply Hc.
      exact (JoinFacts.values_nil _ (JoinFacts.median_none _ Em)
               (count r') (in_map count df r' Hr')). }
  unfold Features.prepare_ml_features.
  eexists. split; [apply map_nth_error; exact Hi|]. simpl.
  split; [intros d Hd; now rewrite Hd|].
  split; [intros Hd; now rewrite Hd|].
  split; [intros b Hb; now rewrite Hb|].
  split; [intros Hb; now rewrite Hb|].
  split; [apply Hfill | apply Hfill].
Qed.

Lemma ml_counts_are_filled_witness :
  exists r x,
    nth_error Samples.flats 0 = Some r /\
    dormitorios r = None /\
    nth_error (Features.prepare_ml_features Samples.flats) 0 = Some x /\
    Features.ml_dormitorios x = Cell.median (map dormitorios Samples.flats) /\
    Cell.eqv (Features.ml_dormitorios x) (Some 1) /\
    Features.ml_banos x = Some 1.
Proof.
  assert (Hr : exists r,
             nth_error Samples.flats 0 = Some r /\
             dormitorios r = None /\ banos r = Some 1)
    by (eexists; repeat split; reflexivity).
  destruct Hr as (r & Hi & Hd & Hb).
  destruct (ml_counts_are_filled Samples.flats 0 r Hi)
    as (x & Hx & _ & Hmed & Hkeep & _).
  exists r, x. split; [exact Hi|]. split; [exact Hd|].
  split; [exact Hx|]. split; [exact (Hmed Hd)|].
  split; [rewrite (Hmed Hd); vm_compute; reflexivity|].
  exact (Hkeep 1 Hb).
Defined.

(** The two ratios of [prepare_ml_features] are finite exactly when
    the numerator and the filled bedroom count are present and the
    bedroom count is not zero: a listing with no bedroom gets an
    infinite or NaN ratio, not an exception. *)
Theorem ml_ratio_finite_iff (df : DataFrame) (x : Features.MLRow) :
  In x (Features.prepare_ml_features df) ->
  (DataProcessor.finite (Features.ratio_precio_dormitorios x) <->
   exists p d, Features.ml_precio x = Some p /\
               Features.ml_dormitorios x = Some d /\ ~ d == 0) /\
  (DataProcessor.finite (Features.ratio_m2_dormitorios x) <->
   exists m d, Features.ml_metros_cuadrados x = Some m /\
               Features.ml_dormitorios x = Some d /\ ~ d == 0).
Proof.
  unfold Features.prepare_ml_features. rewrite in_map_iff.
  intros (r & <- & Hr). simpl.
  assert (H : forall n d : option Q,
             DataProcessor.finite
               (DataProcessor.xdiv (DataProcessor.of_cell n)
                                   (DataProcessor.of_cell d)) <->
             exists a b, n = Some a /\ d = Some b /\ ~ b == 0).
  { intros [a|] [b|]; simpl.
    - unfold DataProcessor.is_zero.
      destruct (Qeq_bool b 0) eqn:E.
      + apply Qeq_bool_eq in E. split.
        * destruct (Qeq_bool a 0); intros [].
        * intros (a' & b' & _ & Hb & Hnz). injection Hb as <-.
          contradiction.
      + apply Qeq_bool_neq in E. split; [|intros _; exact I].
        intros _. eauto.
    - split; [intros [] | intros (? & ? & _ & H & _); discriminate H].
    - split; [intros [] | intros (? & ? & H & _); discriminate H].
    - split; [intros [] | intros (? & ? & H & _); discriminate H]. }
  split; apply H.
Qed.

Lemma ml_ratio_finite_iff_witness :
  exists x,
    nth_error (Features.prepare_ml_features Samples.flats) 1 = Some x /\
    Features.ml_dormitorios x = Some 0 /\
    ~ DataProcessor.finite (Features.ratio_precio_dormitorios x).
Proof.
  assert (Hx : exists x,
             nth_error (Features.prepare_ml_features Samples.flats) 1
             = Some x /\
             Features.ml_dormitorios x = Some 0).
  { vm_compute. eexists. split; reflexivity. }
  destruct Hx as (x & Hx & Hd0). exists x.
  split; [exact Hx|]. split; [exact Hd0|].
  destruct (ml_ratio_finite_iff Samples.flats x (nth_error_In _ _ Hx))
    as [H _].
  intros F. apply H in F as (p & d & _ & Hd & Hnz).
  rewrite Hd0 in Hd. injection Hd as <-. apply Hnz. reflexivity.
Defined.

(* ================================================================= *)
(** ** The text cleaners *)

Module ScraperFacts.

Import Str Scraper.

Lemma digit_kept (c : ascii) :
  isdigit c = true ->
  removed c = false /\ isspace c = false /\
  Ascii.eqb c "-" = false /\ Ascii.eqb c "+" = false.
Proof.
  destruct c as [[] [] [] [] [] [] [] []]; vm_compute;
    intuition congruence.
Qed.

Lemma rstrip_no_space (l : list ascii) :
  Forall (fun c => isspace c = false) l -> rstrip l = l.
Proof.
  induction 1 as [|c r Hc _ IH]; [reflexivity|].
  rewrite StrFacts.rstrip_cons, IH.
  destruct r; [now rewrite Hc | reflexivity].
Qed.

Lemma lstrip_no_space (l : list ascii) :
  Forall (fun c => isspace c = false) l -> lstrip l = l.
Proof.
  destruct 1 as [|c r Hc _]; [reflexivity|]. simpl. now rewrite Hc.
Qed.

Lemma int_digits_of_digits (l : list ascii) :
  Forall (fun c => isdigit c = true) l ->
  forall acc count after_digit,
    int_digits acc count after_digit l =
    match l with
    | [] => if after_digit then Some (acc, count) else None
    | _ => Some (fold_left (fun a c => (a * 10 + digit c)%Z) l acc,
                 (count + Z.of_nat (List.length l))%Z)
    end.
Proof.
  induction 1 as [|c r Hc Hr IH]; intros acc count after_digit;
    [reflexivity|].
  cbn [int_digits]. rewrite Hc, IH.
  destruct r as [|c' r'].
  - simpl; f_equal; f_equal; lia.
  - cbn [fold_left List.length]; f_equal; f_equal; lia.
Qed.

(** When every character is a digit or of the deleted class, what is
    left after the deletion is the digits. *)
Lemma kept_are_digits (l : list ascii) :
  Forall (fun c => isdigit c || removed c = true) l ->
  filter (fun c => negb (removed c)) l = filter isdigit l.
Proof.
  induction 1 as [|c r Hc _ IH]; [reflexivity|]. simpl.
  destruct (isdigit c) eqn:D.
  - destruct (digit_kept c D) as (-> & _). simpl. now rewrite IH.
  - simpl in Hc. rewrite Hc. simpl. exact IH.
Qed.

Lemma prefix_app (p l post : list ascii) :
  prefix_chars p l = true -> prefix_chars p (l ++ post) = true.
Proof.
  revert l. induction p as [|a p IH]; intros [|b l]; simpl;
    try congruence.
  rewrite !andb_true_iff. intros [H1 H2]. auto.
Qed.

Lemma infix_app_r (p l post : list ascii) :
  infix_chars p l = true -> infix_chars p (l ++ post) = true.
Proof.
  induction l as [|b l IH].
  - simpl. rewrite orb_false_r. intros H.
    destruct p; [|discriminate H]. now destruct post.
  - cbn [infix_chars app]. fold (infix_chars p l).
    fold (infix_chars p (l ++ post)).
    rewrite !orb_true_iff. intros [H|H].
    + left. exact (prefix_app p (b :: l) post H).
    + right. now apply IH.
Qed.

Lemma infix_app_l (p pre l : list ascii) :
  infix_chars p l = true -> infix_chars p (pre ++ l) = true.
Proof.
  intros H. induction pre as [|b pre IH]; [exact H|].
  cbn [infix_chars app]. fold (infix_chars p (pre ++ l)).
  rewrite IH. apply orb_true_r.
Qed.

Lemma lstrip_suffix (l : list ascii) : exists pre, l = pre ++ lstrip l.
Proof.
  induction l as [|c r [pre IH]]; [now exists []|]. simpl.
  destruct (isspace c).
  - exists (c :: pre). simpl. now rewrite <- IH.
  - now exists [].
Qed.

Lemma rstrip_prefix (l : list ascii) : exists post, l = rstrip l ++ post.
Proof.
  induction l as [|c r [post IH]]; [now exists []|].
  rewrite StrFacts.rstrip_cons.
  destruct (rstrip r) as [|x r'] eqn:E.
  - destruct (isspace c).
    + exists (c :: r). reflexivity.
    + exists r. simpl. simpl in IH. reflexivity.
  - exists post. simpl. now rewrite IH.
Qed.

(** A name found in the stripped text is found in the text. *)
Lemma in_lower_strip (b text : string) :
  in_lower b (strip_ascii text) = true -> in_lower b text = true.
Proof.
  unfold in_lower, strip_ascii.
  rewrite list_ascii_of_string_of_list_ascii.
  set (l := list_ascii_of_string text). unfold strip_chars.
  destruct (rstrip_prefix l) as [post Hpost].
  destruct (lstrip_suffix (rstrip l)) as [pre Hpre].
  intros H. rewrite Hpost, Hpre, !map_app.
  apply infix_app_r, infix_app_l. exact H.
Qed.

Lemma strip_idem (s : string) :
  strip_ascii (strip_ascii s) = strip_ascii s.
Proof.
  unfold strip_ascii. rewrite list_ascii_of_string_of_list_ascii.
  now rewrite StrFacts.strip_chars_idem.
Qed.

(** Every configured neighbourhood is cleaned to itself. *)
Lemma configured_fixed :
  Forall (fun b => clean_neighborhood b = b) Settings.BARRIOS_MONTEVIDEO.
Proof. repeat constructor. Qed.

End ScraperFacts.

(** [clean_price] ignores the currency letters, the separators and the
    whitespace: a text made of digits and such characters, with at
    least one digit and no more than 4300, is read as the number that
    its digits write. *)
Theorem clean_price_reads_the_digits (price_text : string) :
  let chars := list_ascii_of_string price_text in
  let digits := filter Scraper.isdigit chars in
  Forall (fun c => Scraper.isdigit c || Scraper.removed c = true) chars ->
  digits <> [] ->
  (Z.of_nat (List.length digits) <= 4300)%Z ->
  Scraper.clean_price price_text = Some (Scraper.decimal digits).
Proof.
  intros chars digits Hall Hne Hlen.
  unfold Scraper.clean_price. fold chars.
  rewrite (ScraperFacts.kept_are_digits chars Hall). fold digits.
  assert (Hd : Forall (fun c => Scraper.isdigit c = true) digits).
  { apply Forall_forall. intros c Hc. apply filter_In in Hc. tauto. }
  assert (Hs : Forall (fun c => Str.isspace c = false) digits).
  { eapply Forall_impl; [|exact Hd]. intros c Hc.
    now destruct (ScraperFacts.digit_kept c Hc) as (_ & H & _). }
  unfold Scraper.int_of_chars, Str.strip_chars.
  rewrite (ScraperFacts.rstrip_no_space digits Hs),
    (ScraperFacts.lstrip_no_space digits Hs).
  destruct digits as [|c r] eqn:E; [congruence|].
  inversion Hd as [|? ? Hc Hr]; subst.
  destruct (ScraperFacts.digit_kept c Hc) as (_ & _ & -> & ->).
  rewrite (ScraperFacts.int_digits_of_digits (c :: r) Hd).
  unfold Scraper.int_max_str_digits.
  replace (4300 <? 0 + Z.of_nat (List.length (c :: r)))%Z with false
    by (symmetry; apply Z.ltb_ge; lia).
  reflexivity.
Qed.

Lemma clean_price_reads_the_digits_witness :
  Scraper.clean_price "U$S 150.000" = Some 150000%Z.
Proof.
  apply (clean_price_reads_the_digits "U$S 150.000").
  - repeat constructor.
  - discriminate.
  - vm_compute. discriminate.
Defined.

(** [clean_neighborhood] is idempotent: cleaning its own result gives
    the result again, be it a configured neighbourhood or the stripped
    text. *)
Theorem clean_neighborhood_idempotent (location_text : string) :
  Scraper.clean_neighborhood (Scraper.clean_neighborhood location_text)
  = Scraper.clean_neighborhood location_text.
Proof.
  assert (Hcase :
    (exists b, In b Settings.BARRIOS_MONTEVIDEO /\
               Scraper.clean_neighborhood location_text = b) \/
    ((forall b, In b Settings.BARRIOS_MONTEVIDEO ->
                Scraper.in_lower b location_text = false) /\
     Scraper.clean_neighborhood location_text
     = Str.strip_ascii location_text)).
  { unfold Scraper.clean_neighborhood.
    destruct (find _ Settings.BARRIOS_MONTEVIDEO) as [b|] eqn:E.
    - left. apply find_some in E as [Hb _]. eauto.
    - right. split; [|reflexivity].
      intros b Hb. exact (find_none _ _ E b Hb). }
  destruct Hcase as [(b & Hb & ->)|[Hno ->]].
  - pose proof ScraperFacts.configured_fixed as H.
    rewrite Forall_forall in H. now apply H.
  - unfold Scraper.clean_neighborhood.
    destruct (find _ Settings.BARRIOS_MONTEVIDEO) as [b|] eqn:E'.
    + apply find_some in E' as [Hb Hin].
      apply ScraperFacts.in_lower_strip in Hin.
      rewrite (Hno b Hb) in Hin. discriminate Hin.
    + apply ScraperFacts.strip_idem.
Qed.

(* ================================================================= *)
(** ** The risk prompt *)

(** Whatever is typed at the risk prompt, the risk tolerance handed to
    the optimizer is 'low', 'medium' or 'high': "1" gives 'low', "3"
    gives 'high', and every other answer, the empty one and the
    unknown ones included, gives 'medium'. *)
Theorem prompt_gives_known_risk (typed : string) :
  let risk_tolerance := Main.risk_tolerance_of typed in
  (typed = "1"%string /\ risk_tolerance = "low"%string) \/
  (typed = "3"%string /\ risk_tolerance = "high"%string) \/
  (typed <> "1"%string /\ typed <> "3"%string /\
   risk_tolerance = "medium"%string /\
   Optimizer.weights_for risk_tolerance
   = {| Optimizer.w_roi := 0.4;
        Optimizer.w_precio_m2 := 0.3;
        Optimizer.w_tamano := 0.3 |}).
Proof.
  cbv zeta. unfold Main.risk_tolerance_of, Main.or_default.
  destruct (String.eqb typed "") eqn:E0.
  - apply String.eqb_eq in E0. subst typed. simpl.
    right. right. repeat split; discriminate.
  - destruct (String.eqb typed "1") eqn:E1.
    + apply String.eqb_eq in E1. auto.
    + apply String.eqb_neq in E1.
      destruct (String.eqb typed "2") eqn:E2.
      * apply String.eqb_eq in E2. subst typed.
        right. right. repeat split; discriminate.
      * destruct (String.eqb typed "3") eqn:E3.
        -- apply String.eqb_eq in E3. auto.
        -- apply String.eqb_neq in E3. right. right. auto.
Qed.

(* ================================================================= *)
(** ** The ends of the scale *)

Module EndFacts.

Import MinMaxScaler.

Lemma fold_min_In (r : list Q) :
  forall a, In (fold_left Cell.Qmin' r a) (a :: r).
Proof.
  induction r as [|x r IH]; intros a; simpl; [now left|].
  destruct (IH (Cell.Qmin' a x)) as [H|H]; [|right; right; exact H].
  rewrite <- H. unfold Cell.Qmin'.
  destruct (Qle_bool a x); [left | right; left]; reflexivity.
Qed.

Lemma In_values (col : list (option Q)) (a : Q) :
  In a (Cell.values col) -> In (Some a) col.
Proof.
  induction col as [|[b|] r IH]; simpl; [tauto| |].
  - intros [H|H]; [left; congruence | right; auto].
  - intros H. right. auto.
Qed.

(** The smallest number of a column is scaled to 0. *)
Lemma transform_of_least (col : list (option Q)) (a : Q) :
  In (Some a) col ->
  (forall b, In (Some b) col -> a <= b) ->
  exists s,
    Cell.add (Cell.mul (Some a) (scale_ (fit col))) (min_ (fit col))
    = Some s /\ s == 0.
Proof.
  intros Ha Hleast.
  destruct (PointFacts.scale_positive col a Ha)
    as (mn & sc & Emn & -> & -> & _).
  destruct (RangeFacts.nan_extrema col a Ha)
    as (mn' & mx & Emn' & _ & Hlo & _).
  rewrite Emn in Emn'. injection Emn' as <-.
  assert (Hin : In (Some mn) col).
  { unfold Cell.nanmin in Emn.
    destruct (Cell.values col) as [|v r] eqn:E; [discriminate Emn|].
    injection Emn as <-. apply In_values. rewrite E.
    apply fold_min_In. }
  pose proof (Hleast mn Hin) as Hge.
  simpl. eexists. split; [reflexivity|].
  assert (a == mn) by lra. rewrite H. ring.
Qed.

End EndFacts.

(** The low end of each scale is met exactly.  The candidate with the
    lowest ROI of the query has ROI score 0 and the one with the
    smallest area size score 0; the cheapest per square metre has
    price score 1. *)
Theorem extreme_candidates_score_zero_or_one
  (self self' : Optimizer.InvestmentOptimizer)
  (budget_min budget_max : Q) (risk_tolerance : string)
  (rows : list Optimizer.Scored) (out : list string)
  (r : Optimizer.Scored) :
  Optimizer.calculate_investment_score budget_min budget_max
    risk_tolerance self = (Ok (Some rows), self', out) ->
  In r rows ->
  (forall y,
      Optimizer.roi_anual_porcentaje r = Some y ->
      (forall r' y', In r' rows ->
                     Optimizer.roi_anual_porcentaje r' = Some y' ->
                     y <= y') ->
      Cell.eqv (Optimizer.score_roi r) (Some 0)) /\
  (forall m,
      metros_cuadrados (Optimizer.listing r) = Some m ->
      (forall r' m', In r' rows ->
                     metros_cuadrados (Optimizer.listing r') = Some m' ->
                     m <= m') ->
      Cell.eqv (Optimizer.score_tamano r) (Some 0)) /\
  (forall p,
      precio_por_m2 (Optimizer.listing r) = Some p ->
      (forall r' p', In r' rows ->
                     precio_por_m2 (Optimizer.listing r') = Some p' ->
                     p <= p') ->
      Cell.eqv (Optimizer.score_precio_m2 r) (Some 1)).
Proof.
  intros Hcall Hr.
  apply MethodFacts.calculate_investment_score_rows in Hcall.
  set (venta_props := Optimizer.budget_filter _ _ _) in *.
  set (roi := Optimizer.roi_df self) in *.
  set (sc := Optimizer.scored_rows venta_props roi risk_tolerance) in *.
  assert (Hin : forall x, In x rows <-> In x sc).
  { intros x. rewrite Hcall. apply MethodFacts.sort_by_score_In. }
  assert (Hcolumn : forall (metric : Optimizer.Scored -> option Q) b,
             In (Some b) (map metric sc) ->
             exists r', In r' rows /\ metric r' = Some b).
  { intros metric b Hb. apply in_map_iff in Hb as (r' & E & Hr').
    exists r'. split; [now apply Hin | exact E]. }
  pose proof (proj1 (Hin r) Hr) as Hsc.
  split; [|split].
  - intros y Ey Hleast.
    rewrite (PointFacts.score_roi_pointwise venta_props roi _ r Hsc).
    cbv zeta. fold sc. rewrite Ey.
    destruct (EndFacts.transform_of_least
                (map Optimizer.roi_anual_porcentaje sc) y)
      as (s & -> & Hs).
    + rewrite <- Ey. now apply in_map.
    + intros b Hb. apply Hcolumn in Hb as (r' & Hr' & E). eauto.
    + exact Hs.
  - intros m Em Hleast.
    rewrite (PointFacts.score_tamano_pointwise venta_props roi _ r Hsc).
    cbv zeta. fold sc. rewrite Em.
    destruct (EndFacts.transform_of_least
                (map (fun r => metros_cuadrados (Optimizer.listing r)) sc)
                m) as (s & -> & Hs).
    + rewrite <- Em.
      exact (in_map (fun r => metros_cuadrados (Optimizer.listing r))
                    sc r Hsc).
    + intros b Hb.
      apply (Hcolumn (fun r => metros_cuadrados (Optimizer.listing r)))
        in Hb as (r' & Hr' & E). eauto.
    + exact Hs.
  - intros p Ep Hleast.
    rewrite (PointFacts.score_precio_m2_pointwise venta_props roi _ r Hsc).
    cbv zeta. fold sc. rewrite Ep.
    destruct (EndFacts.transform_of_least
                (map (fun r => precio_por_m2 (Optimizer.listing r)) sc) p)
      as (s & -> & Hs).
    + rewrite <- Ep.
      exact (in_map (fun r => precio_por_m2 (Optimizer.listing r))
                    sc r Hsc).
    + intros b Hb.
      apply (Hcolumn (fun r => precio_por_m2 (Optimizer.listing r)))
        in Hb as (r' & Hr' & E). eauto.
    + simpl. lra.
Qed.

Lemma extreme_candidates_score_zero_or_one_witness :
  exists r1 r2,
    Examples.table_of
      (Optimizer.calculate_investment_score 50000 300000 "medium"
         Examples.centro_and_pocitos) = [r1; r2] /\
    Optimizer.roi_anual_porcentaje r1 = Some 20 /\
    Optimizer.roi_anual_porcentaje r2 = Some 14.4 /\
    Cell.eqv (Optimizer.score_roi r2) (Some 0).
Proof.
  set (o := Optimizer.calculate_investment_score 50000 300000 "medium"
              Examples.centro_and_pocitos).
  assert (Hcall : o = (Ok (Some (Examples.table_of o)), snd (fst o), snd o))
    by (vm_compute; reflexivity).
  assert (Hrows : exists r1 r2,
             Examples.table_of o = [r1; r2] /\
             Optimizer.roi_anual_porcentaje r1 = Some 20 /\
             Optimizer.roi_anual_porcentaje r2 = Some 14.4).
  { vm_compute. do 2 eexists. repeat split; reflexivity. }
  destruct Hrows as (r1 & r2 & E & E1 & E2). rewrite E in Hcall |- *.
  exists r1, r2. split; [reflexivity|].
  split; [exact E1|]. split; [exact E2|].
  assert (Hall : forall r' y', In r' [r1; r2] ->
            Optimizer.roi_anual_porcentaje r' = Some y' ->
            14.4 <= y').
  { intros r' y' [<-|[<-|[]]] Hy; rewrite Hy in *;
      [injection E1 as -> | injection E2 as ->]; discriminate. }
  destruct (extreme_candidates_score_zero_or_one
              Examples.centro_and_pocitos _ 50000 300000 "medium"
              [r1; r2] _ r2 Hcall (or_intror (or_introl eq_refl)))
    as (H0 & _).
  apply (H0 14.4 E2). exact Hall.
Defined.
